(** * Expense tracker (src/main.py): a shallow embedding and its properties

    The program is a single class [ExpenseTracker] holding a list of expense
    dictionaries and a monthly budget, with console prompts for input and a
    CSV file for persistence.  The embedding below follows the source
    method by method:

    - Python [str] values are [string]s; a character is a code point < 256;
    - Python [float] values are IEEE 754 binary64 numbers, taken from the
      Standard Library's [SpecFloat] (round to nearest, ties to even);
    - an expense dictionary is a finite map from field names to values,
      plus the list [csv.DictReader] stores under its [restkey] [None];
    - [input()] reads from a list of pending lines and raises [EOFError]
      when it is empty; [print] appends an event to the console log;
    - the file system is a finite map from paths to file contents;
    - the [csv] module's reader and writer are modelled character by
      character for the default (excel) dialect.

    Limits of the model: opening a file never fails and every character
    can be encoded; [str.lower] acts on the ASCII letters only (it is used
    to compare with y); [sum] adds doubles from left to right, as CPython
    does up to version 3.11; an [int] is compared with a [float] through
    its conversion (the only [int] the program holds is 0); the menu loop
    [run] takes the number of its turns as fuel, and one turn per pending
    line of input and one more are shown to be enough. *)

From Stdlib Require Import ZArith List Ascii String Bool Lia.
From Stdlib Require Import Floats.SpecFloat.
From stdpp Require Import gmap strings list.

Local Open Scope Z_scope.

(** ** Characters and strings *)

Module Chars.

Definition code (c : ascii) : N := N_of_ascii c.

Definition LF : ascii := ascii_of_N 10.
Definition CR : ascii := ascii_of_N 13.
Definition comma : ascii := ","%char.
Definition dquote : ascii := ascii_of_N 34.

Definition is_lf (c : ascii) : bool := (code c =? 10)%N.
Definition is_cr (c : ascii) : bool := (code c =? 13)%N.
Definition is_comma (c : ascii) : bool := (code c =? 44)%N.
Definition is_dquote (c : ascii) : bool := (code c =? 34)%N.

(** [str.isspace] on one code point below 256. *)
Definition is_space (c : ascii) : bool :=
  let n := code c in
  ((9 <=? n) && (n <=? 13) || (28 <=? n) && (n <=? 32)
   || (n =? 133) || (n =? 160))%N.

(** The white space [float(str)] passes over at both ends of its
    argument: the six characters of C's [isspace], and the two code
    points from 127 on that are spaces (133 and 160), which it turns into
    a space first.  The separators 28 to 31 are spaces for [str.strip]
    but not for [float]. *)
Definition is_float_space (c : ascii) : bool :=
  let n := code c in
  ((9 <=? n) && (n <=? 13) || (n =? 32) || (n =? 133) || (n =? 160))%N.

Definition digit_val (c : ascii) : option Z :=
  let n := code c in
  if ((48 <=? n) && (n <=? 57))%N then Some (Z.of_N n - 48) else None.

Definition is_digit (c : ascii) : bool :=
  match digit_val c with Some _ => true | None => false end.

(** [str.lower] on the ASCII letters. *)
Definition lower (c : ascii) : ascii :=
  let n := code c in
  if ((65 <=? n) && (n <=? 90))%N then ascii_of_N (n + 32) else c.

End Chars.

Module Str.

Fixpoint all (p : ascii -> bool) (s : string) : bool :=
  match s with
  | EmptyString => true
  | String c s' => p c && all p s'
  end.

Fixpoint any (p : ascii -> bool) (s : string) : bool :=
  match s with
  | EmptyString => false
  | String c s' => p c || any p s'
  end.

Fixpoint map (f : ascii -> ascii) (s : string) : string :=
  match s with
  | EmptyString => EmptyString
  | String c s' => String (f c) (map f s')
  end.

Definition lower : string -> string := map Chars.lower.

Fixpoint lstrip (s : string) : string :=
  match s with
  | EmptyString => EmptyString
  | String c s' => if Chars.is_space c then lstrip s' else s
  end.

(** Drops the trailing white space: a character is kept when it is not
    a space or when something is kept after it. *)
Fixpoint rstrip (s : string) : string :=
  match s with
  | EmptyString => EmptyString
  | String c s' =>
      match rstrip s' with
      | EmptyString => if Chars.is_space c then EmptyString else String c EmptyString
      | r => String c r
      end
  end.

(** [str.strip()] *)
Definition strip (s : string) : string := rstrip (lstrip s).

(** The same for another set of characters to drop. *)
Fixpoint lstrip_of (p : ascii -> bool) (s : string) : string :=
  match s with
  | EmptyString => EmptyString
  | String c s' => if p c then lstrip_of p s' else s
  end.

Fixpoint rstrip_of (p : ascii -> bool) (s : string) : string :=
  match s with
  | EmptyString => EmptyString
  | String c s' =>
      match rstrip_of p s' with
      | EmptyString => if p c then EmptyString else String c EmptyString
      | r => String c r
      end
  end.

Definition strip_of (p : ascii -> bool) (s : string) : string :=
  rstrip_of p (lstrip_of p s).

(** [str.split(sep)] for a one-character separator: never empty. *)
Fixpoint split (sep : ascii -> bool) (s : string) : list string :=
  match s with
  | EmptyString => [EmptyString]
  | String c s' =>
      if sep c then EmptyString :: split sep s'
      else match split sep s' with
           | [] => [String c EmptyString]
           | w :: ws => String c w :: ws
           end
  end.

Fixpoint concat (l : list string) : string :=
  match l with
  | [] => EmptyString
  | s :: l' => s +:+ concat l'
  end.

Fixpoint join (sep : string) (l : list string) : string :=
  match l with
  | [] => EmptyString
  | [s] => s
  | s :: l' => s +:+ sep +:+ join sep l'
  end.

Fixpoint repeat (c : ascii) (n : nat) : string :=
  match n with
  | O => EmptyString
  | S n' => String c (repeat c n')
  end.

Fixpoint take (n : nat) (s : string) : string :=
  match n, s with
  | S n', String c s' => String c (take n' s')
  | _, _ => EmptyString
  end.

Fixpoint drop (n : nat) (s : string) : string :=
  match n, s with
  | S n', String _ s' => drop n' s'
  | _, _ => s
  end.

End Str.

(** ** Python numbers: [float] as IEEE 754 binary64 *)

Module PyFloat.

Definition prec : Z := 53.
Definition emax : Z := 1024.

Abbreviation float := spec_float.

Definition zero : float := S754_zero false.
Definition inf : float := S754_infinity false.
Definition nan : float := S754_nan.

Definition add : float -> float -> float := SFadd prec emax.
Definition sub : float -> float -> float := SFsub prec emax.
Definition abs : float -> float := SFabs.
Definition ltb : float -> float -> bool := SFltb.
Definition leb : float -> float -> bool := SFleb.
Definition eqb : float -> float -> bool := SFeqb.

(** [float(n)] for a Python [int] (inside the range of a double). *)
Definition of_int (n : Z) : float := binary_normalize prec emax n 0 false.

(** The double nearest to [m * 10^e] for a positive decimal mantissa. *)
Definition of_decimal (neg : bool) (m : Z) (e : Z) : float :=
  match m with
  | Zpos p =>
      if 0 <=? e then binary_round prec emax neg (p * Z.to_pos (10 ^ e)) 0
      else
        let '(q, e', l) := SFdiv_core_binary prec emax m 0 (10 ^ (- e)) 0 in
        binary_round_aux prec emax neg q e' l
  | _ => S754_zero neg
  end.

(** Two doubles are the same datum (unlike [==], true for NaN). *)
Definition eqb_float (x y : float) : bool :=
  match x, y with
  | S754_zero a, S754_zero b => Bool.eqb a b
  | S754_infinity a, S754_infinity b => Bool.eqb a b
  | S754_nan, S754_nan => true
  | S754_finite a m e, S754_finite b m' e' =>
      Bool.eqb a b && (m =? m')%positive && (e =? e')
  | _, _ => false
  end.

(** *** [float(str)]: the grammar of Python's float literals *)

(** A run of digits in which single underscores may separate digits;
    returns the value, the number of digits and the rest. *)
Fixpoint digits_go (acc : Z) (n : Z) (s : string) : Z * Z * string :=
  match s with
  | String c s' =>
      match Chars.digit_val c with
      | Some d => digits_go (10 * acc + d) (n + 1) s'
      | None =>
          if (Chars.code c =? 95)%N then
            match s' with
            | String c' _ =>
                if Chars.is_digit c' && (0 <? n) then digits_go acc n s'
                else (acc, n, s)
            | EmptyString => (acc, n, s)
            end
          else (acc, n, s)
      end
  | EmptyString => (acc, n, s)
  end.

Definition digits (s : string) : Z * Z * string := digits_go 0 0 s.

Definition sign (s : string) : bool * string :=
  match s with
  | String "-" s' => (true, s')
  | String "+" s' => (false, s')
  | _ => (false, s)
  end.

Definition exponent (s : string) : option Z :=
  match s with
  | EmptyString => Some 0
  | String c s' =>
      if (Chars.code (Chars.lower c) =? 101)%N then
        let '(neg, s1) := sign s' in
        match digits s1 with
        | (v, n, EmptyString) =>
            if 0 <? n then Some (if neg then - v else v) else None
        | _ => None
        end
      else None
  end.

Definition parse_decimal (neg : bool) (s : string) : option float :=
  let '(ip, n1, s1) := digits s in
  let '(fp, n2, s2) :=
    match s1 with
    | String "." s1' => digits_go ip 0 s1'
    | _ => (ip, 0, s1)
    end in
  if 0 <? n1 + n2 then
    match exponent s2 with
    | Some e => Some (of_decimal neg fp (e - n2))
    | None => None
    end
  else None.

(** [float(s)]: the white space of [float] is dropped at both ends (not
    the white space of [str.strip]: a separator 28 to 31 at either end
    makes the text no number), then come a sign, and [inf], [infinity],
    [nan] in any case or a decimal literal. *)
Definition of_string (s : string) : option float :=
  let '(neg, body) := sign (Str.strip_of Chars.is_float_space s) in
  let low := Str.lower body in
  if (low =? "inf")%string || (low =? "infinity")%string
  then Some (S754_infinity neg)
  else if (low =? "nan")%string then Some S754_nan
  else parse_decimal neg body.

(** *** [repr(float)]: the shortest decimal string that reads back *)

(** Decimal digits of a non-negative integer, at least one. *)
Fixpoint dec_digits_go (fuel : nat) (n : Z) (acc : string) : string :=
  match fuel with
  | O => acc
  | S fuel' =>
      let acc' := String (ascii_of_N (Z.to_N (48 + n mod 10))) acc in
      if n <? 10 then acc' else dec_digits_go fuel' (n / 10) acc'
  end.

Definition dec_digits (n : Z) : string :=
  dec_digits_go (S (Z.to_nat (Z.log2 n))) n EmptyString.

(** [str(n)] for a Python [int]. *)
Definition int_repr (n : Z) : string :=
  if n <? 0 then String "-" (dec_digits (- n)) else dec_digits n.

(** [x = num / den] as an exact fraction, for a positive finite [x]. *)
Definition num (m : positive) (e : Z) : Z :=
  if 0 <=? e then Zpos m * 2 ^ e else Zpos m.
Definition den (e : Z) : Z := if 0 <=? e then 1 else 2 ^ (- e).

(** [num / den * 10^k] as a fraction again. *)
Definition scale10 (n d k : Z) : Z * Z :=
  if 0 <=? k then (n * 10 ^ k, d) else (n, d * 10 ^ (- k)).

(** The decimal point position: the [k] with [10^(k-1) <= x < 10^k],
    searched downwards from an upper estimate [k]. *)
Fixpoint decpt_go (fuel : nat) (n d k : Z) : Z :=
  match fuel with
  | O => k
  | S fuel' =>
      let '(a, b) := scale10 n d (1 - k) in
      if b <=? a then k else decpt_go fuel' n d (k - 1)
  end.

(** [x < 2^l] for [l] the bit length of [x], and [log10 2 < 0.30103]. *)
Definition decpt (m : positive) (e : Z) : Z :=
  let l := Zpos (digits2_pos m) + e in
  decpt_go 4 (num m e) (den e) (l * 30103 / 100000 + 2).

(** The candidates with [n] significant digits: the decimal just below
    [x] and the one just above; the result is the one that reads back
    as [x], the nearer one when both do. *)
Definition candidate (x : float) (m : positive) (e : Z) (k n : Z)
  : option Z :=
  let '(a, b) := scale10 (num m e) (den e) (n - k) in
  let q := a / b in
  let r := a mod b in
  let lo := eqb_float (of_decimal false q (k - n)) x in
  let hi := eqb_float (of_decimal false (q + 1) (k - n)) x in
  if r =? 0 then Some q
  else if lo && hi then
    match 2 * r ?= b with
    | Lt => Some q
    | Gt => Some (q + 1)
    | Eq => Some (if Z.even q then q else q + 1)
    end
  else if lo then Some q
  else if hi then Some (q + 1)
  else None.

Fixpoint shortest_go (x : float) (m : positive) (e : Z) (k : Z)
    (fuel : nat) (n : Z) : Z * Z :=
  match fuel with
  | O => (Zpos m * 0, n)
  | S fuel' =>
      match candidate x m e k n with
      | Some q => (q, n)
      | None => shortest_go x m e k fuel' (n + 1)
      end
  end.

(** Trailing zeros carry no information: [(q, n)] stands for the digits
    of [q] read as [0.q * 10^k]. *)
Fixpoint strip_zeros (fuel : nat) (q : Z) : Z :=
  match fuel with
  | O => q
  | S fuel' => if (q mod 10 =? 0) && (0 <? q) then strip_zeros fuel' (q / 10) else q
  end.

Definition exp_repr (e : Z) : string :=
  String "e" (String (if e <? 0 then "-"%char else "+"%char)
    (let d := dec_digits (Z.abs e) in
     if (String.length d <? 2)%nat then String "0" d else d)).

(** Python switches to the exponent form when the decimal point lies
    left of [-4] or right of [16]. *)
Definition format_short (ds : string) (k : Z) : string :=
  let nd := Z.of_nat (String.length ds) in
  if (k <=? -4) || (16 <? k) then
    match ds with
    | String c EmptyString => String c (exp_repr (k - 1))
    | String c rest => String c (String "." rest) +:+ exp_repr (k - 1)
    | EmptyString => EmptyString
    end
  else if k <=? 0 then
    "0." +:+ Str.repeat "0" (Z.to_nat (- k)) +:+ ds
  else if nd <=? k then
    ds +:+ Str.repeat "0" (Z.to_nat (k - nd)) +:+ ".0"
  else
    Str.take (Z.to_nat k) ds +:+ "." +:+ Str.drop (Z.to_nat k) ds.

Definition repr_pos (m : positive) (e : Z) : string :=
  let x := S754_finite false m e in
  let k := decpt m e in
  let '(q, n) := shortest_go x m e k 17 1 in
  (* the upper candidate may have one digit more: 9.99 -> 10.0 *)
  let k' := if 10 ^ n <=? q then k + 1 else k in
  format_short (dec_digits (strip_zeros 18 q)) k'.

(** [repr(x)], which is also [str(x)] and what [csv] writes. *)
Definition repr (x : float) : string :=
  match x with
  | S754_zero s => if s then "-0.0" else "0.0"
  | S754_infinity s => if s then "-inf" else "inf"
  | S754_nan => "nan"
  | S754_finite s m e =>
      if s then String "-" (repr_pos m e) else repr_pos m e
  end.

End PyFloat.

(** ** The [csv] module, default dialect

    Delimiter comma, quote character the double quote, [doublequote] on, no escape
    character, [skipinitialspace] off, line terminator CR LF, minimal
    quoting, not strict.  With no escape character the reader's three
    escape states cannot be entered and are left out. *)

Module Csv.

Inductive pstate :=
| START_RECORD | START_FIELD | IN_FIELD
| IN_QUOTED_FIELD | QUOTE_IN_QUOTED_FIELD | EAT_CRNL.

Definition pstate_eqb (a b : pstate) : bool :=
  match a, b with
  | START_RECORD, START_RECORD | START_FIELD, START_FIELD
  | IN_FIELD, IN_FIELD | IN_QUOTED_FIELD, IN_QUOTED_FIELD
  | QUOTE_IN_QUOTED_FIELD, QUOTE_IN_QUOTED_FIELD | EAT_CRNL, EAT_CRNL => true
  | _, _ => false
  end.

(** The reader object: parser state, the fields of the record being
    read and the characters of the field being read. *)
Record reader := {
  state : pstate;
  fields : list string;
  field : string
}.

(** [csv.field_size_limit()] *)
Definition field_limit : Z := 131072.

(** [parse_reset] *)
Definition parse_reset : reader :=
  {| state := START_RECORD; fields := []; field := EmptyString |}.

(** [parse_add_char]: fails with [csv.Error] on an oversized field. *)
Definition parse_add_char (r : reader) (c : ascii) : option reader :=
  if field_limit <=? Z.of_nat (String.length (field r)) then None
  else Some {| state := state r; fields := fields r;
               field := field r +:+ String c EmptyString |}.

(** [parse_save_field] *)
Definition parse_save_field (r : reader) : reader :=
  {| state := state r; fields := fields r ++ [field r];
     field := EmptyString |}.

Definition set_state (s : pstate) (r : reader) : reader :=
  {| state := s; fields := fields r; field := field r |}.

Definition is_newline (c : ascii) : bool := Chars.is_lf c || Chars.is_cr c.

(** What [START_FIELD] does with a character; [START_RECORD] falls
    through to it on a character that is not a line end. *)
Definition start_field (r : reader) (c : ascii) : option reader :=
  if is_newline c then Some (set_state EAT_CRNL (parse_save_field r))
  else if Chars.is_dquote c then Some (set_state IN_QUOTED_FIELD r)
  else if Chars.is_comma c then Some (set_state START_FIELD (parse_save_field r))
  else option_map (set_state IN_FIELD) (parse_add_char r c).

(** [parse_process_char]; [None] as a character is the end-of-line
    mark the reader feeds itself after each line, [None] as a result is
    [csv.Error]. *)
Definition parse_process_char (r : reader) (c : option ascii)
  : option reader :=
  match state r, c with
  | START_RECORD, None => Some r
  | START_RECORD, Some c =>
      if is_newline c then Some (set_state EAT_CRNL r)
      else start_field r c
  | START_FIELD, None => Some (set_state START_RECORD (parse_save_field r))
  | START_FIELD, Some c => start_field r c
  | IN_FIELD, None => Some (set_state START_RECORD (parse_save_field r))
  | IN_FIELD, Some c =>
      if is_newline c then Some (set_state EAT_CRNL (parse_save_field r))
      else if Chars.is_comma c then Some (set_state START_FIELD (parse_save_field r))
      else parse_add_char r c
  | IN_QUOTED_FIELD, None => Some r
  | IN_QUOTED_FIELD, Some c =>
      if Chars.is_dquote c then Some (set_state QUOTE_IN_QUOTED_FIELD r)
      else parse_add_char r c
  | QUOTE_IN_QUOTED_FIELD, None =>
      Some (set_state START_RECORD (parse_save_field r))
  | QUOTE_IN_QUOTED_FIELD, Some c =>
      if Chars.is_dquote c
      then option_map (set_state IN_QUOTED_FIELD) (parse_add_char r c)
      else if Chars.is_comma c then Some (set_state START_FIELD (parse_save_field r))
      else if is_newline c then Some (set_state EAT_CRNL (parse_save_field r))
      else option_map (set_state IN_FIELD) (parse_add_char r c)
  | EAT_CRNL, None => Some (set_state START_RECORD r)
  | EAT_CRNL, Some c => if is_newline c then Some r else None
  end.

(** The characters of one line, in order. *)
Fixpoint process_chars (r : reader) (line : string) : option reader :=
  match line with
  | EmptyString => Some r
  | String c line' =>
      match parse_process_char r (Some c) with
      | Some r' => process_chars r' line'
      | None => None
      end
  end.

(** One turn of the loop of [Reader_iternext]: a line, then the mark. *)
Definition process_line (r : reader) (line : string) : option reader :=
  match process_chars r line with
  | Some r' => parse_process_char r' None
  | None => None
  end.

(** All the records of a sequence of lines ([list(reader)]); a record
    ends with the line that brings the parser back to [START_RECORD],
    and the end of the input closes a record left open. *)
Fixpoint read_rows (r : reader) (lines : list string)
  : option (list (list string)) :=
  match lines with
  | [] =>
      if negb (String.length (field r) =? 0)%nat
         || pstate_eqb (state r) IN_QUOTED_FIELD
      then Some [fields (parse_save_field r)]
      else Some []
  | line :: lines' =>
      match process_line r line with
      | None => None
      | Some r' =>
          if pstate_eqb (state r') START_RECORD
          then option_map (cons (fields r')) (read_rows parse_reset lines')
          else read_rows r' lines'
      end
  end.

Definition rows (lines : list string) : option (list (list string)) :=
  read_rows parse_reset lines.

(** *** The writer *)

(** A field is quoted when it holds a delimiter, a quote or a
    character of the line terminator ([join_append_data]). *)
Definition needs_quotes (c : ascii) : bool :=
  Chars.is_comma c || Chars.is_dquote c || is_newline c.

Fixpoint double_quotes (s : string) : string :=
  match s with
  | EmptyString => EmptyString
  | String c s' =>
      if Chars.is_dquote c then String c (String c (double_quotes s'))
      else String c (double_quotes s')
  end.

Definition dq : string := String Chars.dquote EmptyString.

Definition write_field (s : string) : string :=
  if Str.any needs_quotes s then dq +:+ double_quotes s +:+ dq
  else s.

Definition lineterminator : string :=
  String Chars.CR (String Chars.LF EmptyString).

(** [writer.writerow]: a record of one empty field is written as two
    quote characters. *)
Definition writerow (row : list string) : string :=
  match row with
  | [EmptyString] => dq +:+ dq +:+ lineterminator
  | _ => Str.join "," (List.map write_field row) +:+ lineterminator
  end.

End Csv.

(** ** Text files *)

Module TextFile.

(** Reading in text mode with the default [newline=None]: CR LF and a
    lone CR both arrive as LF. *)
Fixpoint universal_newlines (s : string) : string :=
  match s with
  | EmptyString => EmptyString
  | String c s' =>
      if Chars.is_cr c then
        match s' with
        | String c' s'' =>
            if Chars.is_lf c' then String Chars.LF (universal_newlines s'')
            else String Chars.LF (universal_newlines s')
        | EmptyString => String Chars.LF EmptyString
        end
      else String c (universal_newlines s')
  end.

(** [readline()]: up to and including the first LF; the rest. *)
Fixpoint readline (s : string) : string * string :=
  match s with
  | EmptyString => (EmptyString, EmptyString)
  | String c s' =>
      if Chars.is_lf c then (String c EmptyString, s')
      else let '(l, rest) := readline s' in (String c l, rest)
  end.

(** The lines the file iterator yields, each with its LF except
    possibly the last. *)
Fixpoint lines_go (cur : string) (s : string) : list string :=
  match s with
  | EmptyString =>
      match cur with EmptyString => [] | _ => [cur] end
  | String c s' =>
      if Chars.is_lf c then (cur +:+ String c EmptyString) :: lines_go EmptyString s'
      else lines_go (cur +:+ String c EmptyString) s'
  end.

Definition lines (s : string) : list string := lines_go EmptyString s.

End TextFile.

(** ** [datetime.strptime(s, '%Y-%m-%d')]

    The format compiles to a regular expression: four digits, a dash,
    a month written [1[0-2]], [0[1-9]] or [[1-9]], a dash, and a day
    written [3[01]], [[12]\d], [0[1-9]], [[1-9]] or space and [[1-9]];
    nothing may follow.  The date must then exist in the calendar. *)

Module Date.

Definition is_leap (y : Z) : bool :=
  (y mod 4 =? 0) && (negb (y mod 100 =? 0) || (y mod 400 =? 0)).

Definition days_in_month (y m : Z) : Z :=
  if m =? 2 then (if is_leap y then 29 else 28)
  else if (m =? 4) || (m =? 6) || (m =? 9) || (m =? 11) then 30
  else 31.

Definition year4 (a b c d : ascii) : option Z :=
  match Chars.digit_val a, Chars.digit_val b,
        Chars.digit_val c, Chars.digit_val d with
  | Some a, Some b, Some c, Some d => Some (1000 * a + 100 * b + 10 * c + d)
  | _, _, _, _ => None
  end.

(** The month and what follows its dash. *)
Definition month (s : string) : option (Z * string) :=
  match s with
  | String a (String "-" rest) =>
      match Chars.digit_val a with
      | Some d => if 1 <=? d then Some (d, rest) else None
      | None => None
      end
  | String a (String b (String "-" rest)) =>
      match Chars.digit_val a, Chars.digit_val b with
      | Some 1, Some d => if d <=? 2 then Some (10 + d, rest) else None
      | Some 0, Some d => if 1 <=? d then Some (d, rest) else None
      | _, _ => None
      end
  | _ => None
  end.

(** The day, which ends the string. *)
Definition day (s : string) : option Z :=
  match s with
  | String a EmptyString =>
      match Chars.digit_val a with
      | Some d => if 1 <=? d then Some d else None
      | None => None
      end
  | String a (String b EmptyString) =>
      match Chars.digit_val a, Chars.digit_val b with
      | Some 3, Some d => if d <=? 1 then Some (30 + d) else None
      | Some 0, Some d => if 1 <=? d then Some d else None
      | Some t, Some d => if t <=? 2 then Some (10 * t + d) else None
      | None, Some d =>
          if (Chars.code a =? 32)%N && (1 <=? d) then Some d else None
      | _, None => None
      end
  | _ => None
  end.

(** The parsed date, or [None] where Python raises [ValueError]. *)
Definition strptime (s : string) : option (Z * Z * Z) :=
  match s with
  | String a (String b (String c (String d (String "-" s1)))) =>
      match year4 a b c d, month s1 with
      | Some y, Some (m, s2) =>
          match day s2 with
          | Some dd =>
              if (1 <=? y) && (dd <=? days_in_month y m)
              then Some (y, m, dd) else None
          | None => None
          end
      | _, _ => None
      end
  | _ => None
  end.

End Date.

(** ** Values, exceptions and the console *)

Inductive number :=
| Int (n : Z)
| Float (x : PyFloat.float).

Inductive value :=
| VNone
| VStr (s : string)
| VNum (n : number).

(** An expense dictionary.  Its keys are field names; [rest] is the
    entry [csv.DictReader] files under the key [None] when a line has
    more fields than the header. *)
Record expense := {
  items : gmap string value;
  rest : option (list string)
}.

Inductive exn := EOFError | ValueError | TypeError | KeyError | CsvError.

(** How a call ends: it returns, an exception leaves it, or it prints
    the same error for ever. *)
Inductive outcome (A : Type) :=
| Ret (a : A)
| Raise (e : exn)
| Loops.
Arguments Ret {A} a.
Arguments Raise {A} e.
Arguments Loops {A}.

(** What reaches the console.  A formatted number is kept as the number
    handed to the format [.2f]. *)
Inductive msg :=
| Prompt (text : string)
| Say (text : string)
| SayAmount (label : string) (x : number)
| SayExpense (date category : value) (amount : number) (description : value)
| SayFile (label : string) (path : string)
| SayError (label : string) (e : exn).

Module Num.

Definition to_float (n : number) : PyFloat.float :=
  match n with
  | Int z => PyFloat.of_int z
  | Float x => x
  end.

Definition add (a b : number) : number :=
  match a, b with
  | Int x, Int y => Int (x + y)
  | _, _ => Float (PyFloat.add (to_float a) (to_float b))
  end.

Definition sub (a b : number) : number :=
  match a, b with
  | Int x, Int y => Int (x - y)
  | _, _ => Float (PyFloat.sub (to_float a) (to_float b))
  end.

Definition abs (a : number) : number :=
  match a with
  | Int x => Int (Z.abs x)
  | Float x => Float (PyFloat.abs x)
  end.

Definition eqb (a b : number) : bool :=
  match a, b with
  | Int x, Int y => x =? y
  | _, _ => PyFloat.eqb (to_float a) (to_float b)
  end.

Definition ltb (a b : number) : bool :=
  match a, b with
  | Int x, Int y => x <? y
  | _, _ => PyFloat.ltb (to_float a) (to_float b)
  end.

(** [a > b] *)
Definition gtb (a b : number) : bool := ltb b a.

(** [str(n)] *)
Definition repr (n : number) : string :=
  match n with
  | Int z => PyFloat.int_repr z
  | Float x => PyFloat.repr x
  end.

End Num.

(** The builtin [float(v)]. *)
Definition float_of (v : value) : PyFloat.float + exn :=
  match v with
  | VNone => inr TypeError
  | VStr s =>
      match PyFloat.of_string s with
      | Some x => inl x
      | None => inr ValueError
      end
  | VNum n => inl (Num.to_float n)
  end.

(** ** [csv.DictReader] and [csv.DictWriter] *)

Module Dict.

(** [dict(zip(keys, vals))]: a later pair wins over an earlier one. *)
Fixpoint zip_insert (keys vals : list string) (d : gmap string value)
  : gmap string value :=
  match keys, vals with
  | k :: keys', v :: vals' => zip_insert keys' vals' (<[k := VStr v]> d)
  | _, _ => d
  end.

(** [for key in keys: d[key] = None] *)
Fixpoint fill_none (keys : list string) (d : gmap string value)
  : gmap string value :=
  match keys with
  | k :: keys' => fill_none keys' (<[k := VNone]> d)
  | [] => d
  end.

(** The dictionary [DictReader.__next__] builds from a line's fields. *)
Definition of_row (fieldnames row : list string) : expense :=
  let d := zip_insert fieldnames row ∅ in
  let lf := length fieldnames in
  let lr := length row in
  if (lf <? lr)%nat then
    {| items := d; rest := Some (skipn lf row) |}
  else
    {| items := fill_none (skipn lr fieldnames) d; rest := None |}.

(** [list(csv.DictReader(f))] from the rows of the underlying reader:
    the first row is the header, empty rows are passed over. *)
Definition read (rows : list (list string)) : list expense :=
  match rows with
  | [] => []
  | fieldnames :: rows' =>
      List.map (of_row fieldnames)
        (List.filter (fun r => negb (length r =? 0)%nat) rows')
  end.

Definition fieldnames : list string :=
  ["date"; "category"; "amount"; "description"].

(** What the writer puts on the line for one value. *)
Definition cell (v : value) : string :=
  match v with
  | VNone => EmptyString
  | VStr s => s
  | VNum n => Num.repr n
  end.

(** [DictWriter._dict_to_list] with [extrasaction='raise'] and
    [restval='']: [None] for a dictionary with a key outside the
    field names (a [ValueError]). *)
Definition to_list (e : expense) : option (list string) :=
  match rest e with
  | Some _ => None
  | None =>
      if decide (dom (items e) ⊆ list_to_set fieldnames)
      then Some (List.map (fun k => from_option cell EmptyString (items e !! k))
                   fieldnames)
      else None
  end.

(** [writer.writerows(map(_dict_to_list, rowdicts))]: the text written,
    and whether a row raised. *)
Fixpoint writerows (l : list expense) : string * bool :=
  match l with
  | [] => (EmptyString, true)
  | e :: l' =>
      match to_list e with
      | None => (EmptyString, false)
      | Some row =>
          let '(text, ok) := writerows l' in
          (Csv.writerow row +:+ text, ok)
      end
  end.

End Dict.

(** ** The tracker and its world *)

Record tracker := {
  expenses : list expense;
  monthly_budget : number;
  filename : string
}.

(** The lines still to be typed, the console so far and the files. *)
Record world := {
  stdin : list string;
  stdout : list msg;
  files : gmap string string
}.

Definition with_expenses (l : list expense) (t : tracker) : tracker :=
  {| expenses := l; monthly_budget := monthly_budget t; filename := filename t |}.

Definition with_budget (b : number) (t : tracker) : tracker :=
  {| expenses := expenses t; monthly_budget := b; filename := filename t |}.

Definition print (m : msg) (w : world) : world :=
  {| stdin := stdin w; stdout := stdout w ++ [m]; files := files w |}.

Definition with_console (inp : list string) (out : list msg) (w : world) : world :=
  {| stdin := inp; stdout := out; files := files w |}.

Definition write_file (path text : string) (w : world) : world :=
  {| stdin := stdin w; stdout := stdout w; files := <[path := text]> (files w) |}.

(** The dictionary [add_expense] builds. *)
Definition new_expense (date category : string) (amount : PyFloat.float)
    (description : string) : expense :=
  {| items := <["description" := VStr description]>
                (<["amount" := VNum (Float amount)]>
                  (<["category" := VStr category]>
                    (<["date" := VStr date]> ∅)));
     rest := None |}.

(** *** The prompt loops

    Each turn of these loops reads one line, so they are written by
    recursion on the pending input; [out] is the console so far.  At the
    end of the input [input()] raises [EOFError], which none of the loops
    catches. *)

Definition date_prompt : string := "Enter expense date (YYYY-MM-DD): ".
Definition category_prompt : string :=
  "Enter expense category (e.g., Food, Travel): ".
Definition amount_prompt : string := "Enter expense amount: ".
Definition description_prompt : string := "Enter expense description: ".

Fixpoint get_valid_date (inp : list string) (out : list msg)
  : outcome string * list string * list msg :=
  match inp with
  | [] => (Raise EOFError, [], out ++ [Prompt date_prompt])
  | date_str :: inp' =>
      match Date.strptime date_str with
      | Some _ => (Ret date_str, inp', out ++ [Prompt date_prompt])
      | None =>
          get_valid_date inp'
            (out ++ [Prompt date_prompt;
                     Say "Invalid date format. Please use YYYY-MM-DD."])
      end
  end.

Fixpoint get_non_empty_input (prompt : string) (inp : list string)
    (out : list msg) : outcome string * list string * list msg :=
  match inp with
  | [] => (Raise EOFError, [], out ++ [Prompt prompt])
  | line :: inp' =>
      match Str.strip line with
      | EmptyString =>
          get_non_empty_input prompt inp'
            (out ++ [Prompt prompt; Say "Input cannot be empty."])
      | text => (Ret text, inp', out ++ [Prompt prompt])
      end
  end.

Fixpoint get_positive_float (prompt : string) (inp : list string)
    (out : list msg) : outcome PyFloat.float * list string * list msg :=
  match inp with
  | [] => (Raise EOFError, [], out ++ [Prompt prompt])
  | line :: inp' =>
      match PyFloat.of_string line with
      | Some value =>
          if PyFloat.ltb PyFloat.zero value
          then (Ret value, inp', out ++ [Prompt prompt])
          else get_positive_float prompt inp'
                 (out ++ [Prompt prompt; Say "Amount must be a positive number."])
      | None =>
          get_positive_float prompt inp'
            (out ++ [Prompt prompt;
                     Say "Invalid amount. Please enter a numeric value."])
      end
  end.

(** The body of the [try] in [add_expense], up to the dictionary. *)
Definition read_expense (inp : list string) (out : list msg)
  : outcome expense * list string * list msg :=
  match get_valid_date inp out with
  | (Ret date_str, inp1, out1) =>
      match get_non_empty_input category_prompt inp1 out1 with
      | (Ret category, inp2, out2) =>
          match get_positive_float amount_prompt inp2 out2 with
          | (Ret amount, inp3, out3) =>
              match get_non_empty_input description_prompt inp3 out3 with
              | (Ret description, inp4, out4) =>
                  (Ret (new_expense date_str category amount description),
                   inp4, out4)
              | (Raise e, i, o) => (Raise e, i, o)
              | (Loops, i, o) => (Loops, i, o)
              end
          | (Raise e, i, o) => (Raise e, i, o)
          | (Loops, i, o) => (Loops, i, o)
          end
      | (Raise e, i, o) => (Raise e, i, o)
      | (Loops, i, o) => (Loops, i, o)
      end
  | (Raise e, i, o) => (Raise e, i, o)
  | (Loops, i, o) => (Loops, i, o)
  end.

(** [add_expense].  An exception inside the [try] can only be the
    [EOFError] of [input()]; it is caught, reported and the loop starts
    again at the end of the input, so it never leaves. *)
Definition add_expense (t : tracker) (w : world)
  : outcome unit * tracker * world :=
  match read_expense (stdin w) (stdout w) with
  | (Ret e, inp, out) =>
      (Ret tt, with_expenses (expenses t ++ [e]) t,
       print (Say "Expense added successfully!") (with_console inp out w))
  | (Raise e, inp, out) =>
      (Loops, t, print (SayError "An error occurred: " e) (with_console inp out w))
  | (Loops, inp, out) => (Loops, t, with_console inp out w)
  end.

(** [view_expenses] *)

Definition tab : string := String (ascii_of_N 9) EmptyString.

Definition lookup_item (e : expense) (k : string) : value + exn :=
  match items e !! k with
  | Some v => inl v
  | None => inr KeyError
  end.

(** The format [.2f] applies to numbers only. *)
Definition format_2f (v : value) : number + exn :=
  match v with
  | VNum n => inl n
  | VStr _ => inr ValueError
  | VNone => inr TypeError
  end.

(** The line printed for one expense, or the exception raised while
    building it. *)
Definition expense_line (e : expense) : msg + exn :=
  match lookup_item e "date" with
  | inr x => inr x
  | inl d =>
      match lookup_item e "category" with
      | inr x => inr x
      | inl c =>
          match lookup_item e "amount" with
          | inr x => inr x
          | inl a =>
              match format_2f a with
              | inr x => inr x
              | inl n =>
                  match lookup_item e "description" with
                  | inr x => inr x
                  | inl s => inl (SayExpense d c n s)
                  end
              end
          end
      end
  end.

Fixpoint print_expenses (l : list expense) (out : list msg)
  : outcome unit * list msg :=
  match l with
  | [] => (Ret tt, out)
  | e :: l' =>
      match expense_line e with
      | inl m => print_expenses l' (out ++ [m])
      | inr x => (Raise x, out)
      end
  end.

Definition view_header : list msg :=
  [Say (String Chars.LF "--- Recorded Expenses ---");
   Say ("Date" +:+ tab +:+ tab +:+ "Category" +:+ tab +:+ "Amount"
        +:+ tab +:+ tab +:+ "Description");
   Say (Str.repeat "-" 60)].

Definition view_expenses (t : tracker) (w : world)
  : outcome unit * tracker * world :=
  match expenses t with
  | [] => (Ret tt, t, print (Say "No expenses recorded yet.") w)
  | _ =>
      let '(r, out') := print_expenses (expenses t) (stdout w ++ view_header) in
      (r, t, with_console (stdin w) out' w)
  end.

(** [set_budget]: the loop, then the assignment. *)

Definition budget_prompt : string := "Enter your monthly budget: $".

Fixpoint read_budget (inp : list string) (out : list msg)
  : outcome PyFloat.float * list string * list msg :=
  match inp with
  | [] => (Raise EOFError, [], out ++ [Prompt budget_prompt])
  | line :: inp' =>
      match PyFloat.of_string line with
      | Some budget =>
          if PyFloat.leb budget PyFloat.zero
          then read_budget inp'
                 (out ++ [Prompt budget_prompt;
                          Say "Budget must be a positive number."])
          else (Ret budget, inp',
                out ++ [Prompt budget_prompt;
                        SayAmount "Monthly budget set to $" (Float budget)])
      | None =>
          read_budget inp'
            (out ++ [Prompt budget_prompt;
                     Say "Invalid budget. Please enter a numeric value."])
      end
  end.

Definition set_budget (t : tracker) (w : world)
  : outcome unit * tracker * world :=
  match read_budget (stdin w) (stdout w) with
  | (Ret budget, inp, out) =>
      (Ret tt, with_budget (Float budget) t, with_console inp out w)
  | (Raise e, inp, out) => (Raise e, t, with_console inp out w)
  | (Loops, inp, out) => (Loops, t, with_console inp out w)
  end.

(** [track_budget] *)

(** [sum(expense['amount'] for expense in self.expenses)], from [acc]. *)
Fixpoint sum_amounts (l : list expense) (acc : number) : number + exn :=
  match l with
  | [] => inl acc
  | e :: l' =>
      match lookup_item e "amount" with
      | inr x => inr x
      | inl (VNum n) => sum_amounts l' (Num.add acc n)
      | inl _ => inr TypeError
      end
  end.

Definition total_expenses (t : tracker) : number + exn :=
  sum_amounts (expenses t) (Int 0).

Definition track_budget (t : tracker) (w : world)
  : outcome unit * tracker * world :=
  if Num.eqb (monthly_budget t) (Int 0) then
    let w1 :=
      print (Say "No monthly budget set. Would you like to set a budget? [y/n]") w in
    match stdin w1 with
    | [] => (Raise EOFError, t, w1)
    | answer :: inp' =>
        let w2 := with_console inp' (stdout w1) w1 in
        if (Str.lower answer =? "y")%string then set_budget t w2
        else (Ret tt, t, w2)
    end
  else
    match total_expenses t with
    | inr x => (Raise x, t, w)
    | inl total =>
        let remaining_balance := Num.sub (monthly_budget t) total in
        let w1 :=
          print (SayAmount "Total Expenses: $" total)
            (print (SayAmount "Monthly Budget: $" (monthly_budget t))
              (print (Say (String Chars.LF "--- Budget Tracking ---")) w)) in
        if Num.gtb total (monthly_budget t) then
          (Ret tt, t,
           print (SayAmount "Over Budget By: $" (Num.abs remaining_balance))
             (print (Say "WARNING: You have exceeded your budget!") w1))
        else
          (Ret tt, t, print (SayAmount "Remaining Balance: $" remaining_balance) w1)
    end.

(** [save_expenses] *)

Definition newline : string := String Chars.LF EmptyString.

(** The text the file receives, and whether writing went through; a
    dictionary the writer refuses ends the writing there, and the file
    keeps what was written before it. *)
Definition save_text (t : tracker) : string * bool :=
  let '(body, ok) := Dict.writerows (expenses t) in
  ("Monthly Budget," +:+ Num.repr (monthly_budget t) +:+ newline
   +:+ Csv.writerow Dict.fieldnames +:+ body, ok).

Definition save_expenses (t : tracker) (w : world)
  : outcome unit * tracker * world :=
  let '(text, ok) := save_text t in
  let w1 := write_file (filename t) text w in
  (Ret tt, t,
   if ok then print (SayFile "Expenses saved to " (filename t)) w1
   else print (SayError "Error saving expenses: " ValueError) w1).

(** [load_expenses] *)

Definition set_amount (x : PyFloat.float) (e : expense) : expense :=
  {| items := <["amount" := VNum (Float x)]> (items e); rest := rest e |}.

(** The loop [for expense in self.expenses: expense['amount'] = float(...)]:
    the dictionaries are updated in place, so those before a failure
    stay converted and the others stay as they were read. *)
Fixpoint convert_amounts (l : list expense) : list expense * option exn :=
  match l with
  | [] => ([], None)
  | e :: l' =>
      match lookup_item e "amount" with
      | inr x => (l, Some x)
      | inl v =>
          match float_of v with
          | inr x => (l, Some x)
          | inl a =>
              let '(l'', r) := convert_amounts l' in
              (set_amount a e :: l'', r)
          end
      end
  end.

(** The budget read from the first line, when it has a second token. *)
Definition read_budget_line (budget_line : string) (t : tracker)
  : tracker + exn :=
  match Str.split Chars.is_comma (Str.strip budget_line) with
  | _ :: token :: _ =>
      match PyFloat.of_string token with
      | Some b => inl (with_budget (Float b) t)
      | None => inr ValueError
      end
  | _ => inl t
  end.

Definition load_error : string := "Error loading expenses: ".

Definition load_expenses (t : tracker) (w : world)
  : outcome unit * tracker * world :=
  match files w !! filename t with
  | None => (Ret tt, t, w)
  | Some content =>
      let '(budget_line, body) :=
        TextFile.readline (TextFile.universal_newlines content) in
      match read_budget_line budget_line t with
      | inr x => (Ret tt, t, print (SayError load_error x) w)
      | inl t1 =>
          match Csv.rows (TextFile.lines body) with
          | None => (Ret tt, t1, print (SayError load_error CsvError) w)
          | Some rows =>
              let '(l, r) := convert_amounts (Dict.read rows) in
              let t2 := with_expenses l t1 in
              match r with
              | Some x => (Ret tt, t2, print (SayError load_error x) w)
              | None =>
                  (Ret tt, t2, print (SayFile "Expenses loaded from " (filename t)) w)
              end
          end
      end
  end.

(** [ExpenseTracker(filename)] *)
Definition empty_tracker (path : string) : tracker :=
  {| expenses := []; monthly_budget := Int 0; filename := path |}.

Definition init (path : string) (w : world)
  : outcome unit * tracker * world :=
  load_expenses (empty_tracker path) w.

(** The tokens of the first line of a file, as [load_expenses] sees them. *)
Definition budget_tokens (content : string) : list string :=
  Str.split Chars.is_comma
    (Str.strip (TextFile.readline (TextFile.universal_newlines content)).1).

(** *** The menu loop *)

(** [show_menu] *)
Definition menu : list msg :=
  [Say (String Chars.LF "--- Personal Expense Tracker ---");
   Say "[1] Add Expense";
   Say "[2] View Expenses";
   Say "[3] Track Budget";
   Say "[4] Save Expenses";
   Say "[5] Exit"].

Definition show_menu (w : world) : world :=
  with_console (stdin w) (stdout w ++ menu) w.

Definition choice_prompt : string := "Enter your choice (1-5): ".

(** [run]: each turn of the loop reads at least the line of the choice,
    so [fuel] turns are enough for [fuel] lines of input; [None] stands
    for fuel that ran out.  An exception that leaves a method leaves
    [run] as well, and [add_expense] may never come back. *)
Fixpoint run_loop (fuel : nat) (t : tracker) (w : world)
  : option (outcome unit * tracker * world) :=
  match fuel with
  | O => None
  | S fuel' =>
      let continue (r : outcome unit * tracker * world) :=
        match r with
        | (Ret _, t', w') => run_loop fuel' t' w'
        | _ => Some r
        end in
      let w0 := show_menu w in
      match stdin w0 with
      | [] => Some (Raise EOFError, t, print (Prompt choice_prompt) w0)
      | choice :: inp =>
          let w1 := with_console inp (stdout w0 ++ [Prompt choice_prompt]) w0 in
          if (choice =? "1")%string then continue (add_expense t w1)
          else if (choice =? "2")%string then continue (view_expenses t w1)
          else if (choice =? "3")%string then continue (track_budget t w1)
          else if (choice =? "4")%string then continue (save_expenses t w1)
          else if (choice =? "5")%string then
            let '(_, t', w2) := save_expenses t w1 in
            Some (Ret tt, t', print (Say "Exiting Expense Tracker. Goodbye!") w2)
          else
            run_loop fuel' t
              (print (Say "Invalid choice. Please enter a number between 1 and 5.") w1)
      end
  end.

Definition run (t : tracker) (w : world)
  : option (outcome unit * tracker * world) :=
  run_loop (S (length (stdin w))) t w.

(** [main]: the tracker is built on [expenses.csv], then the menu runs. *)
Definition main (w : world) : option (outcome unit * tracker * world) :=
  let '(_, tracker, w1) := init "expenses.csv" w in
  run tracker w1.

(** ** Scenarios

    Concrete files, inputs and ledgers on which the properties below are
    exercised. *)

Definition first_run_world : world :=
  {| stdin := []; stdout := []; files := ∅ |}.

Definition bad_budget_file : string :=
  "Monthly Budget,abc" +:+ newline
  +:+ "date,category,amount,description" +:+ newline
  +:+ "2024-01-01,Food,1.5,lunch" +:+ newline.

Definition bad_budget_world : world :=
  {| stdin := []; stdout := []; files := {[ "expenses.csv" := bad_budget_file ]} |}.

(** What the console shows for a budget that is refused. *)
Definition budget_refused : list msg :=
  [Prompt budget_prompt; Say "Budget must be a positive number."].

Definition typing (lines : list string) : world :=
  {| stdin := lines; stdout := []; files := ∅ |}.

Definition fifty : PyFloat.float := S754_finite false 7036874417766400 (-47).

(** The records of [l] carry the numbers [amounts], in order. *)
Definition amounts_are (l : list expense) (amounts : list number) : Prop :=
  Forall2 (fun e a => items e !! "amount" = Some (VNum a)) l amounts.

(** The doubles 12.5, 7.25, 100.0, 119.75 and 19.75. *)
Definition f12_50 : PyFloat.float := S754_finite false 7036874417766400 (-49).
Definition f7_25 : PyFloat.float := S754_finite false 8162774324609024 (-50).
Definition f100 : PyFloat.float := S754_finite false 7036874417766400 (-46).
Definition f119_75 : PyFloat.float := S754_finite false 8426657115275264 (-46).
Definition f19_75 : PyFloat.float := S754_finite false 5559130790035456 (-48).

(** Three expenses of 12.50, 7.25 and 100.00. *)
Definition three_expenses : list expense :=
  [new_expense "2024-01-05" "Food" f12_50 "lunch";
   new_expense "2024-01-06" "Travel" f7_25 "bus";
   new_expense "2024-01-07" "Rent" f100 "deposit"].

Definition three_tracker (budget : number) : tracker :=
  {| expenses := three_expenses; monthly_budget := budget;
     filename := "expenses.csv" |}.

Definition unset_message : msg :=
  Say "No monthly budget set. Would you like to set a budget? [y/n]".

Definition report_head (budget total : number) : list msg :=
  [Say (String Chars.LF "--- Budget Tracking ---");
   SayAmount "Monthly Budget: $" budget;
   SayAmount "Total Expenses: $" total].

(** The console after a valid expense has been typed in one go. *)
Definition added_console (out : list msg) : list msg :=
  out ++ [Prompt date_prompt; Prompt category_prompt; Prompt amount_prompt;
          Prompt description_prompt; Say "Expense added successfully!"].

(** The tracker and the world after a call. *)
Definition tracker_after (r : outcome unit * tracker * world) : tracker := r.1.2.
Definition world_after (r : outcome unit * tracker * world) : world := r.2.

(** A record that went through the checks of [add_expense]. *)
Definition valid_expense (e : expense) : Prop :=
  exists date category amount description,
    e = new_expense date category amount description
    /\ is_Some (Date.strptime date)
    /\ category <> EmptyString
    /\ description <> EmptyString
    /\ PyFloat.ltb PyFloat.zero amount = true.

Definition has_float_amount (e : expense) : Prop :=
  exists x, items e !! "amount" = Some (VNum (Float x)).

(** The methods a session calls on the tracker once it is built. *)
Inductive action :=
| AddExpense | ViewExpenses | SetBudget | TrackBudget | SaveExpenses.

Definition perform (a : action) : tracker -> world -> outcome unit * tracker * world :=
  match a with
  | AddExpense => add_expense
  | ViewExpenses => view_expenses
  | SetBudget => set_budget
  | TrackBudget => track_budget
  | SaveExpenses => save_expenses
  end.

(** [session t w t' w']: some sequence of calls leads from [t], [w] to
    [t'], [w']. *)
Inductive session : tracker -> world -> tracker -> world -> Prop :=
| session_start t w : session t w t w
| session_call t w t1 w1 a :
    session t w t1 w1 ->
    session t w (tracker_after (perform a t1 w1)) (world_after (perform a t1 w1)).

Definition on_disk (text : string) : world :=
  {| stdin := []; stdout := []; files := {[ "expenses.csv" := text ]} |}.

(** A stored file whose only record has a date that is no date, no
    category, a negative amount and no description. *)
Definition unvalidated_file : string :=
  "Monthly Budget,100" +:+ newline
  +:+ "date,category,amount,description" +:+ newline
  +:+ "not-a-date,,-5," +:+ newline.

Definition unvalidated_record : expense :=
  {| items := <["description" := VStr ""]>
                (<["amount" := VNum (Float (S754_finite true 5629499534213120 (-50)))]>
                  (<["category" := VStr ""]>
                    (<["date" := VStr "not-a-date"]> ∅)));
     rest := None |}.

(** A stored line of four fields with a numeric amount, and the record it
    becomes. *)
Definition row_record (r : list string) (e : expense) : Prop :=
  exists d c a s x,
    r = [d; c; a; s] /\ PyFloat.of_string a = Some x /\ e = new_expense d c x s.

(** A stored line with one or two fields, or whose third field is not a
    number. *)
Definition malformed_row (r : list string) : Prop :=
  (exists d, r = [d])
  \/ (exists d c, r = [d; c])
  \/ (exists d c a more, r = d :: c :: a :: more /\ PyFloat.of_string a = None).

(** Two valid lines, a line of two fields and one more valid line. *)
Definition partial_file : string :=
  "Monthly Budget,50" +:+ newline
  +:+ "date,category,amount,description" +:+ newline
  +:+ "2024-01-01,Food,1.5,lunch" +:+ newline
  +:+ "2024-01-02,Travel,2.5,bus" +:+ newline
  +:+ "bad,line" +:+ newline
  +:+ "2024-01-03,Rent,3.5,room" +:+ newline.

Definition f1_5 : PyFloat.float := S754_finite false 6755399441055744 (-52).
Definition f2_5 : PyFloat.float := S754_finite false 5629499534213120 (-51).

Definition partial_valid : list expense :=
  [new_expense "2024-01-01" "Food" f1_5 "lunch";
   new_expense "2024-01-02" "Travel" f2_5 "bus"].

(** What the last two lines of [partial_file] leave in memory. *)
Definition partial_leftover : list expense :=
  [{| items := <["description" := VNone]>
                 (<["amount" := VNone]>
                   (<["category" := VStr "line"]>
                     (<["date" := VStr "bad"]> ∅)));
      rest := None |};
   {| items := <["description" := VStr "room"]>
                 (<["amount" := VStr "3.5"]>
                   (<["category" := VStr "Rent"]>
                     (<["date" := VStr "2024-01-03"]> ∅)));
      rest := None |}].

(** The exception the conversion loop of [load_expenses] stops on at a
    malformed line: the amount of a line of one or two fields is [None],
    that of a longer line is a text that is no number. *)
Definition malformed_error (r : list string) : exn :=
  match r with
  | [_] | [_; _] => TypeError
  | _ => ValueError
  end.

(** A stored file whose record lines have three fields and five. *)
Definition wrong_count_file : string :=
  "Monthly Budget,50" +:+ newline
  +:+ "date,category,amount,description" +:+ newline
  +:+ "2024-01-01,Food,1.5" +:+ newline
  +:+ "2024-01-02,Travel,2.5,bus,return" +:+ newline.

(** What these two lines become: a record without description and a
    record with one more entry than the header has names. *)
Definition wrong_count_records : list expense :=
  [{| items := <["amount" := VNum (Float f1_5)]>
                 (<["description" := VNone]>
                   (<["category" := VStr "Food"]>
                     (<["date" := VStr "2024-01-01"]> ∅)));
      rest := None |};
   {| items := items (new_expense "2024-01-02" "Travel" f2_5 "bus");
      rest := Some ["return"] |}].

(** The text 50 after the separator of code 28: the separator is white
    space for [str.strip] but not for [float], so the text is no number. *)
Definition separator_fifty : string := String (ascii_of_N 28) "50".

(** A stored file whose budget token is that text. *)
Definition separator_budget_file : string :=
  "Monthly Budget," +:+ separator_fifty +:+ newline
  +:+ "date,category,amount,description" +:+ newline
  +:+ "2024-01-01,Food,1.5,lunch" +:+ newline.

(** A description with a carriage return inside, as [input()] returns it
    when the line typed or piped in holds one. *)
Definition cr_description : string :=
  "a" +:+ String Chars.CR "b".
Definition lf_description : string :=
  "a" +:+ String Chars.LF "b".

(** A first run: a budget of 100 is set, one expense is added, the ledger
    is saved; then the program is started again on the saved file. *)
Definition cr_typed : world :=
  typing ["100"; "2024-01-05"; "Food"; "12.5"; cr_description].

Definition cr_session : outcome unit * tracker * world :=
  let r1 := set_budget (empty_tracker "expenses.csv") cr_typed in
  add_expense (tracker_after r1) (world_after r1).

Definition cr_saved : outcome unit * tracker * world :=
  save_expenses (tracker_after cr_session) (world_after cr_session).

Definition cr_reloaded : outcome unit * tracker * world :=
  init "expenses.csv" (world_after cr_saved).

Definition cr_file : string :=
  "Monthly Budget,100.0" +:+ newline
  +:+ "date,category,amount,description" +:+ Csv.lineterminator
  +:+ "2024-01-05,Food,12.5," +:+ Csv.dq +:+ cr_description +:+ Csv.dq
  +:+ Csv.lineterminator.

(** *** What can be saved and loaded again *)

Definition fits (s : string) : Prop :=
  Z.of_nat (String.length s) <= Csv.field_limit.

Abbreviation R st fs f := {| Csv.state := st; Csv.fields := fs; Csv.field := f |}.

(** The line of a written record of four fields, as the reader gets it. *)
Definition row_line (a b c d : string) : string :=
  Csv.write_field a +:+ String Chars.comma
    (Csv.write_field b +:+ String Chars.comma
      (Csv.write_field c +:+ String Chars.comma
        (Csv.write_field d +:+ newline))).

(** A character that is neither white space nor special for the csv
    writer. *)
Definition clean_char (c : ascii) : bool :=
  negb (Chars.is_space c) && negb (Csv.needs_quotes c).

Definition clean (s : string) : Prop := Str.all clean_char s = true.

Definition budget_label : string := "Monthly Budget".

Definition no_newline (s : string) : Prop :=
  Str.all (fun c => negb (Csv.is_newline c)) s = true.

(** A text the file can hold on one line and the reader accepts. *)
Definition storable_text (s : string) : Prop := no_newline s /\ fits s.

(** A number whose text reads back as the number. *)
Definition storable_number (x : PyFloat.float) : Prop :=
  PyFloat.of_string (PyFloat.repr x) = Some x /\ fits (PyFloat.repr x).

Definition storable_expense (e : expense) : Prop :=
  exists d c a s,
    e = new_expense d c a s
    /\ storable_text d /\ storable_text c /\ storable_number a /\ storable_text s.

(** The fields an expense is written with. *)
Definition stored (e : expense) (row : list string) : Prop :=
  exists d c a s,
    e = new_expense d c a s /\ row = [d; c; PyFloat.repr a; s]
    /\ storable_text d /\ storable_text c /\ storable_number a /\ storable_text s.

(** The line of a record once the line end has been translated. *)
Definition line_of (row : list string) : string :=
  Str.join "," (List.map Csv.write_field row) +:+ newline.

(** The fields of a row: four texts without line ends that fit. *)
Definition row_ok (row : list string) : Prop :=
  exists a b c d,
    row = [a; b; c; d]
    /\ storable_text a /\ storable_text b /\ storable_text c /\ storable_text d.

(** A budget whose text reads back as the same number: the 0 of a new
    tracker, which comes back as the double 0.0, or a stored double. *)
Definition storable_budget (b : number) : Prop :=
  PyFloat.of_string (Num.repr b) = Some (Num.to_float b).

(** One turn of [run_loop], for a choice that calls a method and goes
    on. *)
Definition turn (a : action) (fuel : nat) (t : tracker) (w1 : world)
  : option (outcome unit * tracker * world) :=
  match perform a t w1 with
  | (Ret _, t', w') => run_loop fuel t' w'
  | r => Some r
  end.

Definition after_choice (inp : list string) (w : world) : world :=
  with_console inp (stdout (show_menu w) ++ [Prompt choice_prompt]) (show_menu w).

Definition invalid_choice : msg :=
  Say "Invalid choice. Please enter a number between 1 and 5.".

Definition goodbye : msg := Say "Exiting Expense Tracker. Goodbye!".

(** What a choice stands for: a method to call and go on, the exit, or
    nothing. *)
Definition choice_action (choice : string) : option action :=
  if (choice =? "1")%string then Some AddExpense
  else if (choice =? "2")%string then Some ViewExpenses
  else if (choice =? "3")%string then Some TrackBudget
  else if (choice =? "4")%string then Some SaveExpenses
  else None.

(** *** What the prompt loops print for a line they refuse *)

Definition date_refused : list msg :=
  [Prompt date_prompt; Say "Invalid date format. Please use YYYY-MM-DD."].

Definition empty_refused (prompt : string) : list msg :=
  [Prompt prompt; Say "Input cannot be empty."].

(** The console after the lines [l] have been refused, each in the way
    [refused] tells. *)
Definition refusals (refused : string -> list msg) (l : list string) : list msg :=
  List.concat (List.map refused l).

(** How [get_positive_float] refuses a line: it is no number, or the
    number is not above 0 (a NaN included). *)
Definition amount_refused (prompt : string) (line : string) : list msg :=
  match PyFloat.of_string line with
  | Some _ => [Prompt prompt; Say "Amount must be a positive number."]
  | None => [Prompt prompt; Say "Invalid amount. Please enter a numeric value."]
  end.

Definition not_positive (line : string) : Prop :=
  match PyFloat.of_string line with
  | Some v => PyFloat.ltb PyFloat.zero v = false
  | None => True
  end.

(** *** Scenarios for listing, totals and saving *)

(** The ledger [partial_file] leaves behind: two converted records, then
    the malformed line and the line after it. *)
Definition partial_tracker : tracker :=
  {| expenses := partial_valid ++ partial_leftover;
     monthly_budget := Float fifty; filename := "expenses.csv" |}.

Definition partial_lines : list msg :=
  [SayExpense (VStr "2024-01-01") (VStr "Food") (Float f1_5) (VStr "lunch");
   SayExpense (VStr "2024-01-02") (VStr "Travel") (Float f2_5) (VStr "bus")].

(** The rows a list of dictionaries is written with. *)
Definition written (l : list expense) (rows : list (list string)) : Prop :=
  Forall2 (fun e row => Dict.to_list e = Some row) l rows.

(** The text of a file: budget line, header and rows. *)
Definition file_text (budget : number) (rows : list (list string)) : string :=
  "Monthly Budget," +:+ Num.repr budget +:+ newline
  +:+ Csv.writerow Dict.fieldnames
  +:+ Str.concat (List.map Csv.writerow rows).

(** A stored file with a line of five fields between two lines of
    four. *)
Definition five_fields_file : string :=
  "Monthly Budget,50" +:+ newline
  +:+ "date,category,amount,description" +:+ newline
  +:+ "2024-01-01,Food,1.5,lunch" +:+ newline
  +:+ "2024-01-02,Travel,2.5,bus,return" +:+ newline
  +:+ "2024-01-03,Rent,3.5,room" +:+ newline.

Definition five_fields_tracker : tracker :=
  tracker_after (init "expenses.csv" (on_disk five_fields_file)).

(** *** Scenarios for the menu loop *)

(** What [run] gives once it has ended. *)
Definition run_result (t : tracker) (w : world)
  : outcome unit * tracker * world :=
  default (Loops, t, w) (run t w).

(** A first session: a wrong choice, one expense added and listed, then
    the exit. *)
Definition add_and_exit : world :=
  typing ["9"; "1"; "2024-01-05"; "Food"; "12.5"; "lunch"; "2"; "5"].

(** The same session when the input ends at the menu instead. *)
Definition add_and_stop : world :=
  typing ["9"; "1"; "2024-01-05"; "Food"; "12.5"; "lunch"; "2"].

(** A stored file whose first line has another label and a negative
    number. *)
Definition negative_budget_file : string :=
  "Savings,-5,per month" +:+ newline
  +:+ "date,category,amount,description" +:+ newline
  +:+ "2024-01-01,Food,1.5,lunch" +:+ newline.

Definition minus_five : PyFloat.float := S754_finite true 5629499534213120 (-50).

(** What the line of five fields of [five_fields_file] becomes. *)
Definition f3_5 : PyFloat.float := S754_finite false 7881299347898368 (-51).

Definition five_fields_record : expense :=
  {| items := items (new_expense "2024-01-02" "Travel" f2_5 "bus");
     rest := Some ["return"] |}.

(** A world with a file next to the tracker's. *)
Definition two_files_world : world :=
  {| stdin := ["3"; "y"; "50"; "4"; "5"]; stdout := [];
     files := {[ "notes.txt" := "keep" ]} |}.

(** * Properties *)

(** ** Numbers *)

Lemma ltb_zero_leb (v : PyFloat.float) :
  PyFloat.ltb PyFloat.zero v = true -> PyFloat.leb v PyFloat.zero = false.
Proof. by destruct v as [[]|[]| |[] m e]. Qed.

Lemma ltb_zero_eqb (v : PyFloat.float) :
  PyFloat.ltb PyFloat.zero v = true -> PyFloat.eqb v PyFloat.zero = false.
Proof. by destruct v as [[]|[]| |[] m e]. Qed.

Lemma leb_zero_ltb (v : PyFloat.float) :
  PyFloat.leb v PyFloat.zero = true -> PyFloat.ltb PyFloat.zero v = false.
Proof. by destruct v as [[]|[]| |[] m e]. Qed.

Lemma abs_not_negative (x : PyFloat.float) :
  PyFloat.ltb (PyFloat.abs x) PyFloat.zero = false.
Proof. by destruct x as [[]|[]| |[] m e]. Qed.

Lemma of_int_0 : PyFloat.of_int 0 = PyFloat.zero.
Proof. reflexivity. Qed.

(** ** First run and unreadable budget *)

(** C6: when the file does not exist, [ExpenseTracker(path)] is the empty
    ledger, budget 0 and no records; nothing is printed and the call
    returns normally. *)
Theorem init_missing_file (path : string) (w : world) :
  files w !! path = None ->
  init path w = (Ret tt, empty_tracker path, w)
  /\ monthly_budget (empty_tracker path) = Int 0
  /\ expenses (empty_tracker path) = [].
Proof.
  intros Hnone. unfold init, load_expenses. simpl. by rewrite Hnone.
Qed.

Lemma init_missing_file_witness :
  init "expenses.csv" first_run_world
    = (Ret tt, empty_tracker "expenses.csv", first_run_world)
  /\ monthly_budget (empty_tracker "expenses.csv") = Int 0
  /\ expenses (empty_tracker "expenses.csv") = [].
Proof. apply (init_missing_file "expenses.csv" first_run_world). reflexivity. Defined.

(** C10: when the file exists and the second token of its first line is
    not a number, [load_expenses] returns normally, reports a [ValueError]
    and leaves the tracker as it was: for a new tracker, budget 0 and no
    records. *)
Theorem load_bad_budget (t : tracker) (w : world)
    (content label token : string) (more : list string) :
  files w !! filename t = Some content ->
  budget_tokens content = label :: token :: more ->
  PyFloat.of_string token = None ->
  load_expenses t w = (Ret tt, t, print (SayError load_error ValueError) w).
Proof.
  intros Hfile Htok Hnum. unfold load_expenses. rewrite Hfile.
  unfold budget_tokens in Htok.
  destruct (TextFile.readline _) as [budget_line body]. simpl in Htok.
  unfold read_budget_line. by rewrite Htok, Hnum.
Qed.

Lemma load_bad_budget_witness :
  init "expenses.csv" bad_budget_world
  = (Ret tt, empty_tracker "expenses.csv",
     print (SayError load_error ValueError) bad_budget_world)
  /\ init "expenses.csv" (on_disk separator_budget_file)
     = (Ret tt, empty_tracker "expenses.csv",
        print (SayError load_error ValueError) (on_disk separator_budget_file)).
Proof.
  split.
  - apply (load_bad_budget (empty_tracker "expenses.csv") bad_budget_world
             bad_budget_file "Monthly Budget" "abc" []); reflexivity.
  - apply (load_bad_budget (empty_tracker "expenses.csv")
             (on_disk separator_budget_file)
             separator_budget_file "Monthly Budget" separator_fifty []);
      reflexivity.
Defined.

(** ** Setting the budget *)

Lemma read_budget_accepts (line : string) (rest : list string)
    (out : list msg) (v : PyFloat.float) :
  PyFloat.of_string line = Some v ->
  PyFloat.ltb PyFloat.zero v = true ->
  read_budget (line :: rest) out
  = (Ret v, rest,
     out ++ [Prompt budget_prompt; SayAmount "Monthly budget set to $" (Float v)]).
Proof.
  intros Hv Hpos. simpl. rewrite Hv. by rewrite (ltb_zero_leb v Hpos).
Qed.

Lemma read_budget_refuses (line : string) (rest : list string)
    (out : list msg) (v : PyFloat.float) :
  PyFloat.of_string line = Some v ->
  PyFloat.leb v PyFloat.zero = true ->
  read_budget (line :: rest) out = read_budget rest (out ++ budget_refused).
Proof. intros Hv Hneg. simpl. by rewrite Hv, Hneg. Qed.

(** Whatever is typed, [set_budget] either returns having stored a typed
    value that is not [<= 0], or does not return and stores nothing. *)
Lemma read_budget_result (inp : list string) :
  forall out r inp' out',
    read_budget inp out = (r, inp', out') ->
    match r with
    | Ret b => PyFloat.leb b PyFloat.zero = false
    | Raise e => e = EOFError
    | Loops => False
    end.
Proof.
  induction inp as [|line inp IH]; intros out r inp' out' H; simpl in H.
  - by inversion H.
  - destruct (PyFloat.of_string line) as [b|]; [|by eapply IH].
    destruct (PyFloat.leb b PyFloat.zero) eqn:Hb; [by eapply IH|].
    by inversion H; subst.
Qed.

(** C4: a typed value [v > 0] becomes the monthly budget: the call
    returns, the budget read from the tracker afterwards is [v], and the
    records and the file name are as before.  A typed value that is 0 or
    negative is refused: the console says so, the budget is not touched
    and the tracker waits for the next line exactly as it did before, so
    that with nothing more typed the call ends on [EOFError] with the
    budget read from the tracker unchanged.  However the call ends, if it
    does not return the tracker is the one it started with. *)
Theorem set_budget_accepts_positive_only (t : tracker) (w : world)
    (line : string) (rest : list string) (v : PyFloat.float) :
  stdin w = line :: rest ->
  PyFloat.of_string line = Some v ->
  (PyFloat.ltb PyFloat.zero v = true ->
     (exists w', set_budget t w = (Ret tt, with_budget (Float v) t, w')
                 /\ stdin w' = rest)
     /\ monthly_budget (tracker_after (set_budget t w)) = Float v
     /\ expenses (tracker_after (set_budget t w)) = expenses t
     /\ filename (tracker_after (set_budget t w)) = filename t)
  /\ (PyFloat.leb v PyFloat.zero = true ->
        set_budget t w
        = set_budget t (with_console rest (stdout w ++ budget_refused) w)
        /\ (rest = [] ->
            (exists w', set_budget t w = (Raise EOFError, t, w'))
            /\ monthly_budget (tracker_after (set_budget t w))
               = monthly_budget t))
  /\ (forall r t' w', set_budget t w = (r, t', w') ->
        r <> Ret tt -> t' = t /\ monthly_budget t' = monthly_budget t).
Proof.
  intros Hin Hv. unfold set_budget, tracker_after. rewrite Hin. repeat split.
  - rewrite (read_budget_accepts _ _ _ _ Hv H). eauto.
  - by rewrite (read_budget_accepts _ _ _ _ Hv H).
  - by rewrite (read_budget_accepts _ _ _ _ Hv H).
  - by rewrite (read_budget_accepts _ _ _ _ Hv H).
  - rewrite (read_budget_refuses _ _ _ _ Hv H). done.
  - subst rest. rewrite (read_budget_refuses _ _ _ _ Hv H). simpl. eauto.
  - subst rest. by rewrite (read_budget_refuses _ _ _ _ Hv H).
  - destruct (read_budget (line :: rest) (stdout w)) as [[[b|e|] inp'] out'];
      inversion H; subst; done.
  - destruct (read_budget (line :: rest) (stdout w)) as [[[b|e|] inp'] out'];
      inversion H; subst; done.
Qed.

Lemma set_budget_accepts_positive_only_witness :
  ((exists w', set_budget (empty_tracker "expenses.csv") (typing ["50"; "7"])
               = (Ret tt, with_budget (Float fifty) (empty_tracker "expenses.csv"), w')
               /\ stdin w' = ["7"])
   /\ monthly_budget
        (tracker_after (set_budget (empty_tracker "expenses.csv") (typing ["50"; "7"])))
      = Float fifty
   /\ expenses
        (tracker_after (set_budget (empty_tracker "expenses.csv") (typing ["50"; "7"])))
      = []
   /\ filename
        (tracker_after (set_budget (empty_tracker "expenses.csv") (typing ["50"; "7"])))
      = "expenses.csv")
  /\ ((exists w', set_budget (empty_tracker "expenses.csv") (typing ["-0.5"])
                  = (Raise EOFError, empty_tracker "expenses.csv", w'))
      /\ monthly_budget
           (tracker_after (set_budget (empty_tracker "expenses.csv") (typing ["-0.5"])))
         = Int 0).
Proof.
  split.
  - apply (set_budget_accepts_positive_only (empty_tracker "expenses.csv")
             (typing ["50"; "7"]) "50" ["7"] fifty); reflexivity.
  - apply (set_budget_accepts_positive_only (empty_tracker "expenses.csv")
             (typing ["-0.5"]) "-0.5" []
             (S754_finite true 4503599627370496 (-53))); reflexivity.
Defined.

(** ** Total spent and budget status *)

Lemma sum_amounts_numbers (l : list expense) (amounts : list number) :
  amounts_are l amounts ->
  forall acc, sum_amounts l acc = inl (fold_left Num.add amounts acc).
Proof.
  induction 1 as [|e a l amounts He _ IH]; intros acc; simpl; [done|].
  unfold lookup_item. rewrite He. apply IH.
Qed.

(** C7: the total is the sum of the amounts of the records, added in
    order from 0, and it is 0 for a ledger without records; for the
    amounts 12.50, 7.25 and 100.00 it is 119.75 (the witness). *)
Theorem total_expenses_sum (t : tracker) (amounts : list number) :
  amounts_are (expenses t) amounts ->
  total_expenses t = inl (fold_left Num.add amounts (Int 0))
  /\ (expenses t = [] -> total_expenses t = inl (Int 0)).
Proof.
  intros H. split.
  - by apply sum_amounts_numbers.
  - unfold total_expenses. by intros ->.
Qed.

Lemma total_expenses_sum_witness :
  total_expenses (three_tracker (Int 0)) = inl (Float f119_75)
  /\ (expenses (three_tracker (Int 0)) = [] ->
      total_expenses (three_tracker (Int 0)) = inl (Int 0)).
Proof.
  apply (total_expenses_sum (three_tracker (Int 0))
           [Float f12_50; Float f7_25; Float f100]).
  repeat constructor.
Defined.

Lemma total_expenses_snoc (t : tracker) (e : expense) (a total : number) :
  total_expenses t = inl total ->
  items e !! "amount" = Some (VNum a) ->
  total_expenses (with_expenses (expenses t ++ [e]) t) = inl (Num.add total a).
Proof.
  unfold total_expenses. simpl. generalize (Int 0).
  induction (expenses t) as [|e' l IH]; intros acc Hsum He; simpl in *.
  - inversion Hsum; subst. unfold lookup_item. by rewrite He.
  - destruct (lookup_item e' "amount") as [[| |n]|]; try done. by apply IH.
Qed.

Lemma gtb_zero_eqb (b : number) :
  Num.gtb b (Int 0) = true -> Num.eqb b (Int 0) = false.
Proof.
  destruct b as [n|x]; unfold Num.gtb; simpl.
  - intros H. apply Z.ltb_lt in H. apply Z.eqb_neq. lia.
  - apply ltb_zero_eqb.
Qed.

Lemma abs_not_below_zero (n : number) : Num.ltb (Num.abs n) (Int 0) = false.
Proof.
  destruct n as [z|x]; simpl.
  - apply Z.ltb_ge. lia.
  - apply abs_not_negative.
Qed.

Lemma read_budget_console (inp : list string) :
  forall out r inp' out',
    read_budget inp out = (r, inp', out') -> exists more, out' = out ++ more.
Proof.
  induction inp as [|line inp IH]; intros out r inp' out' H; simpl in H.
  - inversion H; subst. eauto.
  - destruct (PyFloat.of_string line) as [b|].
    + destruct (PyFloat.leb b PyFloat.zero).
      * apply IH in H as [more ->]. rewrite <- app_assoc. eauto.
      * inversion H; subst. eauto.
    + apply IH in H as [more ->]. rewrite <- app_assoc. eauto.
Qed.

(** C5: with a budget equal to 0 the tracker reports that no budget is
    set, whatever the records are; with a budget above 0 it reports the
    budget, the total, and then either the remaining balance
    [budget - total] or, when [total > budget], a warning and the absolute
    value of [budget - total], which is never negative. *)
Theorem track_budget_status (t : tracker) (w : world) :
  (Num.eqb (monthly_budget t) (Int 0) = true ->
     forall l,
       let '(r, t', w') := track_budget t w in
       track_budget (with_expenses l t) w = (r, with_expenses l t', w')
       /\ exists out, stdout w' = stdout w ++ unset_message :: out)
  /\ (forall total,
        Num.gtb (monthly_budget t) (Int 0) = true ->
        total_expenses t = inl total ->
        let remaining := Num.sub (monthly_budget t) total in
        let over := Num.gtb total (monthly_budget t) in
        exists w',
          track_budget t w = (Ret tt, t, w')
          /\ stdin w' = stdin w /\ files w' = files w
          /\ stdout w'
             = stdout w ++ report_head (monthly_budget t) total
               ++ (if over
                   then [Say "WARNING: You have exceeded your budget!";
                         SayAmount "Over Budget By: $" (Num.abs remaining)]
                   else [SayAmount "Remaining Balance: $" remaining])
          /\ Num.ltb (Num.abs remaining) (Int 0) = false).
Proof.
  split.
  - intros Hz l. unfold track_budget. simpl. rewrite Hz.
    destruct (stdin w) as [|answer inp] eqn:Hin; simpl.
    + split; [done|]. by exists [].
    + destruct (Str.lower answer =? "y")%string.
      * unfold set_budget. simpl.
        destruct (read_budget inp _) as [[[b|e|] inp'] out'] eqn:Hrb;
          (split; [done|]); simpl;
          apply read_budget_console in Hrb as [more ->];
          rewrite <- app_assoc; eauto.
      * split; [done|]. by exists [].
  - intros total Hpos Htot remaining over. unfold track_budget.
    rewrite (gtb_zero_eqb _ Hpos), Htot. fold remaining. fold over.
    destruct over; eexists; (split; [reflexivity|]); simpl;
      repeat split; try apply abs_not_below_zero;
      by rewrite <- !app_assoc.
Qed.

Lemma track_budget_status_witness :
  (exists w',
      track_budget (three_tracker (Float f100)) (typing [])
      = (Ret tt, three_tracker (Float f100), w')
      /\ stdout w'
         = report_head (Float f100) (Float f119_75)
           ++ [Say "WARNING: You have exceeded your budget!";
               SayAmount "Over Budget By: $" (Float f19_75)])
  /\ (exists out,
        stdout (track_budget (three_tracker (Int 0)) (typing ["n"])).2
        = unset_message :: out).
Proof.
  split.
  - destruct (track_budget_status (three_tracker (Float f100)) (typing []))
      as [_ H].
    destruct (H (Float f119_75) eq_refl eq_refl) as (w' & H1 & _ & _ & H2 & _).
    exists w'. split; [exact H1 | exact H2].
  - destruct (track_budget_status (three_tracker (Int 0)) (typing ["n"]))
      as [H _].
    exact (proj2 (H eq_refl [])).
Defined.

(** ** Adding and listing records *)

Lemma get_valid_date_accepts (date : string) (rest : list string)
    (out : list msg) :
  is_Some (Date.strptime date) ->
  get_valid_date (date :: rest) out = (Ret date, rest, out ++ [Prompt date_prompt]).
Proof. intros [d Hd]. simpl. by rewrite Hd. Qed.

Lemma get_non_empty_input_accepts (prompt line : string)
    (rest : list string) (out : list msg) :
  Str.strip line <> EmptyString ->
  get_non_empty_input prompt (line :: rest) out
  = (Ret (Str.strip line), rest, out ++ [Prompt prompt]).
Proof. intros Hne. simpl. by destruct (Str.strip line). Qed.

Lemma get_positive_float_accepts (prompt line : string)
    (rest : list string) (out : list msg) (a : PyFloat.float) :
  PyFloat.of_string line = Some a ->
  PyFloat.ltb PyFloat.zero a = true ->
  get_positive_float prompt (line :: rest) out = (Ret a, rest, out ++ [Prompt prompt]).
Proof. intros Ha Hpos. simpl. by rewrite Ha, Hpos. Qed.

Lemma print_expenses_app (l1 l2 : list expense) :
  forall out lines,
    Forall2 (fun e m => expense_line e = inl m) l1 lines ->
    print_expenses (l1 ++ l2) out = print_expenses l2 (out ++ lines).
Proof.
  induction l1 as [|e l1 IH]; intros out lines H; inversion H; subst; simpl.
  - by rewrite app_nil_r.
  - rewrite H2. rewrite (IH _ _ H4). by rewrite <- app_assoc.
Qed.

Lemma expense_line_new (date category description : string)
    (amount : PyFloat.float) :
  expense_line (new_expense date category amount description)
  = inl (SayExpense (VStr date) (VStr category) (Float amount) (VStr description)).
Proof. reflexivity. Qed.

(** C8: a valid date, category, positive amount and description typed at
    the prompts append exactly one record, made of these four values, at
    the end of the record list; the earlier records and their order are
    kept, and [view_expenses] then lists the earlier records followed by
    the new one. *)
Theorem add_expense_appends (t : tracker) (w : world)
    (date category amount description : string) (rest : list string)
    (a : PyFloat.float) :
  stdin w = date :: category :: amount :: description :: rest ->
  is_Some (Date.strptime date) ->
  Str.strip category <> EmptyString ->
  PyFloat.of_string amount = Some a ->
  PyFloat.ltb PyFloat.zero a = true ->
  Str.strip description <> EmptyString ->
  let e := new_expense date (Str.strip category) a (Str.strip description) in
  let t' := with_expenses (expenses t ++ [e]) t in
  add_expense t w
  = (Ret tt, t', with_console rest (added_console (stdout w)) w)
  /\ expenses (tracker_after (add_expense t w)) = expenses t ++ [e]
  /\ monthly_budget t' = monthly_budget t
  /\ forall lines w1,
       Forall2 (fun e' m => expense_line e' = inl m) (expenses t) lines ->
       view_expenses t' w1
       = (Ret tt, t',
          with_console (stdin w1)
            (stdout w1 ++ view_header ++ lines
             ++ [SayExpense (VStr date) (VStr (Str.strip category)) (Float a)
                   (VStr (Str.strip description))]) w1).
Proof.
  intros Hin Hd Hc Ha Hpos Hs e t'.
  assert (add_expense t w
          = (Ret tt, t', with_console rest (added_console (stdout w)) w)) as Hadd.
  { unfold add_expense, read_expense. rewrite Hin.
    rewrite (get_valid_date_accepts _ _ _ Hd).
    rewrite (get_non_empty_input_accepts _ _ _ _ Hc).
    rewrite (get_positive_float_accepts _ _ _ _ _ Ha Hpos).
    rewrite (get_non_empty_input_accepts _ _ _ _ Hs).
    unfold print, with_console, added_console. simpl.
    by rewrite <- !app_assoc. }
  repeat split.
  - exact Hadd.
  - by rewrite Hadd.
  - intros lines w1 Hl. unfold view_expenses. subst t'. simpl.
    destruct (expenses t ++ [e]) as [|e0 l0] eqn:Heq.
    { by destruct (expenses t). }
    rewrite <- Heq. rewrite (print_expenses_app _ _ _ _ Hl). simpl.
    subst e. rewrite expense_line_new. simpl. by rewrite <- !app_assoc.
Qed.

Lemma add_expense_appends_witness :
  let e := new_expense "2024-01-08" "Food" f12_50 "lunch, again" in
  let t' := with_expenses (three_expenses ++ [e]) (three_tracker (Int 0)) in
  add_expense (three_tracker (Int 0))
    (typing ["2024-01-08"; " Food "; "12.50"; "lunch, again"; "5"])
  = (Ret tt, t', with_console ["5"] (added_console []) (typing []))
  /\ expenses
       (tracker_after
          (add_expense (three_tracker (Int 0))
             (typing ["2024-01-08"; " Food "; "12.50"; "lunch, again"; "5"])))
     = three_expenses ++ [e]
  /\ monthly_budget t' = Int 0
  /\ forall lines w1,
       Forall2 (fun e' m => expense_line e' = inl m) three_expenses lines ->
       view_expenses t' w1
       = (Ret tt, t',
          with_console (stdin w1)
            (stdout w1 ++ view_header ++ lines
             ++ [SayExpense (VStr "2024-01-08") (VStr "Food") (Float f12_50)
                   (VStr "lunch, again")]) w1).
Proof.
  apply (add_expense_appends (three_tracker (Int 0))
           (typing ["2024-01-08"; " Food "; "12.50"; "lunch, again"; "5"])
           "2024-01-08" " Food " "12.50" "lunch, again" ["5"] f12_50);
    try reflexivity; done.
Defined.

(** ** What the queries change *)

Lemma set_budget_frame (t : tracker) (w : world) :
  expenses (tracker_after (set_budget t w)) = expenses t
  /\ filename (tracker_after (set_budget t w)) = filename t
  /\ files (world_after (set_budget t w)) = files w.
Proof.
  unfold set_budget, tracker_after, world_after.
  by destruct (read_budget _ _) as [[[b|e|] inp] out].
Qed.

(** C9, amended: [view_expenses] changes neither the records nor the
    budget nor any file; [track_budget] changes neither the records nor
    any file, and leaves the budget alone whenever the budget is not 0 or
    the answer typed is not y.  (With a budget of 0 and the answer y it
    goes on to [set_budget].) *)
Theorem queries_frame (t : tracker) (w : world) :
  tracker_after (view_expenses t w) = t
  /\ files (world_after (view_expenses t w)) = files w
  /\ expenses (tracker_after (track_budget t w)) = expenses t
  /\ files (world_after (track_budget t w)) = files w
  /\ (Num.eqb (monthly_budget t) (Int 0) = false ->
      tracker_after (track_budget t w) = t)
  /\ (forall answer rest,
        stdin w = answer :: rest ->
        (Str.lower answer =? "y")%string = false ->
        tracker_after (track_budget t w) = t).
Proof.
  unfold tracker_after, world_after. repeat split.
  - unfold view_expenses. destruct (expenses t); [done|].
    by destruct (print_expenses _ _).
  - unfold view_expenses. destruct (expenses t); [done|].
    by destruct (print_expenses _ _).
  - unfold track_budget. destruct (Num.eqb _ _).
    + simpl. destruct (stdin w); [done|].
      destruct (_ =? _)%string; [|done]. apply set_budget_frame.
    + destruct (total_expenses t); [|done]. by destruct (Num.gtb _ _).
  - unfold track_budget. destruct (Num.eqb _ _).
    + simpl. destruct (stdin w); [done|].
      destruct (_ =? _)%string; [|done].
      by rewrite (proj2 (proj2 (set_budget_frame _ _))).
    + destruct (total_expenses t); [|done]. by destruct (Num.gtb _ _).
  - intros Hb. unfold track_budget. rewrite Hb.
    destruct (total_expenses t); [|done]. by destruct (Num.gtb _ _).
  - intros answer rest Hin Hans. unfold track_budget.
    destruct (Num.eqb _ _).
    + simpl. rewrite Hin, Hans. done.
    + destruct (total_expenses t); [|done]. by destruct (Num.gtb _ _).
Qed.

Lemma queries_frame_witness :
  tracker_after (track_budget (three_tracker (Float f100)) (typing ["y"; "50"]))
  = three_tracker (Float f100)
  /\ tracker_after (track_budget (three_tracker (Int 0)) (typing ["n"; "50"]))
     = three_tracker (Int 0).
Proof.
  split.
  - apply (queries_frame (three_tracker (Float f100)) (typing ["y"; "50"])).
    reflexivity.
  - apply (queries_frame (three_tracker (Int 0)) (typing ["n"; "50"])) with "n" ["50"];
      reflexivity.
Defined.

(** C9 as stated fails: with no budget set and the answer y,
    [track_budget] stores the budget typed next. *)
Lemma track_budget_changes_budget :
  monthly_budget
    (tracker_after (track_budget (three_tracker (Int 0)) (typing ["y"; "50"])))
  = Float fifty
  /\ monthly_budget
       (tracker_after (track_budget (three_tracker (Int 0)) (typing ["y"; "50"])))
     <> monthly_budget (three_tracker (Int 0)).
Proof. split; [reflexivity | discriminate]. Qed.

(** ** Validation of the records *)

Lemma get_valid_date_result (inp : list string) :
  forall out d inp' out',
    get_valid_date inp out = (Ret d, inp', out') -> is_Some (Date.strptime d).
Proof.
  induction inp as [|line inp IH]; intros out d inp' out' H; simpl in H.
  - discriminate.
  - destruct (Date.strptime line) eqn:Hd; [|by eapply IH].
    inversion H; subst. by rewrite Hd.
Qed.

Lemma get_non_empty_input_result (prompt : string) (inp : list string) :
  forall out s inp' out',
    get_non_empty_input prompt inp out = (Ret s, inp', out') -> s <> EmptyString.
Proof.
  induction inp as [|line inp IH]; intros out s inp' out' H; simpl in H.
  - discriminate.
  - destruct (Str.strip line) eqn:Hs; [by eapply IH|].
    inversion H; subst. done.
Qed.

Lemma get_positive_float_result (prompt : string) (inp : list string) :
  forall out a inp' out',
    get_positive_float prompt inp out = (Ret a, inp', out') ->
    PyFloat.ltb PyFloat.zero a = true.
Proof.
  induction inp as [|line inp IH]; intros out a inp' out' H; simpl in H.
  - discriminate.
  - destruct (PyFloat.of_string line) as [v|]; [|by eapply IH].
    destruct (PyFloat.ltb PyFloat.zero v) eqn:Hv; [|by eapply IH].
    inversion H; subst. done.
Qed.

Lemma read_expense_valid (inp : list string) (out : list msg)
    (e : expense) (inp' : list string) (out' : list msg) :
  read_expense inp out = (Ret e, inp', out') -> valid_expense e.
Proof.
  unfold read_expense. intros H.
  destruct (get_valid_date inp out) as [[[d|x|] i1] o1] eqn:H1; try done.
  destruct (get_non_empty_input category_prompt i1 o1)
    as [[[c|x|] i2] o2] eqn:H2; try done.
  destruct (get_positive_float amount_prompt i2 o2)
    as [[[a|x|] i3] o3] eqn:H3; try done.
  destruct (get_non_empty_input description_prompt i3 o3)
    as [[[s|x|] i4] o4] eqn:H4; try done.
  inversion H; subst. exists d, c, a, s. repeat split.
  - by eapply get_valid_date_result.
  - by eapply get_non_empty_input_result.
  - by eapply get_non_empty_input_result.
  - by eapply get_positive_float_result.
Qed.

Lemma perform_keeps_valid (a : action) (t : tracker) (w : world) :
  Forall valid_expense (expenses t) ->
  Forall valid_expense (expenses (tracker_after (perform a t w))).
Proof.
  intros Hv. destruct a; simpl.
  - unfold tracker_after, add_expense.
    destruct (read_expense _ _) as [[[e|x|] i] o] eqn:He; simpl; try done.
    apply Forall_app. split; [done|].
    constructor; [|done]. by eapply read_expense_valid.
  - assert (tracker_after (view_expenses t w) = t) as ->; [|done].
    unfold tracker_after, view_expenses. destruct (expenses t); [done|].
    by destruct (print_expenses _ _).
  - by rewrite (proj1 (set_budget_frame t w)).
  - assert (expenses (tracker_after (track_budget t w)) = expenses t) as ->;
      [|done].
    unfold tracker_after, track_budget. destruct (Num.eqb _ _).
    + simpl. destruct (stdin w); [done|].
      destruct (_ =? _)%string; [|done]. apply set_budget_frame.
    + destruct (total_expenses t); [|done]. by destruct (Num.gtb _ _).
  - unfold tracker_after, save_expenses. by destruct (save_text t).
Qed.

Lemma convert_amounts_done (l : list expense) :
  forall l', convert_amounts l = (l', None) -> Forall has_float_amount l'.
Proof.
  induction l as [|e l IH]; intros l' H; simpl in H.
  - inversion H. constructor.
  - destruct (lookup_item e "amount") as [v|]; [|done].
    destruct (float_of v) as [x|]; [|done].
    destruct (convert_amounts l) as [l1 r] eqn:Hl.
    inversion H; subst. constructor; [|by apply IH].
    exists x. unfold set_amount. simpl. apply lookup_insert_eq.
Qed.

(** C2, amended: whatever the calls of a session that starts with
    validated records (the empty ledger of a first run, say), every record
    in memory is a validated one: its date parses, its category and
    description are not empty, its amount is above 0.  [load_expenses]
    validates nothing of this; when it reports no error, all it has
    checked is that the amount of every stored row is a number. *)
Theorem records_validated_on_entry :
  (forall t w t' w',
     session t w t' w' ->
     Forall valid_expense (expenses t) -> Forall valid_expense (expenses t'))
  /\ (forall t w r t',
        load_expenses t w
        = (r, t', print (SayFile "Expenses loaded from " (filename t)) w) ->
        Forall has_float_amount (expenses t')).
Proof.
  split.
  - intros t w t' w' Hs Hv. induction Hs as [|t w t1 w1 a Hs IH]; [done|].
    by apply perform_keeps_valid, IH.
  - intros t w r t'. unfold load_expenses.
    destruct (files w !! filename t) as [content|].
    2: { intros H. inversion H as [[Hr Ht Hw]].
         apply (f_equal (fun x => length (stdout x))) in Hw.
         simpl in Hw. rewrite length_app in Hw. simpl in Hw. lia. }
    destruct (TextFile.readline _) as [budget_line body].
    destruct (read_budget_line budget_line t) as [t1|x].
    2: { intros H. inversion H as [[Hr Ht Hw]]. by apply app_inv_head in Hw. }
    destruct (Csv.rows _) as [rows|].
    2: { intros H. inversion H as [[Hr Ht Hw]]. by apply app_inv_head in Hw. }
    destruct (convert_amounts _) as [l [x|]] eqn:Hc.
    { intros H. inversion H as [[Hr Ht Hw]]. by apply app_inv_head in Hw. }
    intros H. inversion H; subst. simpl. by eapply convert_amounts_done.
Qed.

Lemma records_validated_on_entry_witness :
  Forall valid_expense
    (expenses (tracker_after
       (add_expense (empty_tracker "expenses.csv")
          (typing ["2024-01-08"; "Food"; "12.50"; "lunch"])))).
Proof.
  apply (proj1 records_validated_on_entry
           (empty_tracker "expenses.csv")
           (typing ["2024-01-08"; "Food"; "12.50"; "lunch"]) _
           (world_after (perform AddExpense (empty_tracker "expenses.csv")
              (typing ["2024-01-08"; "Food"; "12.50"; "lunch"])))).
  - apply (session_call _ _ _ _ AddExpense). apply session_start.
  - constructor.
Defined.

(** C2 as stated fails: [load_expenses] admits a stored record whose date
    is no date, whose category and description are empty and whose amount
    is negative. *)
Lemma load_admits_unvalidated_record :
  expenses (tracker_after (init "expenses.csv" (on_disk unvalidated_file)))
  = [unvalidated_record]
  /\ ~ Forall valid_expense
       (expenses (tracker_after (init "expenses.csv" (on_disk unvalidated_file)))).
Proof.
  assert (expenses (tracker_after (init "expenses.csv" (on_disk unvalidated_file)))
          = [unvalidated_record]) as Heq by (vm_compute; reflexivity).
  split; [exact Heq|]. rewrite Heq. intros Hv.
  inversion Hv as [|e l (d & c & a & s & He & _ & Hc & _) _]; subst.
  apply (f_equal (fun e => items e !! "category")) in He.
  vm_compute in He. congruence.
Qed.

(** ** Loading a file with a malformed line *)

Lemma of_row_converted (d c a s : string) (x : PyFloat.float) :
  set_amount x (Dict.of_row Dict.fieldnames [d; c; a; s]) = new_expense d c x s.
Proof. reflexivity. Qed.

Lemma convert_amounts_good (rows : list (list string)) (records : list expense) :
  Forall2 row_record rows records ->
  forall l,
    convert_amounts (List.map (Dict.of_row Dict.fieldnames) rows ++ l)
    = (records ++ (convert_amounts l).1, (convert_amounts l).2).
Proof.
  induction 1 as [|r e rows records (d & c & a & s & x & -> & Ha & ->) _ IH];
    intros l; simpl.
  - by destruct (convert_amounts l).
  - change (lookup_item (Dict.of_row Dict.fieldnames [d; c; a; s]) "amount")
      with (inl (VStr a) : value + exn).
    simpl. rewrite Ha, IH. by rewrite of_row_converted.
Qed.

Lemma convert_amounts_malformed (r : list string) (l : list expense) :
  malformed_row r ->
  convert_amounts (Dict.of_row Dict.fieldnames r :: l)
  = (Dict.of_row Dict.fieldnames r :: l, Some (malformed_error r)).
Proof.
  intros [(d & ->) | [(d & c & ->) | (d & c & a & more & -> & Ha)]].
  - done.
  - done.
  - simpl.
    assert (lookup_item (Dict.of_row Dict.fieldnames (d :: c :: a :: more)) "amount"
            = inl (VStr a)) as ->.
    { destruct more as [|s [|s' more]]; reflexivity. }
    simpl. by rewrite Ha.
Qed.

Lemma filter_nonempty_rows (good : list (list string)) (records : list expense)
    (l : list (list string)) :
  Forall2 row_record good records ->
  List.filter (fun r => negb (length r =? 0)%nat) (good ++ l)
  = good ++ List.filter (fun r => negb (length r =? 0)%nat) l.
Proof.
  induction 1 as [|r e rows records (d & c & a & s & x & -> & _) _ IH]; simpl;
    [done|]. by rewrite IH.
Qed.

Lemma malformed_nonempty (r : list string) :
  malformed_row r -> negb (length r =? 0)%nat = true.
Proof.
  by intros [(d & ->) | [(d & c & ->) | (d & c & a & more & -> & _)]].
Qed.

(** C3, amended: when the record lines of a stored file are valid lines
    followed by a line that has only one or two fields, or whose amount is
    not a number, [load_expenses] reports the error the conversion stopped
    on ([TypeError] for the short line, [ValueError] for the amount), and
    the ledger holds the records of the valid lines before it, in their
    order and with their amounts converted, followed by the malformed
    line and every line after it as the reader delivered them, with
    amounts that were not converted. *)
Theorem load_keeps_records_before_malformed_line (t t1 : tracker) (w : world)
    (content budget_line body : string)
    (good : list (list string)) (records : list expense)
    (bad : list string) (later : list (list string)) :
  files w !! filename t = Some content ->
  TextFile.readline (TextFile.universal_newlines content) = (budget_line, body) ->
  read_budget_line budget_line t = inl t1 ->
  Csv.rows (TextFile.lines body) = Some (Dict.fieldnames :: good ++ bad :: later) ->
  Forall2 row_record good records ->
  malformed_row bad ->
  load_expenses t w
  = (Ret tt,
     with_expenses
       (records
        ++ List.map (Dict.of_row Dict.fieldnames)
             (bad :: List.filter (fun r => negb (length r =? 0)%nat) later))
       t1,
     print (SayError load_error (malformed_error bad)) w)
  /\ expenses (tracker_after (load_expenses t w))
     = records
       ++ List.map (Dict.of_row Dict.fieldnames)
            (bad :: List.filter (fun r => negb (length r =? 0)%nat) later)
  /\ monthly_budget (tracker_after (load_expenses t w)) = monthly_budget t1.
Proof.
  intros Hfile Hline Hbudget Hrows Hgood Hbad.
  assert (load_expenses t w
          = (Ret tt,
             with_expenses
               (records
                ++ List.map (Dict.of_row Dict.fieldnames)
                     (bad :: List.filter (fun r => negb (length r =? 0)%nat) later))
               t1,
             print (SayError load_error (malformed_error bad)) w)) as Hload.
  { unfold load_expenses. rewrite Hfile, Hline, Hbudget, Hrows.
    unfold Dict.read. rewrite (filter_nonempty_rows _ _ _ Hgood). simpl.
    rewrite (malformed_nonempty _ Hbad), map_app. simpl.
    rewrite (convert_amounts_good _ _ Hgood).
    by rewrite (convert_amounts_malformed bad _ Hbad). }
  split; [exact Hload|]. by rewrite Hload.
Qed.

Lemma load_keeps_records_before_malformed_line_witness :
  init "expenses.csv" (on_disk partial_file)
  = (Ret tt,
     with_expenses
       (partial_valid
        ++ List.map (Dict.of_row Dict.fieldnames)
             (["bad"; "line"]
              :: List.filter (fun r => negb (length r =? 0)%nat)
                   [["2024-01-03"; "Rent"; "3.5"; "room"]]))
       (with_budget (Float fifty) (empty_tracker "expenses.csv")),
     print (SayError load_error (malformed_error ["bad"; "line"]))
       (on_disk partial_file))
  /\ expenses (tracker_after (init "expenses.csv" (on_disk partial_file)))
     = partial_valid
       ++ List.map (Dict.of_row Dict.fieldnames)
            (["bad"; "line"]
             :: List.filter (fun r => negb (length r =? 0)%nat)
                  [["2024-01-03"; "Rent"; "3.5"; "room"]])
  /\ monthly_budget (tracker_after (init "expenses.csv" (on_disk partial_file)))
     = Float fifty.
Proof.
  assert (Forall2 row_record
            [["2024-01-01"; "Food"; "1.5"; "lunch"];
             ["2024-01-02"; "Travel"; "2.5"; "bus"]] partial_valid) as Hgood.
  { repeat constructor.
    - by exists "2024-01-01", "Food", "1.5", "lunch", f1_5.
    - by exists "2024-01-02", "Travel", "2.5", "bus", f2_5. }
  assert (malformed_row ["bad"; "line"]) as Hbad.
  { right. left. by exists "bad", "line". }
  exact (load_keeps_records_before_malformed_line
           (empty_tracker "expenses.csv")
           (with_budget (Float fifty) (empty_tracker "expenses.csv"))
           (on_disk partial_file)
           partial_file ("Monthly Budget,50" +:+ newline)
           ("date,category,amount,description" +:+ newline
            +:+ "2024-01-01,Food,1.5,lunch" +:+ newline
            +:+ "2024-01-02,Travel,2.5,bus" +:+ newline
            +:+ "bad,line" +:+ newline
            +:+ "2024-01-03,Rent,3.5,room" +:+ newline)
           [["2024-01-01"; "Food"; "1.5"; "lunch"];
            ["2024-01-02"; "Travel"; "2.5"; "bus"]]
           partial_valid
           ["bad"; "line"]
           [["2024-01-03"; "Rent"; "3.5"; "room"]]
           eq_refl eq_refl eq_refl eq_refl Hgood Hbad).
Defined.

(** C3 as stated fails in two ways.  After the error the ledger holds
    the malformed line and the line after it as well, with amounts that
    are no numbers, so it is not the list of the valid records before the
    line.  And a wrong number of fields is no error when the line has
    three fields or more than four: such lines are loaded as records, the
    first without a description, the second with an entry beyond the
    header, and the load is reported as done. *)
Lemma load_keeps_malformed_line :
  (init "expenses.csv" (on_disk partial_file)
   = (Ret tt,
      with_expenses (partial_valid ++ partial_leftover)
        (with_budget (Float fifty) (empty_tracker "expenses.csv")),
      print (SayError load_error TypeError) (on_disk partial_file))
   /\ expenses (tracker_after (init "expenses.csv" (on_disk partial_file)))
      <> partial_valid)
  /\ init "expenses.csv" (on_disk wrong_count_file)
     = (Ret tt,
        with_expenses wrong_count_records
          (with_budget (Float fifty) (empty_tracker "expenses.csv")),
        print (SayFile "Expenses loaded from " "expenses.csv")
          (on_disk wrong_count_file)).
Proof.
  assert (init "expenses.csv" (on_disk partial_file)
          = (Ret tt,
             with_expenses (partial_valid ++ partial_leftover)
               (with_budget (Float fifty) (empty_tracker "expenses.csv")),
             print (SayError load_error TypeError) (on_disk partial_file)))
    as Heq by (vm_compute; reflexivity).
  split; [|vm_compute; reflexivity].
  split; [exact Heq|]. rewrite Heq. simpl. intros H.
  apply (f_equal (@length expense)) in H. simpl in H. lia.
Qed.

(** ** Saving and loading

    What [save_expenses] writes, [load_expenses] reads back, as long as
    no text holds a line end.  The proof follows the file: strings, lines,
    the fields of a line, the text of a number, the first line, the
    records. *)

(** *** Strings *)

Lemma app_cons (c : ascii) (a b : string) : String c a +:+ b = String c (a +:+ b).
Proof. reflexivity. Qed.

Lemma app_empty_l (a : string) : EmptyString +:+ a = a.
Proof. reflexivity. Qed.

Lemma app_empty_r (a : string) : a +:+ EmptyString = a.
Proof. induction a as [|c a IH]; [done|]. by rewrite app_cons, IH. Qed.

Lemma app_assoc_str (a b c : string) : (a +:+ b) +:+ c = a +:+ (b +:+ c).
Proof. induction a as [|x a IH]; [done|]. by rewrite !app_cons, IH. Qed.

Lemma length_app_str (a b : string) :
  String.length (a +:+ b) = (String.length a + String.length b)%nat.
Proof. induction a as [|x a IH]; [done|]. rewrite app_cons. simpl. by rewrite IH. Qed.

Lemma all_app (p : ascii -> bool) (a b : string) :
  Str.all p (a +:+ b) = Str.all p a && Str.all p b.
Proof.
  induction a as [|x a IH]; [done|]. rewrite app_cons. simpl.
  by rewrite IH, andb_assoc.
Qed.

Lemma any_all (p : ascii -> bool) (s : string) :
  Str.any p s = negb (Str.all (fun c => negb (p c)) s).
Proof.
  induction s as [|x s IH]; [done|]. simpl. rewrite IH.
  by destruct (p x).
Qed.

Lemma all_impl (p q : ascii -> bool) (s : string) :
  (forall c, p c = true -> q c = true) ->
  Str.all p s = true -> Str.all q s = true.
Proof.
  intros Hpq. induction s as [|x s IH]; [done|]. simpl.
  intros [Hx Hs]%andb_prop. by rewrite (Hpq _ Hx), IH.
Qed.

(** *** Text files *)

Lemma universal_newlines_app (s rest : string) :
  Str.all (fun c => negb (Chars.is_cr c)) s = true ->
  TextFile.universal_newlines (s +:+ rest) = s +:+ TextFile.universal_newlines rest.
Proof.
  induction s as [|x s IH]; [done|]. simpl. intros [Hx Hs]%andb_prop.
  rewrite app_cons. simpl. apply negb_true_iff in Hx. rewrite Hx.
  by rewrite IH.
Qed.

Lemma universal_newlines_crlf (rest : string) :
  TextFile.universal_newlines (Csv.lineterminator +:+ rest)
  = newline +:+ TextFile.universal_newlines rest.
Proof. reflexivity. Qed.

Lemma readline_app (s rest : string) :
  Str.all (fun c => negb (Chars.is_lf c)) s = true ->
  TextFile.readline (s +:+ newline +:+ rest) = (s +:+ newline, rest).
Proof.
  induction s as [|x s IH]; [done|]. simpl. intros [Hx Hs]%andb_prop.
  rewrite !app_cons. simpl. apply negb_true_iff in Hx. rewrite Hx.
  by rewrite (IH Hs).
Qed.

Lemma lines_go_app (s : string) :
  forall cur rest,
    Str.all (fun c => negb (Chars.is_lf c)) s = true ->
    TextFile.lines_go cur (s +:+ newline +:+ rest)
    = (cur +:+ s +:+ newline) :: TextFile.lines_go EmptyString rest.
Proof.
  induction s as [|x s IH]; intros cur rest; simpl.
  - done.
  - intros [Hx Hs]%andb_prop. rewrite !app_cons. simpl.
    apply negb_true_iff in Hx. rewrite Hx, (IH _ _ Hs).
    by rewrite app_assoc_str.
Qed.

Lemma lines_app (s rest : string) :
  Str.all (fun c => negb (Chars.is_lf c)) s = true ->
  TextFile.lines (s +:+ newline +:+ rest) = (s +:+ newline) :: TextFile.lines rest.
Proof. intros H. unfold TextFile.lines. by rewrite (lines_go_app _ _ _ H). Qed.

(** *** The csv reader on what the csv writer wrote *)

Lemma process_chars_app (a b : string) :
  forall r,
    Csv.process_chars r (a +:+ b)
    = match Csv.process_chars r a with
      | Some r' => Csv.process_chars r' b
      | None => None
      end.
Proof.
  induction a as [|x a IH]; intros r; [done|]. rewrite app_cons. simpl.
  by destruct (Csv.parse_process_char r (Some x)).
Qed.

Lemma add_char_fits (st : Csv.pstate) (fs : list string) (acc : string)
    (c : ascii) (g : string) :
  fits (acc +:+ String c g) ->
  Csv.parse_add_char (R st fs acc) c = Some (R st fs (acc +:+ String c EmptyString)).
Proof.
  unfold fits, Csv.parse_add_char. rewrite length_app_str. simpl. intros H.
  destruct (Z.leb_spec Csv.field_limit (Z.of_nat (String.length acc))); [lia|done].
Qed.

Lemma fits_step (acc : string) (c : ascii) (g : string) :
  fits (acc +:+ String c g) -> fits ((acc +:+ String c EmptyString) +:+ g).
Proof. by rewrite app_assoc_str, app_cons, app_empty_l. Qed.

Lemma plain_char (c : ascii) :
  Csv.needs_quotes c = false ->
  Chars.is_comma c = false /\ Chars.is_dquote c = false /\ Csv.is_newline c = false.
Proof.
  unfold Csv.needs_quotes. intros H.
  apply orb_false_elim in H as [H Hnl].
  by apply orb_false_elim in H as [Hcomma Hq].
Qed.

Lemma step_in_field (fs : list string) (acc : string) (c : ascii) (g : string) :
  Csv.needs_quotes c = false ->
  fits (acc +:+ String c g) ->
  Csv.parse_process_char (R Csv.IN_FIELD fs acc) (Some c)
  = Some (R Csv.IN_FIELD fs (acc +:+ String c EmptyString)).
Proof.
  intros (Hcomma & Hq & Hnl)%plain_char Hfit.
  unfold Csv.parse_process_char. cbn [Csv.state].
  rewrite Hnl, Hcomma. by apply add_char_fits with g.
Qed.

Lemma in_field_run (g : string) :
  forall acc fs,
    Str.all (fun c => negb (Csv.needs_quotes c)) g = true ->
    fits (acc +:+ g) ->
    Csv.process_chars (R Csv.IN_FIELD fs acc) g = Some (R Csv.IN_FIELD fs (acc +:+ g)).
Proof.
  induction g as [|c g IH]; intros acc fs Hg Hfit.
  - by rewrite app_empty_r.
  - cbn [Str.all] in Hg. apply andb_prop in Hg as [Hc Hg].
    apply negb_true_iff in Hc.
    cbn [Csv.process_chars]. rewrite (step_in_field _ _ _ _ Hc Hfit).
    rewrite (IH _ _ Hg (fits_step _ _ _ Hfit)).
    by rewrite app_assoc_str.
Qed.

Lemma step_quoted (fs : list string) (acc : string) (c : ascii) (g : string) :
  Chars.is_dquote c = false ->
  fits (acc +:+ String c g) ->
  Csv.parse_process_char (R Csv.IN_QUOTED_FIELD fs acc) (Some c)
  = Some (R Csv.IN_QUOTED_FIELD fs (acc +:+ String c EmptyString)).
Proof.
  intros Hq Hfit. unfold Csv.parse_process_char. cbn [Csv.state].
  rewrite Hq. by apply add_char_fits with g.
Qed.

Lemma step_quote_pair (fs : list string) (acc : string) (c : ascii) (g : string) :
  Chars.is_dquote c = true ->
  fits (acc +:+ String c g) ->
  Csv.process_chars (R Csv.IN_QUOTED_FIELD fs acc) (String c (String c EmptyString))
  = Some (R Csv.IN_QUOTED_FIELD fs (acc +:+ String c EmptyString)).
Proof.
  intros Hq Hfit. cbn [Csv.process_chars].
  unfold Csv.parse_process_char at 1. cbn [Csv.state]. rewrite Hq.
  unfold Csv.set_state at 1. cbn [Csv.fields Csv.field].
  unfold Csv.parse_process_char. cbn [Csv.state]. rewrite Hq.
  by rewrite (add_char_fits _ _ _ _ _ Hfit).
Qed.

Lemma quoted_run (g : string) :
  forall acc fs,
    fits (acc +:+ g) ->
    Csv.process_chars (R Csv.IN_QUOTED_FIELD fs acc) (Csv.double_quotes g)
    = Some (R Csv.IN_QUOTED_FIELD fs (acc +:+ g)).
Proof.
  induction g as [|c g IH]; intros acc fs Hfit.
  - by rewrite app_empty_r.
  - cbn [Csv.double_quotes]. destruct (Chars.is_dquote c) eqn:Hq.
    + change (String c (String c (Csv.double_quotes g)))
        with (String c (String c EmptyString) +:+ Csv.double_quotes g).
      rewrite process_chars_app, (step_quote_pair _ _ _ _ Hq Hfit).
      rewrite (IH _ _ (fits_step _ _ _ Hfit)). by rewrite app_assoc_str.
    + cbn [Csv.process_chars]. rewrite (step_quoted _ _ _ _ Hq Hfit).
      rewrite (IH _ _ (fits_step _ _ _ Hfit)). by rewrite app_assoc_str.
Qed.

Lemma dquote_char (c : ascii) :
  Chars.is_dquote c = true ->
  Chars.is_comma c = false /\ Csv.is_newline c = false.
Proof.
  unfold Chars.is_dquote, Chars.is_comma, Csv.is_newline, Chars.is_lf, Chars.is_cr.
  intros ->%N.eqb_eq. done.
Qed.

Lemma start_state_char (st : Csv.pstate) (fs : list string) (x : ascii) :
  st = Csv.START_RECORD \/ st = Csv.START_FIELD ->
  Csv.is_newline x = false ->
  Csv.parse_process_char (R st fs EmptyString) (Some x)
  = Csv.start_field (R st fs EmptyString) x.
Proof.
  intros [-> | ->] Hnl; unfold Csv.parse_process_char; cbn [Csv.state];
    by rewrite ?Hnl.
Qed.

Lemma start_field_plain (st : Csv.pstate) (fs : list string) (x : ascii) (g : string) :
  Csv.needs_quotes x = false ->
  fits (String x g) ->
  Csv.start_field (R st fs EmptyString) x
  = Some (R Csv.IN_FIELD fs (String x EmptyString)).
Proof.
  intros (Hcomma & Hq & Hnl)%plain_char Hfit. unfold Csv.start_field.
  rewrite Hnl, Hq, Hcomma.
  by rewrite (add_char_fits st fs EmptyString x g Hfit).
Qed.

Lemma start_field_quote (st : Csv.pstate) (fs : list string) (x : ascii) :
  Chars.is_dquote x = true ->
  Csv.start_field (R st fs EmptyString) x
  = Some (R Csv.IN_QUOTED_FIELD fs EmptyString).
Proof.
  intros Hq. destruct (dquote_char _ Hq) as [Hcomma Hnl].
  unfold Csv.start_field. by rewrite Hnl, Hq.
Qed.

(** The characters of a written field bring the reader to the end of
    that field: inside it when it was written as it is, after the closing
    quote when it was quoted. *)
Lemma read_written_field (st : Csv.pstate) (fs : list string) (f rest : string) :
  st = Csv.START_RECORD \/ st = Csv.START_FIELD ->
  fits f ->
  Csv.process_chars (R st fs EmptyString) (Csv.write_field f +:+ rest)
  = if Str.any Csv.needs_quotes f
    then Csv.process_chars (R Csv.QUOTE_IN_QUOTED_FIELD fs f) rest
    else match f with
         | EmptyString => Csv.process_chars (R st fs EmptyString) rest
         | _ => Csv.process_chars (R Csv.IN_FIELD fs f) rest
         end.
Proof.
  intros Hst Hfit. unfold Csv.write_field.
  destruct (Str.any Csv.needs_quotes f) eqn:Hany.
  - change (Csv.dq +:+ Csv.double_quotes f +:+ Csv.dq)
      with (String Chars.dquote (Csv.double_quotes f +:+ Csv.dq)).
    rewrite app_cons. cbn [Csv.process_chars].
    rewrite (start_state_char st fs Chars.dquote Hst eq_refl).
    rewrite (start_field_quote st fs Chars.dquote eq_refl).
    rewrite app_assoc_str, process_chars_app.
    rewrite (quoted_run f EmptyString fs Hfit).
    rewrite app_empty_l. reflexivity.
  - destruct f as [|x f]; [done|].
    rewrite any_all in Hany. apply negb_false_iff in Hany.
    cbn [Str.all] in Hany. apply andb_prop in Hany as [Hx Hf].
    apply negb_true_iff in Hx.
    rewrite app_cons. cbn [Csv.process_chars].
    rewrite (start_state_char _ _ _ Hst (proj2 (proj2 (plain_char _ Hx)))).
    rewrite (start_field_plain _ _ _ _ Hx Hfit).
    rewrite process_chars_app.
    by rewrite (in_field_run f (String x EmptyString) fs Hf Hfit).
Qed.

Lemma read_field_comma (st : Csv.pstate) (fs : list string) (f rest : string) :
  st = Csv.START_RECORD \/ st = Csv.START_FIELD ->
  fits f ->
  Csv.process_chars (R st fs EmptyString)
    (Csv.write_field f +:+ String Chars.comma rest)
  = Csv.process_chars (R Csv.START_FIELD (fs ++ [f]) EmptyString) rest.
Proof.
  intros Hst Hfit. rewrite (read_written_field _ _ _ _ Hst Hfit).
  destruct (Str.any Csv.needs_quotes f); [done|].
  destruct f; [|done]. by destruct Hst as [-> | ->].
Qed.

Lemma read_field_lf (fs : list string) (f : string) :
  fits f ->
  Csv.process_chars (R Csv.START_FIELD fs EmptyString)
    (Csv.write_field f +:+ newline)
  = Some (R Csv.EAT_CRNL (fs ++ [f]) EmptyString).
Proof.
  intros Hfit. rewrite (read_written_field _ _ _ _ (or_intror eq_refl) Hfit).
  destruct (Str.any Csv.needs_quotes f); [done|]. by destruct f.
Qed.

Lemma read_row_line (a b c d : string) :
  fits a -> fits b -> fits c -> fits d ->
  Csv.process_line Csv.parse_reset (row_line a b c d)
  = Some (R Csv.START_RECORD [a; b; c; d] EmptyString).
Proof.
  intros Ha Hb Hc Hd. unfold Csv.process_line, row_line, Csv.parse_reset.
  rewrite (read_field_comma _ _ _ _ (or_introl eq_refl) Ha).
  rewrite (read_field_comma _ _ _ _ (or_intror eq_refl) Hb).
  rewrite (read_field_comma _ _ _ _ (or_intror eq_refl) Hc).
  by rewrite (read_field_lf _ _ Hd).
Qed.

Lemma writerow_four (a b c d : string) :
  Csv.writerow [a; b; c; d]
  = Csv.write_field a +:+ String Chars.comma
      (Csv.write_field b +:+ String Chars.comma
        (Csv.write_field c +:+ String Chars.comma
          (Csv.write_field d +:+ Csv.lineterminator))).
Proof.
  assert (Csv.writerow [a; b; c; d]
          = Str.join "," (List.map Csv.write_field [a; b; c; d])
            +:+ Csv.lineterminator) as -> by (by destruct a).
  cbn [Str.join List.map]. rewrite !app_assoc_str. reflexivity.
Qed.

Lemma read_rows_lines (lines : list string) (rows : list (list string)) :
  Forall2 (fun line row =>
             Csv.process_line Csv.parse_reset line
             = Some (R Csv.START_RECORD row EmptyString)) lines rows ->
  Csv.rows lines = Some rows.
Proof.
  unfold Csv.rows. induction 1 as [|line row lines rows Hl _ IH]; [done|].
  cbn [Csv.read_rows]. rewrite Hl. cbn [Csv.state Csv.pstate_eqb Csv.fields].
  by rewrite IH.
Qed.

(** *** The text of a number *)

Lemma clean_app (a b : string) : clean a -> clean b -> clean (a +:+ b).
Proof. unfold clean. rewrite all_app. by intros -> ->. Qed.

Lemma clean_cons (c : ascii) (s : string) :
  clean_char c = true -> clean s -> clean (String c s).
Proof. unfold clean. simpl. by intros -> ->. Qed.

Lemma clean_repeat (c : ascii) (n : nat) :
  clean_char c = true -> clean (Str.repeat c n).
Proof. intros Hc. induction n as [|n IH]; [done|]. by apply clean_cons. Qed.

Lemma clean_take (n : nat) : forall s, clean s -> clean (Str.take n s).
Proof.
  induction n as [|n IH]; intros [|c s]; try done.
  unfold clean. simpl. intros [Hc Hs]%andb_prop. rewrite Hc. by apply IH.
Qed.

Lemma clean_drop (n : nat) : forall s, clean s -> clean (Str.drop n s).
Proof.
  induction n as [|n IH]; intros [|c s]; try done.
  unfold clean. simpl. intros [Hc Hs]%andb_prop. by apply IH.
Qed.

Lemma clean_digit (d : Z) :
  0 <= d < 10 -> clean_char (ascii_of_N (Z.to_N (48 + d))) = true.
Proof.
  intros Hd.
  assert (d = 0 \/ d = 1 \/ d = 2 \/ d = 3 \/ d = 4 \/ d = 5 \/ d = 6
          \/ d = 7 \/ d = 8 \/ d = 9) as H by lia.
  by repeat (destruct H as [-> | H]; [done|]); subst.
Qed.

Lemma clean_dec_digits_go (fuel : nat) :
  forall n acc, clean acc -> clean (PyFloat.dec_digits_go fuel n acc).
Proof.
  induction fuel as [|fuel IH]; intros n acc Hacc; [done|]. simpl.
  assert (clean (String (ascii_of_N (Z.to_N (48 + n mod 10))) acc)) as Hc.
  { apply clean_cons; [|done]. apply clean_digit. by apply Z.mod_pos_bound. }
  destruct (n <? 10); [done|]. by apply IH.
Qed.

Lemma clean_dec_digits (n : Z) : clean (PyFloat.dec_digits n).
Proof. by apply clean_dec_digits_go. Qed.

Lemma clean_exp_repr (e : Z) : clean (PyFloat.exp_repr e).
Proof.
  unfold PyFloat.exp_repr. apply clean_cons; [done|].
  apply clean_cons; [by destruct (e <? 0)|].
  destruct (_ <? _)%nat; [apply clean_cons; [done|]|]; apply clean_dec_digits.
Qed.

Lemma clean_format_short (ds : string) (k : Z) :
  clean ds -> clean (PyFloat.format_short ds k).
Proof.
  intros Hds. unfold PyFloat.format_short.
  destruct (_ || _).
  - destruct ds as [|c [|c' rest]]; [done| |].
    + unfold clean in Hds. simpl in Hds. apply andb_prop in Hds as [Hc _].
      apply clean_cons; [done|]. apply clean_exp_repr.
    + unfold clean in Hds. simpl in Hds. apply andb_prop in Hds as [Hc Hr].
      apply clean_app; [|apply clean_exp_repr].
      apply clean_cons; [done|]. by apply clean_cons.
  - destruct (k <=? 0).
    + apply (clean_app "0."); [done|]. apply clean_app; [|done].
      by apply clean_repeat.
    + destruct (_ <=? k).
      * apply clean_app; [done|]. apply clean_app; [by apply clean_repeat|done].
      * apply clean_app; [by apply clean_take|].
        apply (clean_app "."); [done|]. by apply clean_drop.
Qed.

Lemma clean_float_repr (x : PyFloat.float) : clean (PyFloat.repr x).
Proof.
  destruct x as [[]|[]| |s m e]; try done. simpl.
  assert (clean (PyFloat.repr_pos m e)) as H.
  { unfold PyFloat.repr_pos. destruct (PyFloat.shortest_go _ _ _ _ _ _) as [q n].
    apply clean_format_short, clean_dec_digits. }
  destruct s; [by apply clean_cons|done].
Qed.

Lemma clean_number_repr (n : number) :
  n = Int 0 \/ (exists x, n = Float x) -> clean (Num.repr n).
Proof. intros [-> | [x ->]]; [done|]. apply clean_float_repr. Qed.

(** *** The first line *)

Lemma rstrip_newline_clean (v : string) :
  v <> EmptyString -> clean v -> Str.rstrip (v +:+ newline) = v.
Proof.
  induction v as [|c v IH]; [done|]. intros _ Hv.
  unfold clean in Hv. simpl in Hv. apply andb_prop in Hv as [Hc Hv].
  rewrite app_cons. cbn [Str.rstrip].
  destruct v as [|c' v].
  - rewrite app_empty_l. cbn.
    unfold clean_char in Hc. apply andb_prop in Hc as [Hc _].
    apply negb_true_iff in Hc. by rewrite Hc.
  - by rewrite (IH ltac:(done) Hv).
Qed.

Lemma rstrip_app (u w : string) :
  Str.rstrip w <> EmptyString -> Str.rstrip (u +:+ w) = u +:+ Str.rstrip w.
Proof.
  intros Hw. induction u as [|c u IH]; [done|].
  rewrite !app_cons. cbn [Str.rstrip]. rewrite IH.
  destruct (u +:+ Str.rstrip w) eqn:Hu; [|done].
  destruct u; [|done]. by rewrite app_empty_l in Hu.
Qed.

Lemma split_no_sep (sep : ascii -> bool) (s : string) :
  Str.all (fun c => negb (sep c)) s = true -> Str.split sep s = [s].
Proof.
  induction s as [|c s IH]; [done|]. simpl. intros [Hc Hs]%andb_prop.
  apply negb_true_iff in Hc. by rewrite Hc, (IH Hs).
Qed.

Lemma split_app (sep : ascii -> bool) (u : string) (c : ascii) (v : string) :
  Str.all (fun c => negb (sep c)) u = true ->
  sep c = true ->
  Str.split sep (u +:+ String c v) = u :: Str.split sep v.
Proof.
  intros Hu Hc. induction u as [|x u IH].
  - rewrite app_empty_l. simpl. by rewrite Hc.
  - simpl in Hu. apply andb_prop in Hu as [Hx Hu]. apply negb_true_iff in Hx.
    rewrite app_cons. simpl. by rewrite Hx, (IH Hu).
Qed.

Lemma clean_no_comma (s : string) :
  clean s -> Str.all (fun c => negb (Chars.is_comma c)) s = true.
Proof.
  apply all_impl. intros c [_ H]%andb_prop. apply negb_true_iff in H.
  by destruct (plain_char _ H) as (-> & _).
Qed.

Lemma space_newline (c : ascii) :
  Chars.is_space c = false -> Chars.is_cr c = false /\ Chars.is_lf c = false.
Proof.
  unfold Chars.is_space, Chars.is_cr, Chars.is_lf. intros H.
  split; apply N.eqb_neq; intros Heq; rewrite Heq in H; done.
Qed.

Lemma clean_no_cr (s : string) :
  clean s -> Str.all (fun c => negb (Chars.is_cr c)) s = true.
Proof.
  apply all_impl. intros c [H _]%andb_prop. apply negb_true_iff in H.
  by destruct (space_newline _ H) as [-> _].
Qed.

Lemma clean_no_lf (s : string) :
  clean s -> Str.all (fun c => negb (Chars.is_lf c)) s = true.
Proof.
  apply all_impl. intros c [H _]%andb_prop. apply negb_true_iff in H.
  by destruct (space_newline _ H) as [_ ->].
Qed.

(** What [load_expenses] makes of the first line [save_expenses] wrote. *)
Lemma read_saved_budget_line (t : tracker) (r : string) (x : PyFloat.float) :
  clean r ->
  PyFloat.of_string r = Some x ->
  read_budget_line ("Monthly Budget," +:+ r +:+ newline) t
  = inl (with_budget (Float x) t).
Proof.
  intros Hclean Hx. unfold read_budget_line.
  assert (r <> EmptyString) as Hne by (by intros ->).
  assert (Str.strip ("Monthly Budget," +:+ r +:+ newline)
          = budget_label +:+ String Chars.comma r) as ->.
  { unfold Str.strip.
    change (Str.lstrip ("Monthly Budget," +:+ r +:+ newline))
      with ("Monthly Budget," +:+ r +:+ newline).
    rewrite rstrip_app; rewrite (rstrip_newline_clean _ Hne Hclean); done. }
  rewrite (split_app Chars.is_comma budget_label Chars.comma r eq_refl eq_refl).
  rewrite (split_no_sep _ _ (clean_no_comma _ Hclean)). by rewrite Hx.
Qed.

(** *** The records *)

Lemma all_double_quotes (p : ascii -> bool) (f : string) :
  Str.all p f = true -> Str.all p (Csv.double_quotes f) = true.
Proof.
  induction f as [|c f IH]; [done|]. simpl. intros [Hc Hf]%andb_prop.
  destruct (Chars.is_dquote c); simpl; by rewrite ?Hc, (IH Hf).
Qed.

Lemma all_write_field (p : ascii -> bool) (f : string) :
  p Chars.dquote = true -> Str.all p f = true ->
  Str.all p (Csv.write_field f) = true.
Proof.
  intros Hq Hf. unfold Csv.write_field. destruct (Str.any _ f); [|done].
  rewrite !all_app, (all_double_quotes _ _ Hf). simpl. by rewrite Hq.
Qed.

Lemma no_newline_cr (s : string) :
  no_newline s -> Str.all (fun c => negb (Chars.is_cr c)) s = true.
Proof.
  apply all_impl. intros c H. apply negb_true_iff in H.
  unfold Csv.is_newline in H. apply orb_false_elim in H as [_ ->]. done.
Qed.

Lemma no_newline_lf (s : string) :
  no_newline s -> Str.all (fun c => negb (Chars.is_lf c)) s = true.
Proof.
  apply all_impl. intros c H. apply negb_true_iff in H.
  unfold Csv.is_newline in H. apply orb_false_elim in H as [-> _]. done.
Qed.

Lemma clean_no_newline (s : string) : clean s -> no_newline s.
Proof.
  apply all_impl. intros c [_ H]%andb_prop. apply negb_true_iff in H.
  by destruct (plain_char _ H) as (_ & _ & ->).
Qed.

Lemma stored_row_ok (e : expense) (row : list string) : stored e row -> row_ok row.
Proof.
  intros (d & c & a & s & -> & -> & Hd & Hc & [Ha Hfit] & Hs).
  exists d, c, (PyFloat.repr a), s.
  split; [done|]. split; [done|]. split; [done|]. split; [|done].
  split; [|done]. apply clean_no_newline, clean_float_repr.
Qed.

Lemma all_joined (p : ascii -> bool) (a b c d : string) :
  p Chars.dquote = true -> p Chars.comma = true ->
  Str.all p a = true -> Str.all p b = true ->
  Str.all p c = true -> Str.all p d = true ->
  Str.all p (Str.join "," (List.map Csv.write_field [a; b; c; d])) = true.
Proof.
  intros Hq Hcomma Ha Hb Hc Hd. cbn [Str.join List.map].
  unfold Chars.comma in Hcomma.
  rewrite !all_app, !all_write_field by done. simpl. by rewrite Hcomma.
Qed.

Lemma writerow_ok (row : list string) :
  row_ok row ->
  Csv.writerow row
  = Str.join "," (List.map Csv.write_field row) +:+ Csv.lineterminator.
Proof. intros (a & b & c & d & -> & _). by destruct a. Qed.

Lemma universal_newlines_row (row : list string) (rest : string) :
  row_ok row ->
  TextFile.universal_newlines (Csv.writerow row +:+ rest)
  = line_of row +:+ TextFile.universal_newlines rest.
Proof.
  intros Hrow. rewrite (writerow_ok _ Hrow).
  destruct Hrow as (a & b & c & d & -> & [Ha _] & [Hb _] & [Hc _] & [Hd _]).
  unfold line_of. rewrite !app_assoc_str.
  rewrite universal_newlines_app.
  - by rewrite universal_newlines_crlf.
  - apply all_joined; try done; by apply no_newline_cr.
Qed.

Lemma universal_newlines_rows (rows : list (list string)) :
  Forall row_ok rows ->
  TextFile.universal_newlines (Str.concat (List.map Csv.writerow rows))
  = Str.concat (List.map line_of rows).
Proof.
  induction 1 as [|row rows Hrow _ IH]; [done|].
  cbn [List.map Str.concat]. by rewrite (universal_newlines_row _ _ Hrow), IH.
Qed.

Lemma lines_rows (rows : list (list string)) :
  Forall row_ok rows ->
  TextFile.lines (Str.concat (List.map line_of rows)) = List.map line_of rows.
Proof.
  induction 1 as [|row rows Hrow _ IH]; [done|].
  cbn [List.map Str.concat]. unfold line_of at 1. rewrite app_assoc_str.
  rewrite lines_app; [by rewrite IH|].
  destruct Hrow as (a & b & c & d & -> & [Ha _] & [Hb _] & [Hc _] & [Hd _]).
  apply all_joined; try done; by apply no_newline_lf.
Qed.

Lemma process_line_row (row : list string) :
  row_ok row ->
  Csv.process_line Csv.parse_reset (line_of row)
  = Some (R Csv.START_RECORD row EmptyString).
Proof.
  intros (a & b & c & d & -> & [_ Ha] & [_ Hb] & [_ Hc] & [_ Hd]).
  rewrite <- (read_row_line a b c d Ha Hb Hc Hd). f_equal.
  unfold line_of, row_line. cbn [Str.join List.map].
  rewrite !app_assoc_str. reflexivity.
Qed.

Lemma rows_of_lines (rows : list (list string)) :
  Forall row_ok rows -> Csv.rows (List.map line_of rows) = Some rows.
Proof.
  intros H. apply read_rows_lines. induction H as [|row rows Hrow _ IH].
  - constructor.
  - constructor; [by apply process_line_row | done].
Qed.

Lemma writerows_stored (l : list expense) (rows : list (list string)) :
  Forall2 stored l rows ->
  Dict.writerows l = (Str.concat (List.map Csv.writerow rows), true).
Proof.
  induction 1 as [|e row l rows (d & c & a & s & -> & -> & _) _ IH]; [done|].
  cbn [Dict.writerows].
  change (Dict.to_list (new_expense d c a s)) with (Some [d; c; PyFloat.repr a; s]).
  by rewrite IH.
Qed.

Lemma stored_exists (l : list expense) :
  Forall storable_expense l -> exists rows, Forall2 stored l rows.
Proof.
  induction 1 as [|e l (d & c & a & s & -> & Hd & Hc & Ha & Hs) _ [rows IH]].
  - by exists [].
  - exists ([d; c; PyFloat.repr a; s] :: rows). constructor; [|done].
    by exists d, c, a, s.
Qed.

Lemma stored_records (l : list expense) (rows : list (list string)) :
  Forall2 stored l rows -> Forall2 row_record rows l.
Proof.
  induction 1 as [|e row l rows (d & c & a & s & -> & -> & _ & _ & [Ha _] & _) _ IH];
    constructor; [|done].
  by exists d, c, (PyFloat.repr a), s, a.
Qed.

Lemma clean_int_repr (n : Z) : clean (PyFloat.int_repr n).
Proof.
  unfold PyFloat.int_repr. destruct (n <? 0).
  - apply clean_cons; [done|]. apply clean_dec_digits.
  - apply clean_dec_digits.
Qed.

Lemma clean_num_repr (n : number) : clean (Num.repr n).
Proof. destruct n; [apply clean_int_repr | apply clean_float_repr]. Qed.

Lemma header_row_ok : row_ok Dict.fieldnames.
Proof.
  exists "date", "category", "amount", "description".
  unfold storable_text, no_newline, fits. vm_compute.
  repeat split; try reflexivity; discriminate.
Qed.

(** X1: saving and starting again gives the ledger back: the same records in
    the same order and the same budget (as a double), provided no text
    field holds a carriage return or a line feed, every text fits the
    reader's field size and every number reads back from its own text. *)
Theorem save_load_roundtrip (t : tracker) (w : world) :
  Forall storable_expense (expenses t) ->
  storable_budget (monthly_budget t) ->
  let w1 := world_after (save_expenses t w) in
  init (filename t) w1
  = (Ret tt, with_budget (Float (Num.to_float (monthly_budget t))) t,
     print (SayFile "Expenses loaded from " (filename t)) w1).
Proof.
  intros Hl Hb w1.
  destruct (stored_exists _ Hl) as [rows Hrows].
  assert (Forall row_ok rows) as Hok.
  { clear -Hrows. induction Hrows as [|e row l rows Hs _ IH]; constructor;
      [by eapply stored_row_ok | done]. }
  pose (text := "Monthly Budget," +:+ Num.repr (monthly_budget t) +:+ newline
                +:+ Csv.writerow Dict.fieldnames
                +:+ Str.concat (List.map Csv.writerow rows)).
  assert (save_text t = (text, true)) as Hsave.
  { unfold save_text. by rewrite (writerows_stored _ _ Hrows). }
  assert (files w1 !! filename t = Some text) as Hfile.
  { subst w1. unfold world_after, save_expenses. rewrite Hsave.
    simpl. apply lookup_insert_eq. }
  assert (TextFile.universal_newlines text
          = ("Monthly Budget," +:+ Num.repr (monthly_budget t)) +:+ newline
            +:+ Str.concat (List.map line_of (Dict.fieldnames :: rows))) as Hun.
  { subst text.
    rewrite (universal_newlines_app "Monthly Budget,"
               (Num.repr (monthly_budget t) +:+ newline
                +:+ Csv.writerow Dict.fieldnames
                +:+ Str.concat (List.map Csv.writerow rows)) eq_refl).
    rewrite (universal_newlines_app (Num.repr (monthly_budget t))
               (newline +:+ Csv.writerow Dict.fieldnames
                +:+ Str.concat (List.map Csv.writerow rows))
               (clean_no_cr _ (clean_num_repr _))).
    rewrite (universal_newlines_app newline
               (Csv.writerow Dict.fieldnames
                +:+ Str.concat (List.map Csv.writerow rows)) eq_refl).
    rewrite (universal_newlines_row Dict.fieldnames
               (Str.concat (List.map Csv.writerow rows)) header_row_ok).
    rewrite (universal_newlines_rows _ Hok).
    rewrite app_assoc_str. reflexivity. }
  unfold init, load_expenses. cbn [filename empty_tracker].
  rewrite Hfile, Hun.
  rewrite readline_app.
  2: { rewrite all_app. apply andb_true_intro. split; [done|].
       apply clean_no_lf, clean_num_repr. }
  rewrite app_assoc_str.
  rewrite (read_saved_budget_line _ _ _ (clean_num_repr _) Hb).
  assert (Forall row_ok (Dict.fieldnames :: rows)) as Hall
    by (constructor; [apply header_row_ok | done]).
  rewrite (lines_rows (Dict.fieldnames :: rows) Hall).
  rewrite (rows_of_lines (Dict.fieldnames :: rows) Hall).
  unfold Dict.read.
  pose proof (stored_records _ _ Hrows) as Hrec.
  pose proof (filter_nonempty_rows _ _ [] Hrec) as Hfilter.
  simpl in Hfilter. rewrite !app_nil_r in Hfilter. rewrite Hfilter.
  pose proof (convert_amounts_good _ _ Hrec []) as Hconv.
  rewrite !app_nil_r in Hconv. simpl in Hconv. rewrite Hconv.
  reflexivity.
Qed.

Ltac storable :=
  vm_compute; repeat split; try reflexivity; discriminate.

Lemma save_load_roundtrip_witness :
  init "expenses.csv"
    (world_after (save_expenses (three_tracker (Float f100)) (typing [])))
  = (Ret tt, three_tracker (Float f100),
     print (SayFile "Expenses loaded from " "expenses.csv")
       (world_after (save_expenses (three_tracker (Float f100)) (typing [])))).
Proof.
  assert (Forall storable_expense (expenses (three_tracker (Float f100)))) as Hl.
  { repeat constructor.
    - exists "2024-01-05", "Food", f12_50, "lunch". split; [reflexivity|storable].
    - exists "2024-01-06", "Travel", f7_25, "bus". split; [reflexivity|storable].
    - exists "2024-01-07", "Rent", f100, "deposit". split; [reflexivity|storable]. }
  assert (storable_budget (monthly_budget (three_tracker (Float f100)))) as Hb
    by storable.
  exact (save_load_roundtrip (three_tracker (Float f100)) (typing []) Hl Hb).
Defined.

(** C1 at a failing input: a ledger built by [set_budget] and
    [add_expense] whose description holds a carriage return is saved
    with the description quoted and intact, but [load_expenses] opens the
    file without [newline=''], so the carriage return arrives as a line
    feed and the reloaded record differs from the saved one. *)
Theorem save_load_turns_cr_into_lf :
  tracker_after cr_session
  = {| expenses := [new_expense "2024-01-05" "Food" f12_50 cr_description];
       monthly_budget := Float f100; filename := "expenses.csv" |}
  /\ files (world_after cr_saved) !! "expenses.csv" = Some cr_file
  /\ tracker_after cr_reloaded
     = {| expenses := [new_expense "2024-01-05" "Food" f12_50 lf_description];
          monthly_budget := Float f100; filename := "expenses.csv" |}
  /\ expenses (tracker_after cr_reloaded) <> expenses (tracker_after cr_session).
Proof.
  assert (tracker_after cr_session
          = {| expenses := [new_expense "2024-01-05" "Food" f12_50 cr_description];
               monthly_budget := Float f100; filename := "expenses.csv" |})
    as H1 by (vm_compute; reflexivity).
  assert (tracker_after cr_reloaded
          = {| expenses := [new_expense "2024-01-05" "Food" f12_50 lf_description];
               monthly_budget := Float f100; filename := "expenses.csv" |})
    as H2 by (vm_compute; reflexivity).
  assert (files (world_after cr_saved) !! "expenses.csv" = Some cr_file)
    as H3 by (vm_compute; reflexivity).
  split; [exact H1|]. split; [exact H3|]. split; [exact H2|].
  rewrite H1, H2.
  intros H.
  apply (f_equal (fun l => match l with
                           | e :: _ => items e !! "description"
                           | [] => None
                           end)) in H.
  vm_compute in H. discriminate H.
Qed.

(** ** What the methods leave of the input and of the files *)

Lemma get_valid_date_suffix (inp : list string) :
  forall out r inp' out',
    get_valid_date inp out = (r, inp', out') -> inp' `suffix_of` inp.
Proof.
  induction inp as [|line inp IH]; intros out r inp' out' H; simpl in H.
  - by inversion H.
  - destruct (Date.strptime line).
    + inversion H; subst. by apply suffix_cons_r.
    + apply suffix_cons_r. by eapply IH.
Qed.

Lemma get_non_empty_input_suffix (prompt : string) (inp : list string) :
  forall out r inp' out',
    get_non_empty_input prompt inp out = (r, inp', out') -> inp' `suffix_of` inp.
Proof.
  induction inp as [|line inp IH]; intros out r inp' out' H; simpl in H.
  - by inversion H.
  - destruct (Str.strip line).
    + apply suffix_cons_r. by eapply IH.
    + inversion H; subst. by apply suffix_cons_r.
Qed.

Lemma get_positive_float_suffix (prompt : string) (inp : list string) :
  forall out r inp' out',
    get_positive_float prompt inp out = (r, inp', out') -> inp' `suffix_of` inp.
Proof.
  induction inp as [|line inp IH]; intros out r inp' out' H; simpl in H.
  - by inversion H.
  - destruct (PyFloat.of_string line) as [v|]; [|apply suffix_cons_r; by eapply IH].
    destruct (PyFloat.ltb PyFloat.zero v).
    + inversion H; subst. by apply suffix_cons_r.
    + apply suffix_cons_r. by eapply IH.
Qed.

Lemma read_budget_suffix (inp : list string) :
  forall out r inp' out',
    read_budget inp out = (r, inp', out') -> inp' `suffix_of` inp.
Proof.
  induction inp as [|line inp IH]; intros out r inp' out' H; simpl in H.
  - by inversion H.
  - destruct (PyFloat.of_string line) as [v|]; [|apply suffix_cons_r; by eapply IH].
    destruct (PyFloat.leb v PyFloat.zero).
    + apply suffix_cons_r. by eapply IH.
    + inversion H; subst. by apply suffix_cons_r.
Qed.

Lemma read_expense_suffix (inp : list string) (out : list msg)
    (r : outcome expense) (inp' : list string) (out' : list msg) :
  read_expense inp out = (r, inp', out') -> inp' `suffix_of` inp.
Proof.
  unfold read_expense. intros H.
  destruct (get_valid_date inp out) as [[r1 i1] o1] eqn:H1.
  apply get_valid_date_suffix in H1.
  destruct r1 as [d|x|]; [|by inversion H; subst..].
  destruct (get_non_empty_input category_prompt i1 o1) as [[r2 i2] o2] eqn:H2.
  apply get_non_empty_input_suffix in H2.
  destruct r2 as [c|x|]; [|inversion H; subst; by etrans..].
  destruct (get_positive_float amount_prompt i2 o2) as [[r3 i3] o3] eqn:H3.
  apply get_positive_float_suffix in H3.
  destruct r3 as [a|x|]; [|inversion H; subst; etrans; [|done]; by etrans..].
  destruct (get_non_empty_input description_prompt i3 o3) as [[r4 i4] o4] eqn:H4.
  apply get_non_empty_input_suffix in H4.
  assert (i4 `suffix_of` inp) by (etrans; [|done]; etrans; [|done]; by etrans).
  by destruct r4; inversion H; subst.
Qed.

(** Every method leaves a final part of the pending input and keeps the
    file name, and only [save_expenses] writes to the files. *)
Lemma perform_input_files (a : action) (t : tracker) (w : world) :
  stdin (world_after (perform a t w)) `suffix_of` stdin w
  /\ filename (tracker_after (perform a t w)) = filename t
  /\ (a <> SaveExpenses -> files (world_after (perform a t w)) = files w).
Proof.
  unfold world_after, tracker_after. destruct a; simpl.
  - unfold add_expense.
    destruct (read_expense _ _) as [[r i] o] eqn:H.
    apply read_expense_suffix in H. by destruct r.
  - unfold view_expenses. destruct (expenses t); [done|].
    by destruct (print_expenses _ _).
  - unfold set_budget.
    destruct (read_budget _ _) as [[r i] o] eqn:H.
    apply read_budget_suffix in H. by destruct r.
  - unfold track_budget. destruct (Num.eqb _ _).
    + simpl. destruct (stdin w) as [|answer inp] eqn:Hin; simpl;
        [by rewrite Hin|].
      destruct (_ =? _)%string; simpl.
      * unfold set_budget. simpl.
        destruct (read_budget _ _) as [[r i] o] eqn:H.
        apply read_budget_suffix in H.
        destruct r; simpl; (split; [by apply suffix_cons_r | done]).
      * split; [by apply suffix_cons_r | done].
    + destruct (total_expenses t); [|done]. by destruct (Num.gtb _ _).
  - unfold save_expenses. destruct (save_text t) as [text ok].
    by destruct ok.
Qed.

(** ** The menu loop *)

Lemma run_loop_step (fuel : nat) (t : tracker) (w : world) :
  run_loop (S fuel) t w
  = match stdin w with
    | [] => Some (Raise EOFError, t, print (Prompt choice_prompt) (show_menu w))
    | choice :: inp =>
        match choice_action choice with
        | Some a => turn a fuel t (after_choice inp w)
        | None =>
            if (choice =? "5")%string then
              Some (Ret tt, tracker_after (save_expenses t (after_choice inp w)),
                    print goodbye (world_after (save_expenses t (after_choice inp w))))
            else run_loop fuel t (print invalid_choice (after_choice inp w))
        end
    end.
Proof.
  cbn [run_loop]. change (stdin (show_menu w)) with (stdin w).
  destruct (stdin w) as [|choice inp]; [done|].
  unfold choice_action, turn, perform, after_choice.
  destruct (choice =? "1")%string;
    [by destruct (add_expense _ _) as [[[u|e|] t'] w']|].
  destruct (choice =? "2")%string;
    [by destruct (view_expenses _ _) as [[[u|e|] t'] w']|].
  destruct (choice =? "3")%string;
    [by destruct (track_budget _ _) as [[[u|e|] t'] w']|].
  destruct (choice =? "4")%string;
    [by destruct (save_expenses _ _) as [[[u|e|] t'] w']|].
  destruct (choice =? "5")%string; [|done].
  unfold tracker_after, world_after.
  by destruct (save_expenses _ _) as [[r t'] w'].
Qed.

Lemma run_loop_enough (fuel : nat) :
  forall t w, (length (stdin w) < fuel)%nat -> is_Some (run_loop fuel t w).
Proof.
  induction fuel as [|fuel IH]; intros t w Hlen; [lia|].
  rewrite run_loop_step. destruct (stdin w) as [|choice inp] eqn:Hin; [done|].
  simpl in Hlen. destruct (choice_action choice) as [a|].
  - unfold turn.
    pose proof (perform_input_files a t (after_choice inp w)) as [Hs _].
    apply suffix_length in Hs. unfold world_after in Hs.
    destruct (perform a t (after_choice inp w)) as [[[u|e|] t'] w'];
      [|done..].
    apply IH. simpl in Hs. lia.
  - destruct (choice =? "5")%string; [done|]. apply IH. simpl. lia.
Qed.

Lemma run_loop_more_fuel (fuel : nat) :
  forall t w r,
    run_loop fuel t w = Some r -> forall n, run_loop (fuel + n) t w = Some r.
Proof.
  induction fuel as [|fuel IH]; intros t w r H n; [done|].
  change (S fuel + n)%nat with (S (fuel + n)).
  rewrite run_loop_step in *. destruct (stdin w) as [|choice inp]; [done|].
  destruct (choice_action choice) as [a|].
  - unfold turn in *.
    destruct (perform a t (after_choice inp w)) as [[[u|e|] t'] w']; [|done..].
    by apply IH.
  - destruct (choice =? "5")%string; [done|]. by apply IH.
Qed.

(** X2: every turn of the menu loop reads at least one line, so one turn
    per pending line and one more settle a run: [run] gives a result (it
    returned, an exception left it, or [add_expense] holds it for ever),
    and more turns give the same result. *)
Theorem run_ends (t : tracker) (w : world) :
  exists r,
    run t w = Some r
    /\ forall n, run_loop (S (length (stdin w)) + n) t w = Some r.
Proof.
  destruct (run_loop_enough (S (length (stdin w))) t w) as [r Hr]; [lia|].
  exists r. split; [done|]. intros n. by apply run_loop_more_fuel.
Qed.

Lemma run_loop_exit (fuel : nat) :
  forall t w t' w',
    run_loop fuel t w = Some (Ret tt, t', w') ->
    filename t' = filename t
    /\ files w' !! filename t' = Some (save_text t').1
    /\ exists out, stdout w' = out ++ [goodbye].
Proof.
  induction fuel as [|fuel IH]; intros t w t' w' H; [done|].
  rewrite run_loop_step in H. destruct (stdin w) as [|choice inp]; [done|].
  destruct (choice_action choice) as [a|].
  - unfold turn in H.
    pose proof (perform_input_files a t (after_choice inp w)) as (_ & Hf & _).
    unfold tracker_after in Hf.
    destruct (perform a t (after_choice inp w)) as [[[u|e|] t1] w1]; [|done..].
    apply IH in H as (H1 & H2 & H3). simpl in Hf.
    split; [congruence | done].
  - destruct (choice =? "5")%string.
    + inversion H; subst. unfold tracker_after, world_after, save_expenses.
      destruct (save_text t) as [text ok] eqn:Hsave. simpl.
      rewrite Hsave. simpl. split; [done|].
      split; [destruct ok; simpl; apply lookup_insert_eq|].
      by eexists.
    + by apply IH in H.
Qed.

(** X3: when [run] returns, the ledger it ends with has just been saved:
    the tracker's file holds the text of that ledger and the last thing on
    the console is the goodbye. *)
Theorem run_exit_saves (t : tracker) (w : world) (t' : tracker) (w' : world) :
  run t w = Some (Ret tt, t', w') ->
  filename t' = filename t
  /\ files w' !! filename t = Some (save_text t').1
  /\ exists out, stdout w' = out ++ [goodbye].
Proof.
  intros H. apply run_loop_exit in H as (H1 & H2 & H3). by rewrite <- H1.
Qed.

Lemma run_exit_saves_witness :
  let r := run_result (empty_tracker "expenses.csv") add_and_exit in
  expenses (tracker_after r) = [new_expense "2024-01-05" "Food" f12_50 "lunch"]
  /\ filename (tracker_after r) = "expenses.csv"
  /\ files (world_after r) !! "expenses.csv" = Some (save_text (tracker_after r)).1
  /\ exists out, stdout (world_after r) = out ++ [goodbye].
Proof.
  intros r.
  assert (run (empty_tracker "expenses.csv") add_and_exit
          = Some (Ret tt, tracker_after r, world_after r)) as H
    by (vm_compute; reflexivity).
  split; [vm_compute; reflexivity|].
  exact (run_exit_saves _ _ _ _ H).
Defined.

Lemma run_loop_unsaved (fuel : nat) :
  forall t w r t' w',
    "4" ∉ stdin w -> "5" ∉ stdin w ->
    run_loop fuel t w = Some (r, t', w') ->
    files w' = files w /\ r <> Ret tt.
Proof.
  induction fuel as [|fuel IH]; intros t w r t' w' H4 H5 H; [done|].
  rewrite run_loop_step in H. destruct (stdin w) as [|choice inp] eqn:Hin.
  { by inversion H; subst. }
  apply not_elem_of_cons in H4 as [Hc4 H4].
  apply not_elem_of_cons in H5 as [Hc5 H5].
  assert ((choice =? "4")%string = false) as E4 by (apply String.eqb_neq; congruence).
  assert ((choice =? "5")%string = false) as E5 by (apply String.eqb_neq; congruence).
  assert (choice_action choice <> Some SaveExpenses) as Hns.
  { unfold choice_action. rewrite E4.
    by repeat (destruct (_ =? _)%string). }
  destruct (choice_action choice) as [a|] eqn:Ha.
  - unfold turn in H.
    pose proof (perform_input_files a t (after_choice inp w)) as (Hs & _ & Hf).
    unfold world_after in Hs, Hf.
    destruct (perform a t (after_choice inp w)) as [[[u|e|] t1] w1].
    + simpl in Hs, Hf.
      apply IH in H as [H1 H2].
      * split; [|done]. rewrite H1. apply Hf. congruence.
      * intros Hin4. apply H4. by eapply elem_of_suffix.
      * intros Hin5. apply H5. by eapply elem_of_suffix.
    + inversion H; subst. split; [|done]. apply Hf. congruence.
    + inversion H; subst. split; [|done]. apply Hf. congruence.
  - rewrite E5 in H. by apply IH in H.
Qed.

(** X4: as long as neither 4 nor 5 is among the lines typed, [run] writes
    no file and does not return: it ends on an exception (the end of the
    input at the latest) or inside [add_expense], and what was entered is
    not saved. *)
Theorem run_without_save (t : tracker) (w : world)
    (r : outcome unit) (t' : tracker) (w' : world) :
  "4" ∉ stdin w -> "5" ∉ stdin w ->
  run t w = Some (r, t', w') ->
  files w' = files w /\ r <> Ret tt.
Proof. apply run_loop_unsaved. Qed.

Lemma run_without_save_witness :
  let r := run_result (empty_tracker "expenses.csv") add_and_stop in
  files (world_after r) = ∅ /\ r.1.1 <> Ret tt.
Proof.
  intros r.
  assert (run (empty_tracker "expenses.csv") add_and_stop
          = Some (r.1.1, tracker_after r, world_after r)) as H
    by (vm_compute; reflexivity).
  refine (run_without_save _ _ _ _ _ _ _ H).
  - unfold add_and_stop. simpl.
    rewrite !not_elem_of_cons. repeat split; try discriminate.
    apply not_elem_of_nil.
  - unfold add_and_stop. simpl.
    rewrite !not_elem_of_cons. repeat split; try discriminate.
    apply not_elem_of_nil.
Defined.

(** ** The prompt loops *)

Lemma rstrip_idempotent (s : string) : Str.rstrip (Str.rstrip s) = Str.rstrip s.
Proof.
  induction s as [|c s IH]; [done|]. cbn [Str.rstrip].
  destruct (Str.rstrip s) as [|c' r] eqn:Hr.
  - destruct (Chars.is_space c) eqn:Hc; [done|]. cbn. by rewrite Hc.
  - change (Str.rstrip (String c (String c' r)))
      with (match Str.rstrip (String c' r) with
            | EmptyString =>
                if Chars.is_space c then EmptyString else String c EmptyString
            | r0 => String c r0
            end).
    by rewrite IH.
Qed.

Lemma lstrip_head (s : string) :
  match Str.lstrip s with
  | EmptyString => True
  | String c _ => Chars.is_space c = false
  end.
Proof.
  induction s as [|c s IH]; [done|]. simpl.
  destruct (Chars.is_space c) eqn:Hc; [done|]. simpl. done.
Qed.

Lemma rstrip_head (c : ascii) (s : string) :
  Chars.is_space c = false ->
  exists r, Str.rstrip (String c s) = String c r.
Proof.
  intros Hc. cbn [Str.rstrip]. destruct (Str.rstrip s); [|by eexists].
  rewrite Hc. by eexists.
Qed.

Lemma strip_idempotent (s : string) : Str.strip (Str.strip s) = Str.strip s.
Proof.
  unfold Str.strip. pose proof (lstrip_head s) as Hh.
  destruct (Str.lstrip s) as [|c r]; [done|].
  destruct (rstrip_head c r Hh) as [r' Hr]. rewrite Hr.
  cbn [Str.lstrip]. rewrite Hh, <- Hr. apply rstrip_idempotent.
Qed.

(** X5: [get_valid_date] passes over the lines that are no date, each with
    its message, and returns the first line that is one, as it was typed,
    leaving the lines after it; when no line is a date it ends on
    [EOFError] with the input used up. *)
Theorem get_valid_date_skips (bad : list string) (out : list msg) :
  Forall (fun line => Date.strptime line = None) bad ->
  get_valid_date bad out
  = (Raise EOFError, [],
     out ++ refusals (fun _ => date_refused) bad ++ [Prompt date_prompt])
  /\ forall date rest,
       is_Some (Date.strptime date) ->
       get_valid_date (bad ++ date :: rest) out
       = (Ret date, rest,
          out ++ refusals (fun _ => date_refused) bad ++ [Prompt date_prompt]).
Proof.
  intros Hbad. revert out.
  induction Hbad as [|line bad Hline _ IH]; intros out.
  - split; [done|]. intros date rest [d Hd]. simpl. by rewrite Hd.
  - destruct (IH (out ++ date_refused)) as [IH1 IH2].
    unfold refusals. cbn [List.map List.concat]. fold (refusals (fun _ => date_refused) bad).
    split.
    + cbn [get_valid_date]. rewrite Hline.
      fold date_refused. rewrite IH1. by rewrite <- !app_assoc.
    + intros date rest Hd. cbn [app get_valid_date]. rewrite Hline.
      fold date_refused. rewrite (IH2 _ _ Hd). by rewrite <- !app_assoc.
Qed.

Lemma get_valid_date_skips_witness :
  get_valid_date ["tomorrow"; "2024-02-30"; "2024-2-29"; "Food"] []
  = (Ret "2024-2-29", ["Food"],
     date_refused ++ date_refused ++ [Prompt date_prompt]).
Proof.
  apply (get_valid_date_skips ["tomorrow"; "2024-02-30"] []).
  - by repeat constructor.
  - by eexists.
Defined.

(** X6: [get_non_empty_input] passes over the lines that are blank once
    stripped and returns the first other line stripped of the white space
    around it; the value returned is never empty and stripping it again
    changes nothing. *)
Theorem get_non_empty_input_skips (prompt : string) (blank : list string)
    (out : list msg) :
  Forall (fun line => Str.strip line = EmptyString) blank ->
  get_non_empty_input prompt blank out
  = (Raise EOFError, [],
     out ++ refusals (fun _ => empty_refused prompt) blank ++ [Prompt prompt])
  /\ forall line rest,
       Str.strip line <> EmptyString ->
       get_non_empty_input prompt (blank ++ line :: rest) out
       = (Ret (Str.strip line), rest,
          out ++ refusals (fun _ => empty_refused prompt) blank ++ [Prompt prompt])
       /\ Str.strip (Str.strip line) = Str.strip line.
Proof.
  intros Hblank. revert out.
  induction Hblank as [|l blank Hl _ IH]; intros out.
  - split; [done|]. intros line rest Hne.
    split; [|apply strip_idempotent].
    simpl. by destruct (Str.strip line).
  - destruct (IH (out ++ empty_refused prompt)) as [IH1 IH2].
    unfold refusals. cbn [List.map List.concat].
    fold (refusals (fun _ => empty_refused prompt) blank).
    split.
    + cbn [get_non_empty_input]. rewrite Hl.
      fold (empty_refused prompt). rewrite IH1. by rewrite <- !app_assoc.
    + intros line rest Hne. split; [|apply strip_idempotent].
      cbn [app get_non_empty_input]. rewrite Hl.
      fold (empty_refused prompt).
      rewrite (proj1 (IH2 _ _ Hne)). by rewrite <- !app_assoc.
Qed.

Lemma get_non_empty_input_skips_witness :
  get_non_empty_input category_prompt [""; "   "; "  Food and drink "; "12"] []
  = (Ret "Food and drink", ["12"],
     empty_refused category_prompt ++ empty_refused category_prompt
     ++ [Prompt category_prompt])
  /\ Str.strip "Food and drink" = "Food and drink".
Proof.
  apply (get_non_empty_input_skips category_prompt [""; "   "] []).
  - by repeat constructor.
  - done.
Defined.

Lemma positive_shape (v : PyFloat.float) :
  PyFloat.ltb PyFloat.zero v = true ->
  v = S754_infinity false \/ exists m e, v = S754_finite false m e.
Proof.
  destruct v as [[]|[]| |[] m e]; try done; [by left|].
  intros _. right. by eexists _, _.
Qed.

(** X7: [get_positive_float] passes over the lines that are no number or
    whose number is not above 0 (zero, negative numbers and NaN), and
    returns the number of the first other line, a positive double or
    positive infinity. *)
Theorem get_positive_float_skips (prompt : string) (bad : list string)
    (out : list msg) :
  Forall not_positive bad ->
  get_positive_float prompt bad out
  = (Raise EOFError, [],
     out ++ refusals (amount_refused prompt) bad ++ [Prompt prompt])
  /\ forall line rest v,
       PyFloat.of_string line = Some v ->
       PyFloat.ltb PyFloat.zero v = true ->
       get_positive_float prompt (bad ++ line :: rest) out
       = (Ret v, rest,
          out ++ refusals (amount_refused prompt) bad ++ [Prompt prompt])
       /\ (v = S754_infinity false \/ exists m e, v = S754_finite false m e).
Proof.
  intros Hbad. revert out.
  induction Hbad as [|l bad Hl _ IH]; intros out.
  - split; [done|]. intros line rest v Hv Hpos.
    split; [|by apply positive_shape]. simpl. by rewrite Hv, Hpos.
  - destruct (IH (out ++ amount_refused prompt l)) as [IH1 IH2].
    unfold refusals. cbn [List.map List.concat].
    fold (refusals (amount_refused prompt) bad).
    assert (forall inp,
              get_positive_float prompt (l :: inp) out
              = get_positive_float prompt inp (out ++ amount_refused prompt l))
      as Hstep.
    { intros inp. cbn [get_positive_float]. unfold amount_refused.
      unfold not_positive in Hl.
      destruct (PyFloat.of_string l) as [v|]; [|done]. by rewrite Hl. }
    split.
    + rewrite Hstep, IH1. by rewrite <- !app_assoc.
    + intros line rest v Hv Hpos. split; [|by apply positive_shape].
      cbn [app]. rewrite Hstep, (proj1 (IH2 _ _ _ Hv Hpos)).
      by rewrite <- !app_assoc.
Qed.

Lemma get_positive_float_skips_witness :
  (get_positive_float amount_prompt
     ["abc"; "0"; "-3"; "nan"; separator_fifty; "12.5"; "x"] []
   = (Ret f12_50, ["x"],
      refusals (amount_refused amount_prompt)
        ["abc"; "0"; "-3"; "nan"; separator_fifty]
      ++ [Prompt amount_prompt])
   /\ (f12_50 = S754_infinity false
       \/ exists m e, f12_50 = S754_finite false m e))
  /\ amount_refused amount_prompt separator_fifty
     = [Prompt amount_prompt;
        Say "Invalid amount. Please enter a numeric value."].
Proof.
  split; [|reflexivity].
  apply (get_positive_float_skips amount_prompt
           ["abc"; "0"; "-3"; "nan"; separator_fifty] []).
  - repeat constructor; reflexivity.
  - reflexivity.
  - reflexivity.
Defined.

(** ** What a call can end in *)

Lemma get_valid_date_fail (inp : list string) :
  forall out r inp' out',
    get_valid_date inp out = (r, inp', out') ->
    match r with
    | Ret _ => True
    | Raise e => e = EOFError /\ inp' = []
    | Loops => False
    end.
Proof.
  induction inp as [|line inp IH]; intros out r inp' out' H; simpl in H.
  - by inversion H.
  - destruct (Date.strptime line); [by inversion H|by eapply IH].
Qed.

Lemma get_non_empty_input_fail (prompt : string) (inp : list string) :
  forall out r inp' out',
    get_non_empty_input prompt inp out = (r, inp', out') ->
    match r with
    | Ret _ => True
    | Raise e => e = EOFError /\ inp' = []
    | Loops => False
    end.
Proof.
  induction inp as [|line inp IH]; intros out r inp' out' H; simpl in H.
  - by inversion H.
  - destruct (Str.strip line); [by eapply IH|by inversion H].
Qed.

Lemma get_positive_float_fail (prompt : string) (inp : list string) :
  forall out r inp' out',
    get_positive_float prompt inp out = (r, inp', out') ->
    match r with
    | Ret _ => True
    | Raise e => e = EOFError /\ inp' = []
    | Loops => False
    end.
Proof.
  induction inp as [|line inp IH]; intros out r inp' out' H; simpl in H.
  - by inversion H.
  - destruct (PyFloat.of_string line) as [v|]; [|by eapply IH].
    destruct (PyFloat.ltb PyFloat.zero v); [by inversion H|by eapply IH].
Qed.

Lemma read_budget_fail (inp : list string) :
  forall out r inp' out',
    read_budget inp out = (r, inp', out') ->
    match r with
    | Ret b => PyFloat.leb b PyFloat.zero = false
               /\ exists line, line ∈ inp /\ PyFloat.of_string line = Some b
    | Raise e => e = EOFError /\ inp' = []
    | Loops => False
    end.
Proof.
  induction inp as [|line inp IH]; intros out r inp' out' H; simpl in H.
  - by inversion H.
  - assert (match r with
            | Ret b => PyFloat.leb b PyFloat.zero = false
                       /\ exists l, l ∈ inp /\ PyFloat.of_string l = Some b
            | Raise e => e = EOFError /\ inp' = []
            | Loops => False
            end ->
            match r with
            | Ret b => PyFloat.leb b PyFloat.zero = false
                       /\ exists l, l ∈ line :: inp /\ PyFloat.of_string l = Some b
            | Raise e => e = EOFError /\ inp' = []
            | Loops => False
            end) as Hweak.
    { destruct r as [b|e|]; [|done..]. intros [Hb (l & Hl & Hv)].
      split; [done|]. exists l. split; [by apply elem_of_cons; right|done]. }
    destruct (PyFloat.of_string line) as [v|] eqn:Hv;
      [|by eapply Hweak, IH].
    destruct (PyFloat.leb v PyFloat.zero) eqn:Hle; [by eapply Hweak, IH|].
    inversion H; subst. split; [done|]. exists line.
    split; [by apply elem_of_cons; left|done].
Qed.

Lemma read_expense_fail (inp : list string) (out : list msg)
    (r : outcome expense) (inp' : list string) (out' : list msg) :
  read_expense inp out = (r, inp', out') ->
  match r with
  | Ret e => valid_expense e
  | Raise e => e = EOFError /\ inp' = []
  | Loops => False
  end.
Proof.
  intros H. destruct r as [e|x|].
  - by eapply read_expense_valid.
  - unfold read_expense in H.
    destruct (get_valid_date inp out) as [[r1 i1] o1] eqn:H1.
    apply get_valid_date_fail in H1.
    destruct r1 as [d|x1|]; [|by inversion H; subst|done].
    destruct (get_non_empty_input category_prompt i1 o1) as [[r2 i2] o2] eqn:H2.
    apply get_non_empty_input_fail in H2.
    destruct r2 as [c|x2|]; [|by inversion H; subst|done].
    destruct (get_positive_float amount_prompt i2 o2) as [[r3 i3] o3] eqn:H3.
    apply get_positive_float_fail in H3.
    destruct r3 as [a|x3|]; [|by inversion H; subst|done].
    destruct (get_non_empty_input description_prompt i3 o3) as [[r4 i4] o4] eqn:H4.
    apply get_non_empty_input_fail in H4.
    destruct r4 as [s|x4|]; [done|by inversion H; subst|done].
  - unfold read_expense in H.
    destruct (get_valid_date inp out) as [[r1 i1] o1] eqn:H1.
    apply get_valid_date_fail in H1.
    destruct r1 as [d|x1|]; [|done..].
    destruct (get_non_empty_input category_prompt i1 o1) as [[r2 i2] o2] eqn:H2.
    apply get_non_empty_input_fail in H2.
    destruct r2 as [c|x2|]; [|done..].
    destruct (get_positive_float amount_prompt i2 o2) as [[r3 i3] o3] eqn:H3.
    apply get_positive_float_fail in H3.
    destruct r3 as [a|x3|]; [|done..].
    destruct (get_non_empty_input description_prompt i3 o3) as [[r4 i4] o4] eqn:H4.
    apply get_non_empty_input_fail in H4.
    destruct r4 as [s|x4|]; done.
Qed.

(** X8: [add_expense] never raises and never touches the budget or the
    files: either it returns having appended exactly one validated record,
    or the input ran out, nothing was added and it reports the same error
    for ever. *)
Theorem add_expense_outcome (t : tracker) (w : world) :
  let r := add_expense t w in
  monthly_budget (tracker_after r) = monthly_budget t
  /\ filename (tracker_after r) = filename t
  /\ files (world_after r) = files w
  /\ ((r.1.1 = Ret tt
       /\ exists e, valid_expense e
                    /\ expenses (tracker_after r) = expenses t ++ [e])
      \/ (r.1.1 = Loops /\ tracker_after r = t /\ stdin (world_after r) = [])).
Proof.
  unfold add_expense, tracker_after, world_after.
  destruct (read_expense (stdin w) (stdout w)) as [[r i] o] eqn:H.
  apply read_expense_fail in H.
  destruct r as [e|x|]; simpl; [|destruct H as [-> ->]|done].
  - repeat split. left. split; [done|]. by exists e.
  - repeat split. by right.
Qed.

Lemma leb_false_shape (b : PyFloat.float) :
  PyFloat.leb b PyFloat.zero = false ->
  PyFloat.ltb PyFloat.zero b = true \/ b = S754_nan.
Proof. destruct b as [[]|[]| |[] m e]; try done; by auto. Qed.

(** X9: [set_budget] never touches the records or the files.  When it
    returns, the budget is the number of one of the lines typed, and that
    number is above 0 or is NaN, which the test [budget <= 0] lets
    through; otherwise the input ran out, [EOFError] leaves the method and
    the tracker is as before. *)
Theorem set_budget_outcome (t : tracker) (w : world) :
  let r := set_budget t w in
  expenses (tracker_after r) = expenses t
  /\ filename (tracker_after r) = filename t
  /\ files (world_after r) = files w
  /\ ((r.1.1 = Ret tt
       /\ exists line b,
            line ∈ stdin w /\ PyFloat.of_string line = Some b
            /\ monthly_budget (tracker_after r) = Float b
            /\ (PyFloat.ltb PyFloat.zero b = true \/ b = S754_nan))
      \/ (r.1.1 = Raise EOFError /\ tracker_after r = t
          /\ stdin (world_after r) = [])).
Proof.
  unfold set_budget, tracker_after, world_after.
  destruct (read_budget (stdin w) (stdout w)) as [[r i] o] eqn:H.
  apply read_budget_fail in H.
  destruct r as [b|x|]; simpl; [|destruct H as [-> ->]|done].
  - destruct H as [Hb (line & Hin & Hv)]. repeat split. left.
    split; [done|]. exists line, b. repeat split; try done.
    by apply leb_false_shape.
  - repeat split. by right.
Qed.

(** ** Listing and totals on a ledger that holds a record that is not
    sound *)

(** X10: [view_expenses] prints the header and then one line per record,
    in order; at the first record it cannot print (a missing key, an
    amount that is no number) the exception leaves the method, after the
    lines of the records before it and with the tracker unchanged. *)
Theorem view_expenses_listing (t : tracker) (w : world)
    (good : list expense) (lines : list msg) :
  Forall2 (fun e m => expense_line e = inl m) good lines ->
  (expenses t = good -> good <> [] ->
   view_expenses t w
   = (Ret tt, t, with_console (stdin w) (stdout w ++ view_header ++ lines) w))
  /\ forall bad rest x,
       expenses t = good ++ bad :: rest ->
       expense_line bad = inr x ->
       view_expenses t w
       = (Raise x, t, with_console (stdin w) (stdout w ++ view_header ++ lines) w).
Proof.
  intros Hgood. split.
  - intros Ht Hne. unfold view_expenses. rewrite Ht.
    destruct good as [|e good]; [done|].
    rewrite <- (app_nil_r (e :: good)).
    rewrite (print_expenses_app _ _ _ _ Hgood). simpl.
    by rewrite <- app_assoc.
  - intros bad rest x Ht Hbad. unfold view_expenses. rewrite Ht.
    destruct (good ++ bad :: rest) as [|e l] eqn:Heq.
    { by destruct good. }
    rewrite <- Heq. rewrite (print_expenses_app _ _ _ _ Hgood). simpl.
    rewrite Hbad. by rewrite <- app_assoc.
Qed.

Lemma view_expenses_listing_witness :
  view_expenses partial_tracker (typing [])
  = (Raise TypeError, partial_tracker,
     with_console [] (view_header ++ partial_lines) (typing [])).
Proof.
  assert (Forall2 (fun e m => expense_line e = inl m) partial_valid partial_lines)
    as Hgood by (by repeat constructor).
  destruct (view_expenses_listing partial_tracker (typing [])
              partial_valid partial_lines Hgood) as [_ Hstop].
  eapply Hstop; reflexivity.
Defined.

(** X11: the total stops at the first record whose amount is a text or
    [None], as a failed load leaves them: [sum] raises [TypeError], and
    with a budget that is not 0 [track_budget] lets it through before
    printing anything. *)
Theorem track_budget_raises_on_unconverted_amount (t : tracker)
    (good : list expense) (amounts : list number)
    (bad : expense) (rest : list expense) (v : value) :
  expenses t = good ++ bad :: rest ->
  amounts_are good amounts ->
  items bad !! "amount" = Some v ->
  (forall n, v <> VNum n) ->
  total_expenses t = inr TypeError
  /\ (Num.eqb (monthly_budget t) (Int 0) = false ->
      forall w, track_budget t w = (Raise TypeError, t, w)).
Proof.
  intros Ht Hgood Hv Hnum.
  assert (total_expenses t = inr TypeError) as Htot.
  { unfold total_expenses. rewrite Ht. clear Ht. generalize (Int 0).
    induction Hgood as [|e a good amounts He _ IH]; intros acc; simpl.
    - unfold lookup_item. rewrite Hv. destruct v as [| |n]; try done.
      by destruct (Hnum n).
    - unfold lookup_item. rewrite He. apply IH. }
  split; [done|]. intros Hb w. unfold track_budget. by rewrite Hb, Htot.
Qed.

Lemma track_budget_raises_on_unconverted_amount_witness :
  total_expenses partial_tracker = inr TypeError
  /\ (Num.eqb (monthly_budget partial_tracker) (Int 0) = false ->
      forall w, track_budget partial_tracker w = (Raise TypeError, partial_tracker, w)).
Proof.
  eapply (track_budget_raises_on_unconverted_amount partial_tracker
            partial_valid [Float f1_5; Float f2_5]).
  - reflexivity.
  - by repeat constructor.
  - reflexivity.
  - discriminate.
Defined.

(** ** A session on validated records *)

Lemma valid_expense_line (e : expense) :
  valid_expense e -> exists m, expense_line e = inl m.
Proof. intros (d & c & a & s & -> & _). by eexists. Qed.

Lemma valid_lines (l : list expense) :
  Forall valid_expense l ->
  exists lines, Forall2 (fun e m => expense_line e = inl m) l lines.
Proof.
  induction 1 as [|e l He _ [lines IH]].
  - by exists [].
  - destruct (valid_expense_line e He) as [m Hm]. exists (m :: lines).
    by constructor.
Qed.

Lemma valid_amounts (l : list expense) :
  Forall valid_expense l -> exists amounts, amounts_are l amounts.
Proof.
  induction 1 as [|e l (d & c & a & s & -> & _) _ [amounts IH]].
  - exists []. constructor.
  - exists (Float a :: amounts). by constructor.
Qed.

Lemma perform_valid_outcome (a : action) (t : tracker) (w : world) :
  Forall valid_expense (expenses t) ->
  let r := (perform a t w).1.1 in
  r = Ret tt \/ r = Raise EOFError \/ r = Loops.
Proof.
  intros Hv. destruct a; simpl.
  - unfold add_expense.
    destruct (read_expense (stdin w) (stdout w)) as [[[e|x|] i] o] eqn:H; simpl; auto.
  - destruct (valid_lines _ Hv) as [lines Hl].
    unfold view_expenses. destruct (expenses t) as [|e l] eqn:He; [by left|].
    rewrite <- (app_nil_r (e :: l)), (print_expenses_app _ _ _ _ Hl). by left.
  - unfold set_budget.
    destruct (read_budget (stdin w) (stdout w)) as [[[b|x|] i] o] eqn:H; auto.
    apply read_budget_fail in H as [-> _]. auto.
  - unfold track_budget. destruct (Num.eqb _ _).
    + simpl. destruct (stdin w); [by right; left|].
      destruct (_ =? _)%string; [|by left].
      unfold set_budget. simpl.
      match goal with |- context [read_budget ?i ?o] =>
        destruct (read_budget i o) as [[[b|x|] i'] o'] eqn:H
      end; auto.
      apply read_budget_fail in H as [-> _]. auto.
    + destruct (valid_amounts _ Hv) as [amounts Ha].
      unfold total_expenses. rewrite (sum_amounts_numbers _ _ Ha).
      destruct (Num.gtb _ _); by left.
  - unfold save_expenses. destruct (save_text t) as [text ok]. by left.
Qed.

Lemma run_loop_valid (fuel : nat) :
  forall t w r t' w',
    Forall valid_expense (expenses t) ->
    run_loop fuel t w = Some (r, t', w') ->
    Forall valid_expense (expenses t')
    /\ (r = Ret tt \/ r = Raise EOFError \/ r = Loops).
Proof.
  induction fuel as [|fuel IH]; intros t w r t' w' Hv H; [done|].
  rewrite run_loop_step in H. destruct (stdin w) as [|choice inp].
  { inversion H; subst. auto. }
  destruct (choice_action choice) as [a|].
  - unfold turn in H.
    pose proof (perform_keeps_valid a t (after_choice inp w) Hv) as Hk.
    pose proof (perform_valid_outcome a t (after_choice inp w) Hv) as Ho.
    unfold tracker_after in Hk. simpl in Ho.
    destruct (perform a t (after_choice inp w)) as [[[u|e|] t1] w1];
      simpl in Hk, Ho.
    + by eapply IH.
    + inversion H; subst. auto.
    + inversion H; subst. auto.
  - destruct (choice =? "5")%string; [|by eapply IH].
    inversion H; subst. split; [|by left].
    by apply (perform_keeps_valid SaveExpenses).
Qed.

(** X12: on a ledger of validated records no exception other than the
    end of the input leaves [run]: it returns, or [EOFError] leaves it, or
    it stays inside [add_expense]; and the records it ends with are
    validated as well. *)
Theorem run_on_valid_ledger (t : tracker) (w : world) :
  Forall valid_expense (expenses t) ->
  exists r t' w',
    run t w = Some (r, t', w')
    /\ Forall valid_expense (expenses t')
    /\ (r = Ret tt \/ r = Raise EOFError \/ r = Loops).
Proof.
  intros Hv.
  destruct (run_loop_enough (S (length (stdin w))) t w) as [[[r t'] w'] Hr];
    [lia|].
  exists r, t', w'. split; [done|]. by eapply run_loop_valid.
Qed.

Lemma run_on_valid_ledger_witness :
  exists r t' w',
    run (with_expenses partial_valid (empty_tracker "expenses.csv")) add_and_stop
    = Some (r, t', w')
    /\ Forall valid_expense (expenses t')
    /\ (r = Ret tt \/ r = Raise EOFError \/ r = Loops).
Proof.
  apply (run_on_valid_ledger
           (with_expenses partial_valid (empty_tracker "expenses.csv"))
           add_and_stop).
  repeat constructor.
  - exists "2024-01-01", "Food", f1_5, "lunch".
    split; [reflexivity|]. split; [by eexists|]. by repeat split.
  - exists "2024-01-02", "Travel", f2_5, "bus".
    split; [reflexivity|]. split; [by eexists|]. by repeat split.
Defined.

(** X13: [main] on a first run (no file yet): the tracker starts empty,
    every record it ends with was validated on entry, nothing but the end
    of the input can interrupt it, and when it returns the file holds the
    text of the ledger it ends with. *)
Theorem main_first_run (w : world) :
  files w !! "expenses.csv" = None ->
  exists r t' w',
    main w = Some (r, t', w')
    /\ Forall valid_expense (expenses t')
    /\ (r = Ret tt \/ r = Raise EOFError \/ r = Loops)
    /\ (r = Ret tt -> files w' !! "expenses.csv" = Some (save_text t').1).
Proof.
  intros Hfile. unfold main, init, load_expenses. simpl. rewrite Hfile.
  destruct (run_loop_enough (S (length (stdin w)))
              (empty_tracker "expenses.csv") w) as [[[r t'] w'] Hr]; [lia|].
  exists r, t', w'. split; [done|].
  destruct (run_loop_valid _ (empty_tracker "expenses.csv") w r t' w'
              (Forall_nil_2 _) Hr) as [Hv Ho].
  split; [done|]. split; [done|]. intros ->.
  apply run_loop_exit in Hr as (Hf & Hs & _). by rewrite Hf in Hs.
Qed.

Lemma main_first_run_witness :
  exists r t' w',
    main add_and_exit = Some (r, t', w')
    /\ Forall valid_expense (expenses t')
    /\ (r = Ret tt \/ r = Raise EOFError \/ r = Loops)
    /\ (r = Ret tt -> files w' !! "expenses.csv" = Some (save_text t').1).
Proof. apply (main_first_run add_and_exit). reflexivity. Defined.

(** ** Saving a ledger that holds a record the writer refuses *)

Lemma writerows_written (good : list expense) (rows : list (list string)) :
  written good rows ->
  Dict.writerows good = (Str.concat (List.map Csv.writerow rows), true)
  /\ forall bad rest,
       Dict.to_list bad = None ->
       Dict.writerows (good ++ bad :: rest)
       = (Str.concat (List.map Csv.writerow rows), false).
Proof.
  induction 1 as [|e row good rows He _ [IH1 IH2]]; simpl.
  - split; [done|]. intros bad rest Hbad. by rewrite Hbad.
  - rewrite He, IH1. split; [done|]. intros bad rest Hbad.
    by rewrite (IH2 bad rest Hbad).
Qed.

(** X14: [save_expenses] replaces the file by the budget line, the header
    and one line per record.  A record the writer refuses (one read from
    a line with more fields than the header, or with a key of its own)
    ends the writing: the error is reported, and the file keeps only the
    lines of the records before it, so the records after it are no longer
    on disk. *)
Theorem save_expenses_stops_at_refused_record (t : tracker) (w : world)
    (good : list expense) (rows : list (list string)) :
  written good rows ->
  (expenses t = good ->
   save_expenses t w
   = (Ret tt, t,
      print (SayFile "Expenses saved to " (filename t))
        (write_file (filename t) (file_text (monthly_budget t) rows) w)))
  /\ forall bad rest,
       expenses t = good ++ bad :: rest ->
       Dict.to_list bad = None ->
       save_expenses t w
       = (Ret tt, t,
          print (SayError "Error saving expenses: " ValueError)
            (write_file (filename t) (file_text (monthly_budget t) rows) w)).
Proof.
  intros Hw. destruct (writerows_written good rows Hw) as [H1 H2]. split.
  - intros Ht. unfold save_expenses, save_text. by rewrite Ht, H1.
  - intros bad rest Ht Hbad. unfold save_expenses, save_text.
    by rewrite Ht, (H2 bad rest Hbad).
Qed.

Lemma save_expenses_stops_at_refused_record_witness :
  expenses five_fields_tracker
  = [new_expense "2024-01-01" "Food" f1_5 "lunch"; five_fields_record;
     new_expense "2024-01-03" "Rent" f3_5 "room"]
  /\ save_expenses five_fields_tracker (on_disk five_fields_file)
     = (Ret tt, five_fields_tracker,
        print (SayError "Error saving expenses: " ValueError)
          (write_file "expenses.csv"
             (file_text (Float fifty) [["2024-01-01"; "Food"; "1.5"; "lunch"]])
             (on_disk five_fields_file))).
Proof.
  assert (expenses five_fields_tracker
          = [new_expense "2024-01-01" "Food" f1_5 "lunch"]
            ++ five_fields_record
            :: [new_expense "2024-01-03" "Rent" f3_5 "room"]) as Ht
    by (vm_compute; reflexivity).
  split; [exact Ht|].
  assert (written [new_expense "2024-01-01" "Food" f1_5 "lunch"]
            [["2024-01-01"; "Food"; "1.5"; "lunch"]]) as Hw.
  { repeat constructor. }
  exact (proj2 (save_expenses_stops_at_refused_record five_fields_tracker
                  (on_disk five_fields_file) _ _ Hw)
           five_fields_record _ Ht eq_refl).
Defined.

(** ** The budget a file brings *)

(** X15: on loading, the second token of the first line becomes the
    budget whenever it reads as a number: the label before it is not
    looked at and the number is not checked, so a budget that
    [set_budget] refuses (zero, a negative number) is taken from a file.
    A first line without a comma leaves the budget at 0. *)
Theorem load_takes_any_number_as_budget (path content : string) (w : world) :
  files w !! path = Some content ->
  (forall label token more b,
     budget_tokens content = label :: token :: more ->
     PyFloat.of_string token = Some b ->
     monthly_budget (tracker_after (init path w)) = Float b)
  /\ (forall label,
        budget_tokens content = [label] ->
        monthly_budget (tracker_after (init path w)) = Int 0).
Proof.
  intros Hfile.
  unfold init, load_expenses, budget_tokens, read_budget_line, tracker_after.
  simpl. rewrite Hfile.
  destruct (TextFile.readline (TextFile.universal_newlines content))
    as [budget_line body]. simpl. split.
  - intros label token more b -> ->.
    destruct (Csv.rows (TextFile.lines body)) as [rows|]; [|done].
    destruct (convert_amounts (Dict.read rows)) as [l [x|]]; done.
  - intros label ->.
    destruct (Csv.rows (TextFile.lines body)) as [rows|]; [|done].
    destruct (convert_amounts (Dict.read rows)) as [l [x|]]; done.
Qed.

Lemma load_takes_any_number_as_budget_witness :
  monthly_budget (tracker_after (init "expenses.csv" (on_disk negative_budget_file)))
  = Float minus_five
  /\ PyFloat.leb minus_five PyFloat.zero = true.
Proof.
  split; [|reflexivity].
  apply (proj1 (load_takes_any_number_as_budget "expenses.csv"
                  negative_budget_file (on_disk negative_budget_file) eq_refl)
           "Savings" "-5" ["per month"]).
  - vm_compute. reflexivity.
  - vm_compute. reflexivity.
Defined.

(** ** The budget report once a budget is set *)

Lemma leb_false_not_zero (b : PyFloat.float) :
  PyFloat.leb b PyFloat.zero = false -> Num.eqb (Float b) (Int 0) = false.
Proof. by destruct b as [[]|[]| |[] m e]. Qed.

(** X16: once [set_budget] has returned, the budget is not 0, so
    [track_budget] does not ask for a budget again: it reads no input and
    leaves the tracker as it is. *)
Theorem track_budget_after_set_budget (t : tracker) (w : world)
    (t' : tracker) (w' : world) :
  set_budget t w = (Ret tt, t', w') ->
  Num.eqb (monthly_budget t') (Int 0) = false
  /\ tracker_after (track_budget t' w') = t'
  /\ stdin (world_after (track_budget t' w')) = stdin w'
  /\ files (world_after (track_budget t' w')) = files w'.
Proof.
  unfold set_budget. intros H.
  destruct (read_budget (stdin w) (stdout w)) as [[[b|x|] i] o] eqn:Hr;
    [|done..].
  apply read_budget_fail in Hr as [Hb _]. inversion H; subst.
  apply leb_false_not_zero in Hb. split; [exact Hb|].
  unfold track_budget, tracker_after, world_after.
  change (monthly_budget (with_budget (Float b) t)) with (Float b).
  rewrite Hb.
  destruct (total_expenses (with_budget (Float b) t)); [|done].
  by destruct (Num.gtb _ _).
Qed.

Lemma track_budget_after_set_budget_witness :
  let r := set_budget (three_tracker (Int 0)) (typing ["0"; "50"; "y"]) in
  tracker_after r = three_tracker (Float fifty)
  /\ tracker_after (track_budget (tracker_after r) (world_after r)) = tracker_after r
  /\ stdin (world_after (track_budget (tracker_after r) (world_after r))) = ["y"].
Proof.
  intros r.
  assert (set_budget (three_tracker (Int 0)) (typing ["0"; "50"; "y"])
          = (Ret tt, tracker_after r, world_after r)) as H
    by (vm_compute; reflexivity).
  destruct (track_budget_after_set_budget _ _ _ _ H) as (_ & H1 & H2 & _).
  split; [vm_compute; reflexivity|]. split; [exact H1|exact H2].
Defined.

(** ** The files a session writes *)

Lemma perform_other_files (a : action) (t : tracker) (w : world) (p : string) :
  p <> filename t ->
  files (world_after (perform a t w)) !! p = files w !! p.
Proof.
  intros Hp.
  destruct a;
    try (by rewrite (proj2 (proj2 (perform_input_files _ t w))); [|discriminate]).
  unfold world_after. simpl. unfold save_expenses.
  destruct (save_text t) as [text ok].
  destruct ok; simpl; by rewrite lookup_insert_ne.
Qed.

Lemma run_loop_other_files (fuel : nat) :
  forall t w r t' w' p,
    p <> filename t ->
    run_loop fuel t w = Some (r, t', w') ->
    files w' !! p = files w !! p /\ filename t' = filename t.
Proof.
  induction fuel as [|fuel IH]; intros t w r t' w' p Hp H; [done|].
  rewrite run_loop_step in H. destruct (stdin w) as [|choice inp].
  { by inversion H; subst. }
  destruct (choice_action choice) as [a|].
  - unfold turn in H.
    pose proof (perform_other_files a t (after_choice inp w) p Hp) as Ho.
    pose proof (perform_input_files a t (after_choice inp w)) as (_ & Hf & _).
    unfold world_after in Ho. unfold tracker_after in Hf.
    destruct (perform a t (after_choice inp w)) as [[[u|e|] t1] w1];
      simpl in Ho, Hf.
    + apply (IH _ _ _ _ _ p) in H as [H1 H2]; [|by rewrite Hf].
      split; [by rewrite H1, Ho | by rewrite H2].
    + by inversion H; subst.
    + by inversion H; subst.
  - destruct (choice =? "5")%string;
      [|apply (IH _ _ _ _ _ p Hp) in H; exact H].
    inversion H; subst.
    pose proof (perform_other_files SaveExpenses t (after_choice inp w) p Hp) as Ho.
    pose proof (perform_input_files SaveExpenses t (after_choice inp w))
      as (_ & Hf & _).
    done.
Qed.

(** X17: whatever is typed, [run] writes to no file but the tracker's
    own, whose name it never changes. *)
Theorem run_writes_only_own_file (t : tracker) (w : world)
    (r : outcome unit) (t' : tracker) (w' : world) (p : string) :
  p <> filename t ->
  run t w = Some (r, t', w') ->
  files w' !! p = files w !! p /\ filename t' = filename t.
Proof. apply run_loop_other_files. Qed.

Lemma run_writes_only_own_file_witness :
  let r := run_result (empty_tracker "expenses.csv") two_files_world in
  r.1.1 = Ret tt
  /\ files (world_after r) !! "notes.txt" = Some "keep"
  /\ filename (tracker_after r) = "expenses.csv".
Proof.
  intros r.
  assert (run (empty_tracker "expenses.csv") two_files_world
          = Some (Ret tt, tracker_after r, world_after r)) as H
    by (vm_compute; reflexivity).
  split; [vm_compute; reflexivity|].
  refine (run_writes_only_own_file _ _ _ _ _ "notes.txt" _ H).
  discriminate.
Defined.

(** ** The dates that are accepted *)

Lemma digit_val_range (c : ascii) (d : Z) :
  Chars.digit_val c = Some d -> 0 <= d <= 9.
Proof.
  unfold Chars.digit_val.
  destruct ((48 <=? Chars.code c)%N && (Chars.code c <=? 57)%N) eqn:H; [|done].
  apply andb_true_iff in H as [H1 H2].
  apply N.leb_le in H1, H2. intros [= <-]. lia.
Qed.

Lemma dash_match (A : Type) (b : ascii) (X Y : A) :
  match b with "-"%char => X | _ => Y end
  = if Ascii.eqb b "-" then X else Y.
Proof. destruct b as [[] [] [] [] [] [] [] []]; reflexivity. Qed.

Lemma month_bound (s : string) (m : Z) (rest : string) :
  Date.month s = Some (m, rest) -> 1 <= m <= 12.
Proof.
  unfold Date.month. destruct s as [|a [|b s]]; try done.
  rewrite dash_match. destruct (Ascii.eqb b "-").
  - destruct (Chars.digit_val a) as [d|] eqn:Ha; [|done].
    apply digit_val_range in Ha.
    destruct (1 <=? d) eqn:Hd; [|done]. intros [= <- _]. lia.
  - destruct s as [|c s]; [done|]. rewrite dash_match.
    destruct (Ascii.eqb c "-"); [|done].
    destruct (Chars.digit_val a) as [[|[]|]|]; try done.
    + destruct (Chars.digit_val b) as [d|] eqn:Hb; [|done].
      apply digit_val_range in Hb.
      destruct (1 <=? d) eqn:Hd; [|done]. intros [= <- _]. lia.
    + destruct (Chars.digit_val b) as [d|] eqn:Hb; [|done].
      apply digit_val_range in Hb.
      destruct (d <=? 2) eqn:Hd; [|done]. intros [= <- _]. lia.
Qed.

Lemma day_bound (s : string) (d : Z) : Date.day s = Some d -> 1 <= d <= 31.
Proof.
  unfold Date.day. destruct s as [|a [|b [|c s]]]; try done.
  - destruct (Chars.digit_val a) as [x|] eqn:Ha; [|done].
    apply digit_val_range in Ha.
    destruct (1 <=? x) eqn:Hx; [|done]. intros [= <-]. lia.
  - destruct (Chars.digit_val b) as [y|] eqn:Hb.
    + apply digit_val_range in Hb.
      destruct (Chars.digit_val a) as [x|] eqn:Ha.
      * apply digit_val_range in Ha.
        assert (x = 0 \/ x = 1 \/ x = 2 \/ x = 3 \/ 4 <= x) as Hx by lia.
        destruct Hx as [->|[->|[->|[->|Hx]]]]; cbn.
        -- destruct (1 <=? y) eqn:Hy; [|done]. intros [= <-]. lia.
        -- intros [= <-]. lia.
        -- intros [= <-]. lia.
        -- destruct (y <=? 1) eqn:Hy; [|done]. intros [= <-]. lia.
        -- destruct x as [|[[]|[]|]|]; try lia;
             (destruct (_ <=? 2) eqn:Hle; [|done]); apply Z.leb_le in Hle; lia.
      * destruct ((Chars.code a =? 32)%N && (1 <=? y)) eqn:Hy; [|done].
        apply andb_true_iff in Hy as [_ Hy]. intros [= <-]. lia.
    + by destruct (Chars.digit_val a) as [[|[[]|[]|]|]|].
Qed.

Lemma year4_bound (a b c d : ascii) (y : Z) :
  Date.year4 a b c d = Some y -> 0 <= y <= 9999.
Proof.
  unfold Date.year4.
  destruct (Chars.digit_val a) as [x1|] eqn:H1; [|done].
  destruct (Chars.digit_val b) as [x2|] eqn:H2; [|done].
  destruct (Chars.digit_val c) as [x3|] eqn:H3; [|done].
  destruct (Chars.digit_val d) as [x4|] eqn:H4; [|done].
  apply digit_val_range in H1, H2, H3, H4. intros [= <-]. lia.
Qed.

Lemma strptime_calendar (s : string) (y m d : Z) :
  Date.strptime s = Some (y, m, d) ->
  1 <= y <= 9999 /\ 1 <= m <= 12 /\ 1 <= d <= Date.days_in_month y m.
Proof.
  unfold Date.strptime.
  destruct s as [|a [|b [|c [|e [|f s]]]]]; try done.
  rewrite dash_match. destruct (Ascii.eqb f "-"); [|done].
  destruct (Date.year4 a b c e) as [y'|] eqn:Hy; [|done].
  apply year4_bound in Hy.
  destruct (Date.month s) as [[m' s2]|] eqn:Hm; [|done].
  apply month_bound in Hm.
  destruct (Date.day s2) as [d'|] eqn:Hd; [|done].
  apply day_bound in Hd.
  destruct ((1 <=? y') && (d' <=? Date.days_in_month y' m')) eqn:Hc; [|done].
  apply andb_true_iff in Hc as [H1 H2]. intros [= <- <- <-]. lia.
Qed.

(** X18: a date [get_valid_date] returns is one of the lines typed and
    denotes a day of the calendar: a year from 1 to 9999, a month from 1
    to 12 and a day that the month has in that year. *)
Theorem get_valid_date_calendar (inp : list string) (out : list msg)
    (date : string) (inp' : list string) (out' : list msg) :
  get_valid_date inp out = (Ret date, inp', out') ->
  date ∈ inp
  /\ exists y m d,
       Date.strptime date = Some (y, m, d)
       /\ 1 <= y <= 9999 /\ 1 <= m <= 12 /\ 1 <= d <= Date.days_in_month y m.
Proof.
  revert out. induction inp as [|line inp IH]; intros out H; simpl in H.
  - by inversion H.
  - destruct (Date.strptime line) as [[[y m] d]|] eqn:Hline.
    + inversion H; subst. split; [by apply elem_of_cons; left|].
      exists y, m, d. split; [done|]. by apply (strptime_calendar date).
    + destruct (IH _ H) as [Hin Hdate].
      split; [by apply elem_of_cons; right|done].
Qed.

Lemma get_valid_date_calendar_witness :
  "2024-02-29" ∈ ["2023-02-29"; "2024-13-01"; "2024-02-29"; "Food"]
  /\ exists y m d,
       Date.strptime "2024-02-29" = Some (y, m, d)
       /\ 1 <= y <= 9999 /\ 1 <= m <= 12 /\ 1 <= d <= Date.days_in_month y m.
Proof.
  apply (get_valid_date_calendar
           ["2023-02-29"; "2024-13-01"; "2024-02-29"; "Food"] []
           "2024-02-29" ["Food"]
           (date_refused ++ date_refused ++ [Prompt date_prompt])).
  reflexivity.
Defined.

(** ** A budget that is not a number *)

(** X19: a line that reads as NaN passes the test of [set_budget], which
    only refuses what is [<= 0]: NaN becomes the budget.  From then on
    [track_budget] reports a remaining balance of NaN and never warns,
    whatever has been spent. *)
Theorem set_budget_accepts_nan (t : tracker) (w : world)
    (line : string) (rest : list string) :
  stdin w = line :: rest ->
  PyFloat.of_string line = Some PyFloat.nan ->
  exists w',
    set_budget t w = (Ret tt, with_budget (Float PyFloat.nan) t, w')
    /\ monthly_budget (tracker_after (set_budget t w)) = Float PyFloat.nan
    /\ stdin w' = rest
    /\ forall total w2,
         total_expenses t = inl total ->
         exists w3,
           track_budget (with_budget (Float PyFloat.nan) t) w2
           = (Ret tt, with_budget (Float PyFloat.nan) t, w3)
           /\ stdout w3
              = stdout w2 ++ report_head (Float PyFloat.nan) total
                ++ [SayAmount "Remaining Balance: $" (Float PyFloat.nan)].
Proof.
  intros Hin Hline. unfold set_budget, tracker_after. rewrite Hin. simpl.
  rewrite Hline.
  simpl. eexists. split; [reflexivity|]. split; [reflexivity|].
  split; [reflexivity|].
  intros total w2 Htot. unfold track_budget.
  change (total_expenses (with_budget (Float PyFloat.nan) t))
    with (total_expenses t).
  rewrite Htot.
  change (monthly_budget (with_budget (Float PyFloat.nan) t))
    with (Float PyFloat.nan).
  assert (Num.eqb (Float PyFloat.nan) (Int 0) = false) as -> by reflexivity.
  assert (Num.gtb total (Float PyFloat.nan) = false) as -> by by destruct total.
  assert (Num.sub (Float PyFloat.nan) total = Float PyFloat.nan) as ->
    by by destruct total.
  eexists. split; [reflexivity|]. simpl. by rewrite <- !app_assoc.
Qed.

Lemma set_budget_accepts_nan_witness :
  exists w',
    set_budget (three_tracker (Int 0)) (typing ["nan"; "3"])
    = (Ret tt, with_budget (Float PyFloat.nan) (three_tracker (Int 0)), w')
    /\ monthly_budget
         (tracker_after (set_budget (three_tracker (Int 0)) (typing ["nan"; "3"])))
       = Float PyFloat.nan
    /\ stdin w' = ["3"]
    /\ forall total w2,
         total_expenses (three_tracker (Int 0)) = inl total ->
         exists w3,
           track_budget (with_budget (Float PyFloat.nan) (three_tracker (Int 0))) w2
           = (Ret tt, with_budget (Float PyFloat.nan) (three_tracker (Int 0)), w3)
           /\ stdout w3
              = stdout w2 ++ report_head (Float PyFloat.nan) total
                ++ [SayAmount "Remaining Balance: $" (Float PyFloat.nan)].
Proof.
  apply (set_budget_accepts_nan (three_tracker (Int 0)) (typing ["nan"; "3"])
           "nan" ["3"]); reflexivity.
Defined.

(** ** The total after a load and after an entry *)

Lemma float_amounts (l : list expense) :
  Forall has_float_amount l -> exists amounts, amounts_are l amounts.
Proof.
  induction 1 as [|e l [x Hx] _ [amounts IH]].
  - exists []. constructor.
  - exists (Float x :: amounts). by constructor.
Qed.

(** X20: when starting on a file ends with the message that the expenses
    were loaded, every record in memory carries a double as its amount,
    so the total can be computed: [track_budget] will not stop on a
    [TypeError]. *)
Theorem load_success_amounts (path : string) (w : world) (out : list msg) :
  stdout (world_after (init path w))
  = out ++ [SayFile "Expenses loaded from " path] ->
  Forall has_float_amount (expenses (tracker_after (init path w)))
  /\ exists total, total_expenses (tracker_after (init path w)) = inl total.
Proof.
  intros Hout.
  assert (Forall has_float_amount (expenses (tracker_after (init path w))))
    as Hall.
  { revert Hout. unfold init, load_expenses, tracker_after, world_after. simpl.
    destruct (files w !! path) as [content|]; [|by constructor].
    destruct (TextFile.readline (TextFile.universal_newlines content))
      as [budget_line body].
    destruct (read_budget_line budget_line (empty_tracker path)) as [t1|x];
      simpl.
    - destruct (Csv.rows (TextFile.lines body)) as [rows|]; simpl.
      + destruct (convert_amounts (Dict.read rows)) as [l [x|]] eqn:Hc; simpl.
        * intros H. by apply app_inj_tail in H as [_ H].
        * intros _. by eapply convert_amounts_done.
      + intros H. by apply app_inj_tail in H as [_ H].
    - intros H. by apply app_inj_tail in H as [_ H]. }
  split; [done|].
  destruct (float_amounts _ Hall) as [amounts Ha].
  eexists. unfold total_expenses. by rewrite (sum_amounts_numbers _ _ Ha).
Qed.

Lemma load_success_amounts_witness :
  Forall has_float_amount (expenses five_fields_tracker)
  /\ exists total, total_expenses five_fields_tracker = inl total.
Proof.
  apply (load_success_amounts "expenses.csv" (on_disk five_fields_file) []).
  vm_compute. reflexivity.
Defined.

Lemma get_positive_float_line (prompt : string) (inp : list string) :
  forall out a inp' out',
    get_positive_float prompt inp out = (Ret a, inp', out') ->
    exists skipped line,
      inp = skipped ++ line :: inp'
      /\ Forall not_positive skipped
      /\ PyFloat.of_string line = Some a
      /\ PyFloat.ltb PyFloat.zero a = true.
Proof.
  induction inp as [|l inp IH]; intros out a inp' out' H; simpl in H.
  - discriminate.
  - destruct (PyFloat.of_string l) as [v|] eqn:Hl.
    + destruct (PyFloat.ltb PyFloat.zero v) eqn:Hv.
      * inversion H; subst. exists [], l. by repeat split.
      * destruct (IH _ _ _ _ H) as (skipped & line & -> & Hs & Hline & Ha).
        exists (l :: skipped), line. repeat split; try done.
        constructor; [|done]. unfold not_positive. by rewrite Hl.
    + destruct (IH _ _ _ _ H) as (skipped & line & -> & Hs & Hline & Ha).
      exists (l :: skipped), line. repeat split; try done.
      constructor; [|done]. unfold not_positive. by rewrite Hl.
Qed.

(** X21: when [add_expense] returns, the record it appended carries the
    amount that was entered: the number of the first line, among those
    left after the date and the category, that reads as a number above
    0; and the total of the ledger is the total before plus that
    amount. *)
Theorem add_expense_raises_total (t : tracker) (w : world)
    (t' : tracker) (w' : world) (total : number) :
  add_expense t w = (Ret tt, t', w') ->
  total_expenses t = inl total ->
  exists date category description inp1 out1 inp2 out2 skipped line rest a,
    get_valid_date (stdin w) (stdout w) = (Ret date, inp1, out1)
    /\ get_non_empty_input category_prompt inp1 out1 = (Ret category, inp2, out2)
    /\ inp2 = skipped ++ line :: rest
    /\ Forall not_positive skipped
    /\ PyFloat.of_string line = Some a
    /\ PyFloat.ltb PyFloat.zero a = true
    /\ expenses t' = expenses t ++ [new_expense date category a description]
    /\ total_expenses t' = inl (Num.add total (Float a)).
Proof.
  unfold add_expense, read_expense. intros H Htot.
  destruct (get_valid_date (stdin w) (stdout w)) as [[[d|x|] i1] o1] eqn:H1;
    [|done..].
  destruct (get_non_empty_input category_prompt i1 o1)
    as [[[c|x|] i2] o2] eqn:H2; [|done..].
  destruct (get_positive_float amount_prompt i2 o2)
    as [[[a|x|] i3] o3] eqn:H3; [|done..].
  destruct (get_non_empty_input description_prompt i3 o3)
    as [[[ds|x|] i4] o4] eqn:H4; [|done..].
  destruct (get_positive_float_line _ _ _ _ _ _ H3)
    as (skipped & line & Hsplit & Hskip & Hline & Ha).
  inversion H; subst t' w'.
  exists d, c, ds, i1, o1, i2, o2, skipped, line, i3, a.
  repeat split; try done.
  by apply total_expenses_snoc.
Qed.

Lemma add_expense_raises_total_witness :
  exists date category description inp1 out1 inp2 out2 skipped line rest a,
    get_valid_date ["2024-01-08"; "Food"; "0"; "1.5"; "tea"] []
    = (Ret date, inp1, out1)
    /\ get_non_empty_input category_prompt inp1 out1 = (Ret category, inp2, out2)
    /\ inp2 = skipped ++ line :: rest
    /\ Forall not_positive skipped
    /\ PyFloat.of_string line = Some a
    /\ PyFloat.ltb PyFloat.zero a = true
    /\ expenses
         (tracker_after
            (add_expense (three_tracker (Int 0))
               (typing ["2024-01-08"; "Food"; "0"; "1.5"; "tea"])))
       = three_expenses ++ [new_expense date category a description]
    /\ total_expenses
         (tracker_after
            (add_expense (three_tracker (Int 0))
               (typing ["2024-01-08"; "Food"; "0"; "1.5"; "tea"])))
       = inl (Num.add (Float f119_75) (Float a)).
Proof.
  apply (add_expense_raises_total (three_tracker (Int 0))
           (typing ["2024-01-08"; "Food"; "0"; "1.5"; "tea"])
           _ (world_after (add_expense (three_tracker (Int 0))
                             (typing ["2024-01-08"; "Food"; "0"; "1.5"; "tea"]))));
    reflexivity.
Defined.
